(** * InvokeLens SDK: a shallow embedding of the runtime core

    The development follows the layout of the Python package
    [invokelens_sdk]: one module per source file ([tracing.py],
    [cost.py], [fingerprint.py], [status.py], [transport.py],
    [decorators.py], [client.py]), preceded by the fragment of Python
    the sources rely on (strings, JSON-like values, exceptions, a state
    and exception monad over the process state).

    Modelling conventions, used throughout:
    - Python [float] values that hold seconds or prices are rationals
      ([Q]); the non-finite floats that [float("inf")] and the JSON
      parser can produce are explicit constructors.
    - A Python [str] is a [string]; its characters are the [ascii]
      characters of the string and [len] is [String.length].
    - Objects that are mutated and shared (spans, trace contexts, the
      status cache, the rate tracker) live in the process state
      [World]; a reference to one of them is an address.
    - The world outside the process (clocks, the HTTP backend, the
      identifiers drawn by [uuid4]) is an oracle stored in [World]. *)

From Stdlib Require Import QArith Qround Qabs Lqa ZArith Lia Ascii String Sorted.
From stdpp Require Import base strings list gmap.
Close Scope Q_scope.
Set Warnings "-register-all".

(* ================================================================= *)
(** * Python strings *)
(* ================================================================= *)

Module PyStr.

(** [len(s)] *)
Definition len (s : string) : Z := Z.of_nat (String.length s).

(** The first [n] characters of [s], all of [s] when it is shorter. *)
Fixpoint take (n : nat) (s : string) : string :=
  match n, s with
  | O, _ => EmptyString
  | S n', EmptyString => EmptyString
  | S n', String c s' => String c (take n' s')
  end.

(** [s] without its first [n] characters. *)
Fixpoint drop (n : nat) (s : string) : string :=
  match n, s with
  | O, _ => s
  | S n', EmptyString => EmptyString
  | S n', String _ s' => drop n' s'
  end.

(** [s[:k]]: a negative stop counts from the end of the string. *)
Definition slice_to (s : string) (k : Z) : string :=
  if (0 <=? k)%Z then take (Z.to_nat k) s
  else take (Z.to_nat (len s + k)) s.

(** [s.endswith(suffix)] *)
Definition endswith (s suffix : string) : bool :=
  if (String.length suffix <=? String.length s)%nat
  then String.eqb (drop (String.length s - String.length suffix) s) suffix
  else false.

(** [s * n]: [n] copies of [s], none when [n <= 0]. *)
Fixpoint repeat_nat (s : string) (n : nat) : string :=
  match n with
  | O => EmptyString
  | S n' => s +:+ repeat_nat s n'
  end.

Definition repeat (s : string) (n : Z) : string := repeat_nat s (Z.to_nat n).

(** The character classes below are those of the ASCII range; a
    character outside it is taken to be neither a space, nor cased, nor
    a word character. *)

Definition code (c : ascii) : nat := nat_of_ascii c.

Definition between (lo hi : nat) (c : ascii) : bool :=
  (lo <=? code c)%nat && (code c <=? hi)%nat.

(** [c.isspace()]: tab, line feed, vertical tab, form feed, carriage
    return, the four separators 28 to 31, and the space. *)
Definition is_space (c : ascii) : bool :=
  between 9 13 c || between 28 32 c.

(** [c.lower()] *)
Definition lower_char (c : ascii) : ascii :=
  if between 65 90 c then ascii_of_nat (code c + 32) else c.

(** [s.lower()] *)
Fixpoint lower (s : string) : string :=
  match s with
  | EmptyString => EmptyString
  | String c rest => String (lower_char c) (lower rest)
  end.

(** [s.lstrip()] *)
Fixpoint lstrip (s : string) : string :=
  match s with
  | EmptyString => EmptyString
  | String c rest => if is_space c then lstrip rest else s
  end.

(** [s.rstrip()] *)
Fixpoint rstrip (s : string) : string :=
  match s with
  | EmptyString => EmptyString
  | String c rest =>
      match rstrip rest with
      | EmptyString => if is_space c then EmptyString else String c EmptyString
      | rest' => String c rest'
      end
  end.

(** [s.strip()] *)
Definition strip (s : string) : string := rstrip (lstrip s).

(** [len(s.split())]: the number of maximal runs of characters that
    are not spaces; [in_word] says that the previous character was
    part of such a run. *)
Fixpoint count_words (in_word : bool) (s : string) : nat :=
  match s with
  | EmptyString => 0
  | String c rest =>
      if is_space c then count_words false rest
      else if in_word then count_words true rest
           else S (count_words true rest)
  end.

(** [s.count(c)] for a single character [c]. *)
Fixpoint count_char (c : ascii) (s : string) : nat :=
  match s with
  | EmptyString => 0
  | String c' rest =>
      if Ascii.eqb c c' then S (count_char c rest) else count_char c rest
  end.

(** The regular-expression classes [[a-zA-Z_]] and [\w]. *)
Definition is_ident_start (c : ascii) : bool :=
  between 97 122 c || between 65 90 c || Ascii.eqb c "_".

Definition is_word (c : ascii) : bool :=
  is_ident_start c || between 48 57 c.

End PyStr.

(* ================================================================= *)
(** * tracing.py, part 1: truncation of span input and output *)
(* ================================================================= *)

Definition MAX_SPANS_PER_TRACE : nat := 100.
Definition MAX_IO_LENGTH : Z := 2000.

(** The marker appended by [_truncate]; it is 14 characters long, which
    is the literal 14 subtracted in the source. *)
Definition truncation_marker : string := "...[truncated]".

(** [_truncate(value, max_len=MAX_IO_LENGTH)].  [value] is an
    [Optional[str]]; on a [str] the conversion [str(value)] is the
    identity. *)
Definition _truncate (value : option string) (max_len : Z) : option string :=
  match value with
  | None => None
  | Some value =>
      if (PyStr.len value <=? max_len)%Z then Some value
      else Some (PyStr.slice_to value (max_len - 14) +:+ "...[truncated]")
  end.

(** What a span stores for an input or output string [s]. *)
Definition stored_io (s : string) : string :=
  match _truncate (Some s) MAX_IO_LENGTH with
  | Some r => r
  | None => EmptyString
  end.

(** Truncation occurred: the stored value is not the string given. *)
Definition was_truncated (s : string) : bool :=
  negb (String.eqb (stored_io s) s).

(* ================================================================= *)
(** * transport.py: the retried HTTP flush *)
(* ================================================================= *)

Module Transport.

Definition MAX_RETRIES : nat := 3.
Definition INITIAL_BACKOFF_SECONDS : Q := 1.
Definition BACKOFF_MULTIPLIER : Q := 2.

(** What one call of [httpx.post] does: it returns a response, of
    which the flush reads [status_code] and [text], or it raises. *)
Inductive PostOutcome :=
| Response (status_code : Z) (text : string)
| PostRaises (exc_type : string).

(** The calls [_flush_http] makes, in the order it makes them. *)
Inductive Effect :=
| Post (attempt : nat) (batch : list string)
| Sleep (seconds : Q)
| LogRejected (status_code : Z) (body : string)
| LogServerError (status_code : Z) (attempt : nat)
| LogException (exc_type : string) (attempt : nat)
| LogDropped (attempts : nat) (events : nat).

Section Flush.

(** The server: the outcome of the POST made at each attempt. *)
Variable server : nat -> PostOutcome.
Variable batch : list string.

(** The body of [for attempt in range(MAX_RETRIES + 1)], over the
    attempts still to run; [backoff] is the loop-carried variable.
    A [return] inside the loop ends the trace; leaving the loop
    reaches the final [logger.error]. *)
Fixpoint flush_loop (attempts : list nat) (backoff : Q) : list Effect :=
  match attempts with
  | [] => [LogDropped (MAX_RETRIES + 1) (length batch)]
  | attempt :: rest =>
      let retry (log : Effect) :=
        if (attempt <? MAX_RETRIES)%nat
        then log :: Sleep backoff
                 :: flush_loop rest (backoff * BACKOFF_MULTIPLIER)%Q
        else log :: flush_loop rest backoff in
      Post attempt batch ::
      match server attempt with
      | Response status_code text =>
          if (status_code <? 400)%Z then []
          else if (400 <=? status_code)%Z && (status_code <? 500)%Z
               then [LogRejected status_code (PyStr.slice_to text 200)]
               else retry (LogServerError status_code (attempt + 1))
      | PostRaises exc_type => retry (LogException exc_type (attempt + 1))
      end
  end.

(** [EventTransport._flush_http(batch)] *)
Definition _flush_http : list Effect :=
  flush_loop (seq 0 (MAX_RETRIES + 1)) INITIAL_BACKOFF_SECONDS.

End Flush.

(** Observations on a trace of effects. *)
Definition is_post (e : Effect) : bool :=
  match e with Post _ _ => true | _ => false end.

Definition is_post_or_sleep (e : Effect) : bool :=
  match e with Post _ _ | Sleep _ => true | _ => false end.

Definition post_attempts (tr : list Effect) : nat :=
  length (List.filter is_post tr).

Definition posts_and_sleeps (tr : list Effect) : list Effect :=
  List.filter is_post_or_sleep tr.

(** The longest schedule a flush can follow: four POSTs separated by
    sleeps of 1, 2 and 4 seconds. *)
Definition full_schedule (batch : list string) : list Effect :=
  [Post 0 batch; Sleep 1; Post 1 batch; Sleep 2; Post 2 batch; Sleep 4;
   Post 3 batch].

Definition is_4xx (o : PostOutcome) : bool :=
  match o with
  | Response c _ => (400 <=? c)%Z && (c <? 500)%Z
  | PostRaises _ => false
  end.

End Transport.

(* ================================================================= *)
(** * Python values *)
(* ================================================================= *)

(** A Python [float]: a rational, or one of the non-finite values. *)
Inductive pyfloat :=
| FFin (q : Q)
| FInf
| FNegInf
| FNan.

(** The values that flow through the SDK untyped: what a JSON document
    decodes to ([None], [bool], [int], [float], [str], [list], [dict]
    with [str] keys, the latter in insertion order), and a reference to
    a [TraceContext] object, which the wrapper passes to user code. *)
Inductive pyval :=
| PNone
| PBool (b : bool)
| PInt (n : Z)
| PFloat (x : pyfloat)
| PStr (s : string)
| PList (l : list pyval)
| PDict (d : list (string * pyval))
| PTrace (t : nat).

Module PyFloat.

Definition of_Z (n : Z) : pyfloat := FFin (inject_Z n).

Definition neg (x : pyfloat) : pyfloat :=
  match x with
  | FFin q => FFin (- q)%Q
  | FInf => FNegInf
  | FNegInf => FInf
  | FNan => FNan
  end.

Definition add (x y : pyfloat) : pyfloat :=
  match x, y with
  | FNan, _ | _, FNan => FNan
  | FFin a, FFin b => FFin (a + b)%Q
  | FInf, FNegInf | FNegInf, FInf => FNan
  | FInf, _ | _, FInf => FInf
  | FNegInf, _ | _, FNegInf => FNegInf
  end.

Definition sub (x y : pyfloat) : pyfloat := add x (neg y).

(** An infinity times the finite [q]. *)
Definition scale_inf (positive : bool) (q : Q) : pyfloat :=
  match (q ?= 0)%Q with
  | Eq => FNan
  | Gt => if positive then FInf else FNegInf
  | Lt => if positive then FNegInf else FInf
  end.

Definition mul (x y : pyfloat) : pyfloat :=
  match x, y with
  | FNan, _ | _, FNan => FNan
  | FFin a, FFin b => FFin (a * b)%Q
  | FInf, FFin q | FFin q, FInf => scale_inf true q
  | FNegInf, FFin q | FFin q, FNegInf => scale_inf false q
  | FInf, FInf | FNegInf, FNegInf => FInf
  | FInf, FNegInf | FNegInf, FInf => FNegInf
  end.

(** [x / d] for a finite, non-zero divisor [d]. *)
Definition div_by (x : pyfloat) (d : Q) : pyfloat :=
  match x with
  | FFin a => FFin (a / d)%Q
  | other => scale_inf (match other with FInf => true | _ => false end) d
  end.

Definition Qltb (a b : Q) : bool := negb (Qle_bool b a).

(** [x < y]; every comparison with a NaN is false. *)
Definition ltb (x y : pyfloat) : bool :=
  match x, y with
  | FNan, _ | _, FNan => false
  | FFin a, FFin b => Qltb a b
  | FNegInf, FNegInf => false
  | FNegInf, _ => true
  | _, FInf => match x with FInf => false | _ => true end
  | _, _ => false
  end.

(** [x <= y] *)
Definition leb (x y : pyfloat) : bool :=
  match x, y with
  | FNan, _ | _, FNan => false
  | FFin a, FFin b => Qle_bool a b
  | FNegInf, _ => true
  | _, FInf => true
  | _, _ => false
  end.

(** [x == y] *)
Definition eqb (x y : pyfloat) : bool :=
  match x, y with
  | FFin a, FFin b => Qeq_bool a b
  | FInf, FInf | FNegInf, FNegInf => true
  | _, _ => false
  end.

(** [bool(x)]: only zero is false. *)
Definition truthy (x : pyfloat) : bool :=
  match x with
  | FFin q => negb (Qeq_bool q 0)
  | _ => true
  end.

End PyFloat.

(** The exceptions of interest.  [AgentBlockedError] and
    [PolicyViolationError] carry the attributes their constructors set;
    [Raised] is an exception of any other class, raised by code outside
    the SDK (the user function, a transport, the HTTP client), with its
    class name, its [str] and whether the class derives from
    [Exception] (rather than only from [BaseException]). *)
Inductive ViolationMessage :=
| CostCapMessage (estimated : pyfloat) (max_cost : pyval)
| TokenLimitMessage (estimated_input max_tokens : pyval)
| RateLimitMessage (count : Z) (window_minutes max_invocations : pyval)
| TimeRestrictionMessage (current_hour : Z) (allowed_start allowed_end : pyval).

Inductive exn :=
| AgentBlockedError (agent_id : string) (reason : pyval)
| PolicyViolationError (agent_id : string) (policy_id policy_type : pyval)
                       (violation_message : ViolationMessage)
| TypeError
| AttributeError
| KeyError
| IndexError
| ValueError
| ZeroDivisionError
| ValidationError
| Raised (is_exception : bool) (class_name : string) (message : string).

(** [isinstance(e, Exception)]: what [except Exception] catches. *)
Definition is_Exception (e : exn) : bool :=
  match e with
  | Raised b _ _ => b
  | _ => true
  end.

(** The outcome of running Python code: a value, or a raised
    exception. *)
Inductive Result (A : Type) :=
| Ret (a : A)
| Raise (e : exn).
Arguments Ret {A} a.
Arguments Raise {A} e.

Module Py.

(** A number, as the arithmetic operators see it; [bool] is a
    subclass of [int]. *)
Inductive num :=
| NInt (n : Z)
| NFloat (x : pyfloat).

Definition as_num (v : pyval) : option num :=
  match v with
  | PBool b => Some (NInt (if b then 1 else 0))
  | PInt n => Some (NInt n)
  | PFloat x => Some (NFloat x)
  | _ => None
  end.

Definition to_float (n : num) : pyfloat :=
  match n with
  | NInt z => PyFloat.of_Z z
  | NFloat x => x
  end.

Definition of_num (n : num) : pyval :=
  match n with
  | NInt z => PInt z
  | NFloat x => PFloat x
  end.

(** [bool(v)] *)
Definition truthy (v : pyval) : bool :=
  match v with
  | PNone => false
  | PBool b => b
  | PInt n => negb (n =? 0)%Z
  | PFloat x => PyFloat.truthy x
  | PStr s => negb (String.eqb s "")
  | PList l => match l with [] => false | _ => true end
  | PDict d => match d with [] => false | _ => true end
  | PTrace _ => true
  end.

(** [a or b] *)
Definition or_else (a b : pyval) : pyval := if truthy a then a else b.

(** [v == s] for a [str] constant [s]. *)
Definition eq_str (v : pyval) (s : string) : bool :=
  match v with
  | PStr s' => String.eqb s' s
  | _ => false
  end.

Definition is_dict (v : pyval) : bool :=
  match v with PDict _ => true | _ => false end.

Definition is_str (v : pyval) : bool :=
  match v with PStr _ => true | _ => false end.

(** Lookup in the items of a [dict]. *)
Fixpoint assoc (d : list (string * pyval)) (key : string) : option pyval :=
  match d with
  | [] => None
  | (k, v) :: rest => if String.eqb k key then Some v else assoc rest key
  end.

(** [d[key] = value] on the items of a [dict]: an existing key keeps
    its position. *)
Fixpoint assoc_set (d : list (string * pyval)) (key : string) (value : pyval)
  : list (string * pyval) :=
  match d with
  | [] => [(key, value)]
  | (k, v) :: rest =>
      if String.eqb k key then (k, value) :: rest
      else (k, v) :: assoc_set rest key value
  end.

(** [v.get(key, default)]: only a [dict] has the method. *)
Definition get (v : pyval) (key : string) (default : pyval) : Result pyval :=
  match v with
  | PDict d => Ret (match assoc d key with Some x => x | None => default end)
  | _ => Raise AttributeError
  end.

(** [a * b]: the product of two numbers, or the repetition of a
    sequence. *)
Definition mul (a b : pyval) : Result pyval :=
  match as_num a, as_num b with
  | Some (NInt x), Some (NInt y) => Ret (PInt (x * y))
  | Some x, Some y => Ret (PFloat (PyFloat.mul (to_float x) (to_float y)))
  | _, _ =>
      match a, as_num b with
      | PStr s, Some (NInt n) => Ret (PStr (PyStr.repeat s n))
      | PList l, Some (NInt n) => Ret (PList (concat (replicate (Z.to_nat n) l)))
      | _, _ =>
          match as_num a, b with
          | Some (NInt n), PStr s => Ret (PStr (PyStr.repeat s n))
          | Some (NInt n), PList l =>
              Ret (PList (concat (replicate (Z.to_nat n) l)))
          | _, _ => Raise TypeError
          end
      end
  end.

(** [a - b] *)
Definition sub (a b : pyval) : Result pyval :=
  match as_num a, as_num b with
  | Some (NInt x), Some (NInt y) => Ret (PInt (x - y))
  | Some x, Some y => Ret (PFloat (PyFloat.sub (to_float x) (to_float y)))
  | _, _ => Raise TypeError
  end.

(** [a / 1000]: true division by the constant of [estimate_cost],
    always a [float]. *)
Definition div_1000 (a : pyval) : Result pyfloat :=
  match as_num a with
  | Some x => Ret (PyFloat.div_by (to_float x) 1000)
  | None => Raise TypeError
  end.

(** [x - b] for a [float] [x]: a [float], whatever number [b] is. *)
Definition float_sub (x : pyfloat) (b : pyval) : Result pyfloat :=
  match as_num b with
  | Some y => Ret (PyFloat.sub x (to_float y))
  | None => Raise TypeError
  end.

Definition num_ltb (x y : num) : bool :=
  match x, y with
  | NInt a, NInt b => (a <? b)%Z
  | _, _ => PyFloat.ltb (to_float x) (to_float y)
  end.

Definition num_leb (x y : num) : bool :=
  match x, y with
  | NInt a, NInt b => (a <=? b)%Z
  | _, _ => PyFloat.leb (to_float x) (to_float y)
  end.

Definition num_eqb (x y : num) : bool :=
  match x, y with
  | NInt a, NInt b => (a =? b)%Z
  | _, _ => PyFloat.eqb (to_float x) (to_float y)
  end.

(** [a == b] *)
Fixpoint eqb (a b : pyval) {struct a} : bool :=
  match a, b with
  | PNone, PNone => true
  | PStr s, PStr t => String.eqb s t
  | PTrace s, PTrace t => (s =? t)%nat
  | PList l, PList m =>
      (fix all2 (l m : list pyval) {struct l} : bool :=
         match l, m with
         | [], [] => true
         | x :: l', y :: m' => eqb x y && all2 l' m'
         | _, _ => false
         end) l m
  | PDict d, PDict e =>
      (length d =? length e)%nat &&
      (fix sub (d : list (string * pyval)) {struct d} : bool :=
         match d with
         | [] => true
         | (k, x) :: d' =>
             match assoc e k with
             | Some y => eqb x y && sub d'
             | None => false
             end
         end) d
  | _, _ =>
      match as_num a, as_num b with
      | Some x, Some y => num_eqb x y
      | _, _ => false
      end
  end.

(** [a < b] ([strict]) or [a <= b]; [None] where Python raises
    [TypeError].  Two lists are ordered at the first position where
    they differ, by length when one is a prefix of the other. *)
Fixpoint order (strict : bool) (a b : pyval) {struct a} : option bool :=
  match a, b with
  | PStr s, PStr t => Some (if strict then String.ltb s t else String.leb s t)
  | PList l, PList m =>
      (fix go (l m : list pyval) {struct l} : option bool :=
         match l, m with
         | [], [] => Some (negb strict)
         | [], _ :: _ => Some true
         | _ :: _, [] => Some false
         | x :: l', y :: m' => if eqb x y then go l' m' else order strict x y
         end) l m
  | _, _ =>
      match as_num a, as_num b with
      | Some x, Some y => Some (if strict then num_ltb x y else num_leb x y)
      | _, _ => None
      end
  end.

Definition compare (r : option bool) : Result bool :=
  match r with
  | Some b => Ret b
  | None => Raise TypeError
  end.

Definition lt (a b : pyval) : Result bool := compare (order true a b).
Definition le (a b : pyval) : Result bool := compare (order false a b).
Definition gt (a b : pyval) : Result bool := compare (order true b a).
Definition ge (a b : pyval) : Result bool := compare (order false b a).

(** [len(v)] *)
Definition len (v : pyval) : Result Z :=
  match v with
  | PStr s => Ret (PyStr.len s)
  | PList l => Ret (Z.of_nat (length l))
  | PDict d => Ret (Z.of_nat (length d))
  | _ => Raise TypeError
  end.

(** [v[i]] for the constant indices 0 and 1 the SDK uses. *)
Definition index (v : pyval) (i : nat) : Result pyval :=
  match v with
  | PList l => match l !! i with Some x => Ret x | None => Raise IndexError end
  | PStr s =>
      match String.get i s with
      | Some c => Ret (PStr (String c EmptyString))
      | None => Raise IndexError
      end
  | PDict _ => Raise KeyError
  | _ => Raise TypeError
  end.

(** The elements [for x in v] visits. *)
Definition iter (v : pyval) : Result (list pyval) :=
  match v with
  | PList l => Ret l
  | PStr s => Ret (map (fun c => PStr (String c EmptyString)) (list_ascii_of_string s))
  | PDict d => Ret (map (fun kv => PStr (fst kv)) d)
  | _ => Raise TypeError
  end.

End Py.

(* ================================================================= *)
(** * The process state *)
(* ================================================================= *)

(** [tracing.SpanType] and the [status] literal of a span. *)
Inductive SpanType := llm | tool | chain | retrieval | guardrail | custom.
Inductive SpanStatus := OK | ERROR.

(** The [started_at] attribute of a span: the ISO-8601 rendering of an
    instant, or a string [datetime.fromisoformat] rejects. *)
Inductive IsoString :=
| IsoOf (instant : Z)
| NotIso (text : string).

Module Span.
(** [tracing.Span].  The token counts and the model id are stored as
    they are passed to [end_span], which does not validate them. *)
Record t := make {
  span_id : nat;
  parent_span_id : option nat;
  span_type : SpanType;
  name : string;
  started_at : IsoString;
  ended_at : option Z;
  duration_ms : Z;
  input : option string;
  output : option string;
  status : SpanStatus;
  error : option string;
  model_id : pyval;
  input_tokens : pyval;
  output_tokens : pyval;
  estimated_cost_usd : pyfloat
}.
End Span.

Module TraceContext.
(** [tracing.TraceContext]: the stored spans, as addresses of [Span]
    objects, and the stack of the ids of the spans still open, top
    first. *)
Record t := make {
  _spans : list nat;
  _active_stack : list nat
}.
End TraceContext.

Module CacheEntry.
(** [status._CacheEntry] *)
Record t := make {
  status : pyval;
  blocked_reason : pyval;
  policies : pyval;
  expires_at : Q
}.
End CacheEntry.

(** What one [httpx.get] on the status endpoint does: it returns a
    response with a status code and a body that [response.json()]
    decodes (or rejects, [None]), or it raises. *)
Inductive GetOutcome :=
| GetResponse (status_code : Z) (json : option pyval)
| GetRaises (e : exn).

(** A call that reached the body of a user function. *)
Record CallRecord := mkCall {
  call_name : string;
  call_args : list pyval;
  call_kwargs : list (string * pyval)
}.

Record World := mkWorld {
  (** [time.monotonic()], in seconds *)
  mono : Q;
  (** [datetime.now(timezone.utc)], in microseconds since the epoch *)
  wall : Z;
  (** the next identifier [uuid.uuid4()] draws *)
  uuid_supply : nat;
  (** the [Span] objects, by address *)
  heap : list Span.t;
  (** the [TraceContext] objects, by address *)
  traces : list TraceContext.t;
  (** [_rate_tracker._counts] *)
  rate_counts : gmap string (list Q);
  (** [AgentStatusChecker._cache] *)
  status_cache : gmap string CacheEntry.t;
  (** the status endpoint: latency and outcome of the k-th GET *)
  backend : nat -> string -> Q * GetOutcome;
  (** the URLs requested with [httpx.get], latest first *)
  requests : list string;
  (** [EventTransport._queue] *)
  queue : list string;
  (** [cost._custom_pricing] *)
  custom_pricing : gmap string (Q * Q);
  (** [os.environ] at [AWS_DEFAULT_REGION] *)
  aws_default_region : option string;
  (** the calls that entered a user function body, latest first *)
  calls : list CallRecord
}.

Definition with_mono (x : Q) (w : World) : World :=
  mkWorld x (wall w) (uuid_supply w) (heap w) (traces w) (rate_counts w) (status_cache w) (backend w) (requests w) (queue w) (custom_pricing w) (aws_default_region w) (calls w).

Definition with_wall (x : Z) (w : World) : World :=
  mkWorld (mono w) x (uuid_supply w) (heap w) (traces w) (rate_counts w) (status_cache w) (backend w) (requests w) (queue w) (custom_pricing w) (aws_default_region w) (calls w).

Definition with_uuid_supply (x : nat) (w : World) : World :=
  mkWorld (mono w) (wall w) x (heap w) (traces w) (rate_counts w) (status_cache w) (backend w) (requests w) (queue w) (custom_pricing w) (aws_default_region w) (calls w).

Definition with_heap (x : list Span.t) (w : World) : World :=
  mkWorld (mono w) (wall w) (uuid_supply w) x (traces w) (rate_counts w) (status_cache w) (backend w) (requests w) (queue w) (custom_pricing w) (aws_default_region w) (calls w).

Definition with_traces (x : list TraceContext.t) (w : World) : World :=
  mkWorld (mono w) (wall w) (uuid_supply w) (heap w) x (rate_counts w) (status_cache w) (backend w) (requests w) (queue w) (custom_pricing w) (aws_default_region w) (calls w).

Definition with_rate_counts (x : gmap string (list Q)) (w : World) : World :=
  mkWorld (mono w) (wall w) (uuid_supply w) (heap w) (traces w) x (status_cache w) (backend w) (requests w) (queue w) (custom_pricing w) (aws_default_region w) (calls w).

Definition with_status_cache (x : gmap string CacheEntry.t) (w : World) : World :=
  mkWorld (mono w) (wall w) (uuid_supply w) (heap w) (traces w) (rate_counts w) x (backend w) (requests w) (queue w) (custom_pricing w) (aws_default_region w) (calls w).

Definition with_backend (x : nat -> string -> Q * GetOutcome) (w : World) : World :=
  mkWorld (mono w) (wall w) (uuid_supply w) (heap w) (traces w) (rate_counts w) (status_cache w) x (requests w) (queue w) (custom_pricing w) (aws_default_region w) (calls w).

Definition with_requests (x : list string) (w : World) : World :=
  mkWorld (mono w) (wall w) (uuid_supply w) (heap w) (traces w) (rate_counts w) (status_cache w) (backend w) x (queue w) (custom_pricing w) (aws_default_region w) (calls w).

Definition with_queue (x : list string) (w : World) : World :=
  mkWorld (mono w) (wall w) (uuid_supply w) (heap w) (traces w) (rate_counts w) (status_cache w) (backend w) (requests w) x (custom_pricing w) (aws_default_region w) (calls w).


Definition with_aws_default_region (x : option string) (w : World) : World :=
  mkWorld (mono w) (wall w) (uuid_supply w) (heap w) (traces w) (rate_counts w) (status_cache w) (backend w) (requests w) (queue w) (custom_pricing w) x (calls w).

Definition with_calls (x : list CallRecord) (w : World) : World :=
  mkWorld (mono w) (wall w) (uuid_supply w) (heap w) (traces w) (rate_counts w) (status_cache w) (backend w) (requests w) (queue w) (custom_pricing w) (aws_default_region w) x.

(** Time passes: both clocks advance by [d] seconds. *)
Definition elapse (d : Q) (w : World) : World :=
  with_mono (mono w + d)%Q (with_wall (wall w + Qfloor (d * 1000000)) w).

(* ================================================================= *)
(** * Computations: state and exceptions *)
(* ================================================================= *)

(** A Python computation takes the process state and gives a value or
    a raised exception, and the state it leaves; what it wrote before
    raising stays written. *)
Definition M (A : Type) : Type := World -> Result A * World.

Definition ret {A} (a : A) : M A := fun w => (Ret a, w).
Definition raise {A} (e : exn) : M A := fun w => (Raise e, w).

Definition bind {A B} (m : M A) (k : A -> M B) : M B :=
  fun w =>
    match m w with
    | (Ret a, w') => k a w'
    | (Raise e, w') => (Raise e, w')
    end.

Declare Scope py_scope.
Delimit Scope py_scope with py.
Notation "'let*' x ':=' m 'in' k" := (bind m (fun x => k))
  (at level 10, x binder, m at level 100, k at level 200) : py_scope.
Notation "'let*' ' pat ':=' m 'in' k" :=
  (bind m (fun x => match x with pat => k end))
  (at level 10, pat pattern, m at level 100, k at level 200) : py_scope.
Notation "'run' m 'then' k" := (bind m (fun _ => k))
  (at level 10, m at level 100, k at level 200) : py_scope.
Local Open Scope py_scope.

(** A pure operation that may raise. *)
Definition lift {A} (r : Result A) : M A := fun w => (r, w).

Definition get_world : M World := fun w => (Ret w, w).
Definition modify (f : World -> World) : M unit := fun w => (Ret tt, f w).

(** [try: m  except Exception as e: handler(e)] *)
Definition try_except {A} (m : M A) (handler : exn -> M A) : M A :=
  fun w =>
    match m w with
    | (Raise e, w') => if is_Exception e then handler e w' else (Raise e, w')
    | ok => ok
    end.

(** [try: m  finally: cleanup]: the cleanup runs on every exit, and an
    exception it raises replaces the outcome of [m]. *)
Definition try_finally {A} (m : M A) (cleanup : Result A -> M unit) : M A :=
  fun w =>
    let '(r, w') := m w in
    match cleanup r w' with
    | (Ret _, w'') => (r, w'')
    | (Raise e, w'') => (Raise e, w'')
    end.

(** [for x in xs: body(x)] *)
Fixpoint for_each {A} (xs : list A) (body : A -> M unit) : M unit :=
  match xs with
  | [] => ret tt
  | x :: rest => run body x then for_each rest body
  end.

(* ================================================================= *)
(** * cost.py *)
(* ================================================================= *)

Module Cost.

(** Prices in USD per 1,000 tokens: (input, output). *)
Definition MODEL_PRICING : list (string * (Q * Q)) :=
  [ ("anthropic.claude-3-5-sonnet", (3 # 1000, 15 # 1000));
    ("anthropic.claude-3-sonnet", (3 # 1000, 15 # 1000));
    ("anthropic.claude-3-haiku", (25 # 100000, 125 # 100000));
    ("anthropic.claude-3-opus", (15 # 1000, 75 # 1000));
    ("amazon.titan-text-lite-v1", (3 # 10000, 4 # 10000));
    ("amazon.titan-text-express-v1", (8 # 10000, 16 # 10000));
    ("meta.llama3-70b-instruct-v1", (265 # 100000, 35 # 10000));
    ("meta.llama3-8b-instruct-v1", (3 # 10000, 6 # 10000));
    ("mistral.mistral-large", (4 # 1000, 12 # 1000));
    ("mistral.mistral-small", (1 # 1000, 3 # 1000));
    ("cohere.command-r-plus-v1", (3 # 1000, 15 # 1000));
    ("_default", (3 # 1000, 15 # 1000)) ]%Q.

Fixpoint table_get (table : list (string * (Q * Q))) (key : string)
  : option (Q * Q) :=
  match table with
  | [] => None
  | (k, v) :: rest => if String.eqb k key then Some v else table_get rest key
  end.

(** [MODEL_PRICING["_default"]] *)
Definition default_pricing : Q * Q :=
  match table_get MODEL_PRICING "_default" with
  | Some p => p
  | None => (0, 0)%Q
  end.


(** The key under which [model_id] is looked up in a [dict] with
    [str] keys: a [list] or [dict] is unhashable and the lookup
    raises [TypeError]; a value that is not a [str] is found in
    neither table. *)
Definition lookup_key (model_id : pyval) : Result (option string) :=
  match model_id with
  | PStr s => Ret (Some s)
  | PList _ | PDict _ => Raise TypeError
  | _ => Ret None
  end.

(** Round half to even at the eighth decimal. *)
Definition round_half_even (q : Q) : Z :=
  let f := Qfloor q in
  match ((q - inject_Z f) ?= (1 # 2))%Q with
  | Lt => f
  | Gt => (f + 1)%Z
  | Eq => if Z.even f then f else (f + 1)%Z
  end.

(** [round(x, 8)] *)
Definition round8 (x : pyfloat) : pyfloat :=
  match x with
  | FFin q => FFin (inject_Z (round_half_even (q * 100000000)) / 100000000)%Q
  | other => other
  end.

(** [estimate_cost(model_id, input_tokens, output_tokens)] *)
Definition estimate_cost (model_id input_tokens output_tokens : pyval)
  : M pyfloat :=
  let* key := lift (lookup_key model_id) in
  let* w := get_world in
  let pricing :=
    match key with
    | Some k =>
        match custom_pricing w !! k with
        | Some p => p
        | None =>
            match table_get MODEL_PRICING k with
            | Some p => p
            | None => default_pricing
            end
        end
    | None => default_pricing
    end in
  let* input_thousands := lift (Py.div_1000 input_tokens) in
  let input_cost := PyFloat.mul input_thousands (FFin (fst pricing)) in
  let* output_thousands := lift (Py.div_1000 output_tokens) in
  let output_cost := PyFloat.mul output_thousands (FFin (snd pricing)) in
  ret (round8 (PyFloat.add input_cost output_cost)).

End Cost.

(* ================================================================= *)
(** * tracing.py, part 2: spans and trace contexts *)
(* ================================================================= *)

Module Tracing.

(** A value of the [SpanType] literal, as pydantic checks it. *)
Definition span_type_of_string (s : string) : option SpanType :=
  if String.eqb s "llm" then Some llm
  else if String.eqb s "tool" then Some tool
  else if String.eqb s "chain" then Some chain
  else if String.eqb s "retrieval" then Some retrieval
  else if String.eqb s "guardrail" then Some guardrail
  else if String.eqb s "custom" then Some custom
  else None.

Definition span_type_name (t : SpanType) : string :=
  match t with
  | llm => "llm" | tool => "tool" | chain => "chain"
  | retrieval => "retrieval" | guardrail => "guardrail" | custom => "custom"
  end.

(** [uuid.uuid4()]: an identifier never drawn before. *)
Definition uuid4 : M nat :=
  fun w => (Ret (uuid_supply w), with_uuid_supply (S (uuid_supply w)) w).

(** [datetime.now(timezone.utc)] *)
Definition utcnow : M Z := fun w => (Ret (wall w), w).

(** A reference to a [Span] object is an address the model handed
    out; an address that was never allocated stands for an object of
    another class, and reading an attribute of a span from it raises
    [AttributeError]. *)
Definition get_span (a : nat) : M Span.t :=
  fun w =>
    match heap w !! a with
    | Some s => (Ret s, w)
    | None => (Raise AttributeError, w)
    end.

(** Assignment to attributes of the span at address [a]. *)
Definition update_span (a : nat) (f : Span.t -> Span.t) : M unit :=
  run get_span a then
  modify (fun w => with_heap (alter f a (heap w)) w).

Definition get_trace (t : nat) : M TraceContext.t :=
  fun w =>
    match traces w !! t with
    | Some tc => (Ret tc, w)
    | None => (Raise AttributeError, w)
    end.

Definition put_trace (t : nat) (tc : TraceContext.t) : M unit :=
  modify (fun w => with_traces (<[t := tc]> (traces w)) w).

(** [TraceContext()] *)
Definition new_trace : M nat :=
  fun w =>
    (Ret (length (traces w)),
     with_traces (traces w ++ [TraceContext.make [] []]) w).

(** [Span(name=.., span_type=.., parent_span_id=.., input=..,
    model_id=..)]: pydantic validates the arguments ([name] a [str],
    [span_type] one of the literals, [model_id] a [str] or [None]),
    the default factories draw the id and read the clock, and the
    new object gets an address. *)
Definition new_span (name : pyval) (span_type : string)
           (parent_span_id : option nat) (input : option string)
           (model_id : pyval) : M nat :=
  match name, span_type_of_string span_type, model_id with
  | PStr name, Some span_type, (PNone | PStr _) =>
      let* span_id := uuid4 in
      let* now := utcnow in
      fun w =>
        (Ret (length (heap w)),
         with_heap
           (heap w ++
              [Span.make span_id parent_span_id span_type name (IsoOf now)
                 None 0 input None OK None model_id (PInt 0) (PInt 0)
                 (FFin 0)]) w)
  | _, _, _ => raise ValidationError
  end.

(** [TraceContext.start_span(name, span_type, input, model_id)] on
    the trace context at address [t]. *)
Definition start_span (t : nat) (name : pyval) (span_type : string)
           (input : option string) (model_id : pyval) : M nat :=
  let* tc := get_trace t in
  if (MAX_SPANS_PER_TRACE <=? length (TraceContext._spans tc))%nat then
    (* a detached span that won't be recorded *)
    new_span name span_type None (_truncate input MAX_IO_LENGTH) model_id
  else
    let parent_id := head (TraceContext._active_stack tc) in
    let* span := new_span name span_type parent_id
                   (_truncate input MAX_IO_LENGTH) model_id in
    let* s := get_span span in
    run put_trace t
          (TraceContext.make
             (TraceContext._spans tc ++ [span])
             (Span.span_id s :: TraceContext._active_stack tc)) then
    ret span.

(** [int((now - started).total_seconds() * 1000)], or 0 where
    [datetime.fromisoformat] raises [ValueError]. *)
Definition duration_since (started_at : IsoString) (now : Z) : Z :=
  match started_at with
  | IsoOf started => Z.quot (now - started) 1000
  | NotIso _ => 0
  end.

(** The attribute assignments at the head of [end_span], made at the
    instant [now]: [ended_at], [output], [status], [error], the token
    counts, [model_id] when one is given, and [duration_ms]. *)
Definition finish (now : Z) (output : option string) (status : SpanStatus)
           (error : option string) (input_tokens output_tokens model_id : pyval)
           (s : Span.t) : Span.t :=
  Span.make (Span.span_id s) (Span.parent_span_id s) (Span.span_type s)
    (Span.name s) (Span.started_at s)
    (Some now)
    (duration_since (Span.started_at s) now)
    (Span.input s)
    (_truncate output MAX_IO_LENGTH)
    status error
    (if Py.truthy model_id then model_id else Span.model_id s)
    input_tokens output_tokens
    (Span.estimated_cost_usd s).

(** [span.estimated_cost_usd = cost] *)
Definition with_cost (cost : pyfloat) (s : Span.t) : Span.t :=
  Span.make (Span.span_id s) (Span.parent_span_id s) (Span.span_type s)
    (Span.name s) (Span.started_at s) (Span.ended_at s) (Span.duration_ms s)
    (Span.input s) (Span.output s) (Span.status s) (Span.error s)
    (Span.model_id s) (Span.input_tokens s) (Span.output_tokens s) cost.

(** The end of [end_span]: the active stack is popped when its top is
    the id of the span that ends. *)
Definition pop_if_top (t : nat) (span_id : nat) : M unit :=
  let* tc := get_trace t in
  match TraceContext._active_stack tc with
  | top :: rest =>
      if (top =? span_id)%nat
      then put_trace t (TraceContext.make (TraceContext._spans tc) rest)
      else ret tt
  | [] => ret tt
  end.

(** [TraceContext.end_span(span, output, status, error, input_tokens,
    output_tokens, model_id)] *)
Definition end_span (t : nat) (span : nat) (output : option string)
           (status : SpanStatus) (error : option string)
           (input_tokens output_tokens model_id : pyval) : M unit :=
  let* now := utcnow in
  run update_span span
        (finish now output status error input_tokens output_tokens model_id) then
  let* s := get_span span in
  (* Compute cost if we have a model and tokens *)
  run (if Py.truthy (Span.model_id s)
          && (Py.truthy input_tokens || Py.truthy output_tokens)
       then
         let* cost := Cost.estimate_cost (Span.model_id s) input_tokens
                        output_tokens in
         update_span span (with_cost cost)
       else ret tt) then
  pop_if_top t (Span.span_id s).

(** [TraceContext.spans]: a copy of the list of stored spans. *)
Definition spans (t : nat) : M (list Span.t) :=
  let* tc := get_trace t in
  fun w => (Ret (omap (fun a => heap w !! a) (TraceContext._spans tc)), w).

(** [TraceContext.to_dicts()]: the stored spans, serialized. *)
Definition to_dicts (t : nat) : M (list Span.t) := spans t.

End Tracing.

(* ================================================================= *)
(** * status.py: the rate tracker and the status cache *)
(* ================================================================= *)

Module Status.

Definition DEFAULT_STATUS_TTL_SECONDS : Q := 10.

(** [time.monotonic()] *)
Definition monotonic : M Q := fun w => (Ret (mono w), w).

(** ** [_RateLimitTracker], on the module-level singleton
    [_rate_tracker] *)

(** [_rate_tracker.record_invocation(agent_id)] *)
Definition record_invocation (agent_id : string) : M unit :=
  let* now := monotonic in
  modify (fun w =>
    with_rate_counts
      (<[agent_id := default [] (rate_counts w !! agent_id) ++ [now]]>
         (rate_counts w)) w).

(** The timestamps newer than [cutoff]. *)
Definition newer_than (cutoff : pyfloat) (timestamps : list Q) : list Q :=
  List.filter (fun t => PyFloat.ltb cutoff (FFin t)) timestamps.

(** [_rate_tracker.count_in_window(agent_id, window_seconds)] *)
Definition count_in_window (agent_id : string) (window_seconds : pyval)
  : M Z :=
  let* now := monotonic in
  let* cutoff := lift (Py.float_sub (FFin now) window_seconds) in
  let* w := get_world in
  let timestamps := default [] (rate_counts w !! agent_id) in
  (* Prune old entries *)
  let timestamps := newer_than cutoff timestamps in
  run modify (fun w =>
        with_rate_counts (<[agent_id := timestamps]> (rate_counts w)) w) then
  ret (Z.of_nat (length timestamps)).

(** ** [AgentStatusChecker] *)

(** [s.rstrip("/")] *)
Fixpoint rstrip_slash (s : string) : string :=
  match s with
  | EmptyString => EmptyString
  | String c rest =>
      match rstrip_slash rest with
      | EmptyString => if Ascii.eqb c "/" then EmptyString else String c EmptyString
      | rest' => String c rest'
      end
  end.

(** The attributes of a checker set by [__init__]; its [_cache] is
    the [status_cache] of the process state. *)
Record AgentStatusChecker := mkChecker {
  _endpoint_url : string;
  _api_key : string;
  _ttl : Q
}.

(** [AgentStatusChecker(endpoint_url, api_key, ttl_seconds)] *)
Definition new_checker (endpoint_url api_key : string) (ttl_seconds : Q)
  : AgentStatusChecker :=
  mkChecker (rstrip_slash endpoint_url) api_key ttl_seconds.

(** [httpx.get(url, headers=.., timeout=2.0)]: the request is
    logged, the backend takes its time and answers. *)
Definition httpx_get (url : string) : M (Z * option pyval) :=
  fun w =>
    let '(latency, outcome) := backend w (length (requests w)) url in
    let w' := elapse latency (with_requests (url :: requests w) w) in
    match outcome with
    | GetResponse status_code json => (Ret (status_code, json), w')
    | GetRaises e => (Raise e, w')
    end.

Definition status_url (self : AgentStatusChecker) (agent_id : string) : string :=
  _endpoint_url self +:+ "/agents/" +:+ agent_id +:+ "/status".

(** [self._fetch_status(agent_id)] *)
Definition _fetch_status (self : AgentStatusChecker) (agent_id : string)
  : M (pyval * pyval * pyval) :=
  let* '(status_code, json) := httpx_get (status_url self agent_id) in
  if negb (status_code =? 200)%Z then
    ret (PStr "ACTIVE", PNone, PList [])
  else
    match json with
    | None => raise ValueError
    | Some data =>
        let* status := lift (Py.get data "status" (PStr "ACTIVE")) in
        let* reason := lift (Py.get data "blocked_reason" PNone) in
        let* policies := lift (Py.get data "policies" (PList [])) in
        ret (status, reason, policies)
    end.

(** [_CacheEntry(status, blocked_reason, policies, ttl)] *)
Definition new_entry (status blocked_reason policies : pyval) (ttl : Q)
  : M CacheEntry.t :=
  let* now := monotonic in
  ret (CacheEntry.make status blocked_reason policies (now + ttl)%Q).

(** [self._fetch_and_cache(agent_id)] *)
Definition _fetch_and_cache (self : AgentStatusChecker) (agent_id : string)
  : M unit :=
  let* '(status, reason, policies) := _fetch_status self agent_id in
  let* entry := new_entry status reason policies (_ttl self) in
  modify (fun w =>
    with_status_cache (<[agent_id := entry]> (status_cache w)) w).

(** The cached entry of [agent_id] when it is fresh. *)
Definition fresh_entry (agent_id : string) : M (option CacheEntry.t) :=
  let* w := get_world in
  let* now := monotonic in
  match status_cache w !! agent_id with
  | Some entry =>
      if PyFloat.Qltb now (CacheEntry.expires_at entry)
      then ret (Some entry) else ret None
  | None => ret None
  end.

Definition blocked_of (entry : CacheEntry.t) : bool * pyval :=
  (Py.eq_str (CacheEntry.status entry) "BLOCKED",
   CacheEntry.blocked_reason entry).

(** [self.is_blocked(agent_id)] *)
Definition is_blocked (self : AgentStatusChecker) (agent_id : string)
  : M (bool * pyval) :=
  let* entry := fresh_entry agent_id in
  match entry with
  | Some entry => ret (blocked_of entry)
  | None =>
      try_except
        (run _fetch_and_cache self agent_id then
         let* w := get_world in
         match status_cache w !! agent_id with
         | Some entry => ret (blocked_of entry)
         | None => ret (false, PNone)
         end)
        (fun _ => ret (false, PNone))
  end.

(** [self.get_policies(agent_id)] *)
Definition get_policies (self : AgentStatusChecker) (agent_id : string)
  : M pyval :=
  let* entry := fresh_entry agent_id in
  match entry with
  | Some entry => ret (CacheEntry.policies entry)
  | None =>
      try_except
        (run _fetch_and_cache self agent_id then
         let* w := get_world in
         match status_cache w !! agent_id with
         | Some entry => ret (CacheEntry.policies entry)
         | None => ret (PList [])
         end)
        (fun _ => ret (PList []))
  end.

(** [self.invalidate(agent_id)] *)
Definition invalidate (agent_id : string) : M unit :=
  modify (fun w => with_status_cache (delete agent_id (status_cache w)) w).

(** [self.clear_cache()] *)
Definition clear_cache : M unit :=
  modify (fun w => with_status_cache ∅ w).

End Status.

(** ** Read patterns on the status cache *)

(** What happens around a checker over a period: a caller asks whether
    an agent is blocked or asks for its policies, or time passes. *)
Inductive CheckerCall :=
| CallIsBlocked (agent_id : string)
| CallGetPolicies (agent_id : string)
| Wait (seconds : Q).

Definition checker_step (self : Status.AgentStatusChecker) (w : World)
           (c : CheckerCall) : World :=
  match c with
  | CallIsBlocked agent_id => snd (Status.is_blocked self agent_id w)
  | CallGetPolicies agent_id => snd (Status.get_policies self agent_id w)
  | Wait seconds => elapse seconds w
  end.

Definition checker_run (self : Status.AgentStatusChecker)
           (calls : list CheckerCall) (w : World) : World :=
  fold_left (checker_step self) calls w.

(** The number of GETs on [url] in a request log. *)
Definition gets_on (url : string) (log : list string) : nat :=
  length (List.filter (String.eqb url) log).

(** A process that has just started, in front of [backend]. *)
Definition initial_world (backend : nat -> string -> Q * GetOutcome) : World :=
  mkWorld 0 0 0 [] [] ∅ ∅ backend [] [] ∅ None [].

(** The entry a response with status code [code] and decoded body
    [body] leaves in the cache at time [now]: the fields of the body
    when the code is 200, [ACTIVE] with no reason and no policies for
    every other code. *)
Definition entry_of_response (code : Z) (body : list (string * pyval))
           (now ttl : Q) : CacheEntry.t :=
  if (code =? 200)%Z then
    CacheEntry.make
      (default (PStr "ACTIVE") (Py.assoc body "status"))
      (default PNone (Py.assoc body "blocked_reason"))
      (default (PList []) (Py.assoc body "policies"))
      (now + ttl)%Q
  else
    CacheEntry.make (PStr "ACTIVE") PNone (PList []) (now + ttl)%Q.

(** No fresh entry for [agent_id]: a miss, or an entry that expired. *)
Definition miss_or_expired (agent_id : string) (w : World) : Prop :=
  match status_cache w !! agent_id with
  | None => True
  | Some entry => (CacheEntry.expires_at entry <= mono w)%Q
  end.

(** ** Sample backends and checkers *)

Definition sample_checker : Status.AgentStatusChecker :=
  Status.new_checker "https://api.invokelens.com/" "il_live_abc123"
    Status.DEFAULT_STATUS_TTL_SECONDS.

Definition blocked_body : list (string * pyval) :=
  [("status", PStr "BLOCKED"); ("blocked_reason", PStr "manual");
   ("policies", PList [])].

(** A backend that answers every GET at once with [code] and the body
    of a blocked agent. *)
Definition backend_blocked (code : Z) (k : nat) (url : string) : Q * GetOutcome :=
  (0%Q, GetResponse code (Some (PDict blocked_body))).

(** A backend that is unreachable: every GET raises a connection
    error at once. *)
Definition backend_down (k : nat) (url : string) : Q * GetOutcome :=
  (0%Q, GetRaises (Raised true "ConnectError" "connection refused")).

(** A backend that never fails: every GET is answered, after a
    non-negative latency, by a response, and a response with status
    code 200 carries a JSON object. *)
Definition backend_answers (backend : nat -> string -> Q * GetOutcome) : Prop :=
  forall (k : nat) (url : string),
    (0 <= fst (backend k url))%Q /\
    exists code json,
      snd (backend k url) = GetResponse code json /\
      (code = 200%Z -> exists body, json = Some (PDict body)).

(** Time does not run backwards while the process waits. *)
Definition forward (c : CheckerCall) : Prop :=
  match c with
  | Wait seconds => (0 <= seconds)%Q
  | _ => True
  end.

(** The GETs made for [agent_id] between the states [w] and [w']. *)
Definition gets_between (self : Status.AgentStatusChecker) (agent_id : string)
           (w w' : World) : nat :=
  gets_on (Status.status_url self agent_id) (requests w')
  - gets_on (Status.status_url self agent_id) (requests w).

(** A lookup for agent [b] found no fresh entry in [w], asked the
    backend once and cached the answer, which left [w']. *)
Definition fetched (self : Status.AgentStatusChecker) (b : string)
           (w w' : World) : Prop :=
  miss_or_expired b w /\
  exists latency code body,
    (0 <= latency)%Q /\
    w' = with_status_cache
           (<[b := entry_of_response code body (mono w + latency)
                     (Status._ttl self)]> (status_cache w))
           (elapse latency
              (with_requests (Status.status_url self b :: requests w) w)).

(** The invariant of a read pattern that started in [w0]: [n] GETs were
    made for the agent since, and when there was one, the entry it left
    expires at least [n] TTLs after the start and at most one TTL from
    now. *)
Definition fresh_inv (self : Status.AgentStatusChecker) (agent_id : string)
           (w0 w : World) (n : nat) : Prop :=
  backend w = backend w0 /\
  (mono w0 <= mono w)%Q /\
  gets_on (Status.status_url self agent_id) (requests w)
  = (gets_on (Status.status_url self agent_id) (requests w0) + n)%nat /\
  (n = 0%nat \/
   exists e, status_cache w !! agent_id = Some e /\
             (inject_Z (Z.of_nat n) * Status._ttl self
              <= CacheEntry.expires_at e - mono w0)%Q /\
             (CacheEntry.expires_at e <= mono w + Status._ttl self)%Q).

(** A read pattern of eleven seconds on one agent. *)
Definition sample_calls : list CheckerCall :=
  [CallIsBlocked "agent-1"; Wait 5; CallGetPolicies "agent-1"; Wait 6;
   CallIsBlocked "agent-1"].

(** Three lookups in a row, without any time passing. *)
Definition burst_calls : list CheckerCall :=
  [CallIsBlocked "agent-1"; CallGetPolicies "agent-1"; CallIsBlocked "agent-1"].

(** ** Spans at the limit of a trace *)

(** An [Optional[str]] argument, as the untyped value it is. *)
Definition of_optional (o : option string) : pyval :=
  match o with
  | Some s => PStr s
  | None => PNone
  end.

(** The [Span] object that [Span(name=name, span_type=span_type,
    input=_truncate(input), model_id=model_id)] builds in the state
    [w]: a fresh id, no parent, the current instant. *)
Definition detached_span (w : World) (name : string) (span_type : SpanType)
           (input model_id : option string) : Span.t :=
  Span.make (uuid_supply w) None span_type name (IsoOf (wall w)) None 0
    (_truncate input MAX_IO_LENGTH) None OK None (of_optional model_id)
    (PInt 0) (PInt 0) (FFin 0).

(** One more open span on the trace at address [t]. *)
Definition open_span (t : nat) (w : World) : World :=
  snd (Tracing.start_span t (PStr "step") "custom" None PNone w).

(** A process whose only trace context holds [MAX_SPANS_PER_TRACE]
    spans, all of them still open. *)
Definition world_at_span_limit : World :=
  Nat.iter MAX_SPANS_PER_TRACE (open_span 0)
    (snd (Tracing.new_trace (initial_world backend_down))).

(** The states [w] and [w'] differ at most in the span objects and the
    trace contexts. *)
Definition same_outside_tracing (w w' : World) : Prop :=
  mono w' = mono w /\ wall w' = wall w /\ uuid_supply w' = uuid_supply w /\
  rate_counts w' = rate_counts w /\ status_cache w' = status_cache w /\
  backend w' = backend w /\ requests w' = requests w /\ queue w' = queue w /\
  custom_pricing w' = custom_pricing w /\
  aws_default_region w' = aws_default_region w /\ calls w' = calls w.

(* ================================================================= *)
(** * fingerprint.py *)
(* ================================================================= *)

Module Fingerprint.

(** ** The pattern [_TEMPLATE_VAR_RE], an opening brace, an identifier
    and a closing brace *)

(** A piece of a scanned string: a character outside every match, or a
    match, with the identifier its group captured. *)
Inductive Piece :=
| Lit (c : ascii)
| Var (name : string).

Definition lits (s : string) : list Piece := map Lit (list_ascii_of_string s).

(** The scan for the non-overlapping matches, leftmost first.
    [pending] is [Some acc] after an opening brace followed by the
    identifier characters [acc]: a closing brace then completes a
    match; any other character that cannot extend the identifier
    makes the attempt fail, the brace and [acc] are ordinary
    characters (none of them can start a match) and the scan resumes
    at the current character. *)
Fixpoint scan (pending : option string) (s : string) : list Piece :=
  match s with
  | EmptyString =>
      match pending with
      | Some acc => Lit "{" :: lits acc
      | None => []
      end
  | String c rest =>
      let outside :=
        if Ascii.eqb c "{" then scan (Some EmptyString) rest
        else Lit c :: scan None rest in
      match pending with
      | None => outside
      | Some acc =>
          let extends :=
            match acc with
            | EmptyString => PyStr.is_ident_start c
            | _ => PyStr.is_word c
            end in
          if extends then scan (Some (acc +:+ String c EmptyString)) rest
          else if Ascii.eqb c "}" && negb (String.eqb acc EmptyString)
               then Var acc :: scan None rest
               else Lit "{" :: lits acc ++ outside
      end
  end.

(** [_TEMPLATE_VAR_RE.findall(s)] *)
Definition findall (s : string) : list string :=
  omap (fun p => match p with Var name => Some name | Lit _ => None end)
       (scan None s).

Definition render (p : Piece) : string :=
  match p with
  | Lit c => String c EmptyString
  | Var _ => "{VAR}"
  end.

(** [_TEMPLATE_VAR_RE.sub("{VAR}", s)] *)
Definition sub_VAR (s : string) : string :=
  fold_right (fun p acc => render p +:+ acc) EmptyString (scan None s).

(** ** [sorted(set(names))] *)

Fixpoint insert_sorted (x : string) (l : list string) : list string :=
  match l with
  | [] => [x]
  | y :: rest =>
      if String.eqb x y then l
      else if String.ltb x y then x :: l
           else y :: insert_sorted x rest
  end.

Definition sorted_set (l : list string) : list string :=
  fold_right insert_sorted [] l.

(** The fingerprint dict. *)
Record t := make {
  prompt_hash : string;
  structure_hash : string;
  char_count : Z;
  word_count : Z;
  line_count : Z;
  template_vars : list string
}.

(** [prompt.strip().lower()] *)
Definition normalize (prompt : string) : string :=
  PyStr.lower (PyStr.strip prompt).

(** The skeleton of a prompt: every placeholder of the normalized
    prompt replaced by [{VAR}]. *)
Definition skeleton (prompt : string) : string := sub_VAR (normalize prompt).

Section Hash.

(** [hashlib.sha256(s.encode("utf-8")).hexdigest()], for the string
    [s]; the hash function is not part of the SDK. *)
Variable sha256_hexdigest : string -> string.

(** [compute_fingerprint(prompt)] *)
Definition compute_fingerprint (prompt : string) : t :=
  if String.eqb prompt "" then
    make (sha256_hexdigest "") (sha256_hexdigest "") 0 0 0 []
  else
    (* Normalize for hashing: lowercase, strip leading/trailing whitespace *)
    let normalized := PyStr.lower (PyStr.strip prompt) in
    let prompt_hash := sha256_hexdigest normalized in
    (* Template variable extraction *)
    let template_vars := sorted_set (findall prompt) in
    (* Structure hash: replace all template vars with {VAR} *)
    let skeleton := sub_VAR (PyStr.lower (PyStr.strip prompt)) in
    let structure_hash := sha256_hexdigest skeleton in
    make prompt_hash structure_hash
      (PyStr.len prompt)
      (Z.of_nat (PyStr.count_words false prompt))
      (Z.of_nat (PyStr.count_char "010" prompt) + 1)
      template_vars.

End Hash.

(** One term of the metric comparison: [1.0] when both values are
    zero, else [1.0 - abs(va - vb) / max(va, vb)]. *)
Definition ratio (va vb : Z) : Q :=
  let max_val := Z.max va vb in
  if (max_val =? 0)%Z then 1%Q
  else (1 - inject_Z (Z.abs (va - vb)) / inject_Z max_val)%Q.

Definition Qmax (a b : Q) : Q := if Qle_bool a b then b else a.
Definition Qmin (a b : Q) : Q := if Qle_bool a b then a else b.

(** [compute_similarity(a, b)].  An argument is a fingerprint made by
    [compute_fingerprint], or [None] for a missing one ([None] or the
    empty dict, which [not a] treats alike). *)
Definition compute_similarity (a b : option t) : Q :=
  match a, b with
  | Some a, Some b =>
      (* Exact match *)
      if String.eqb (prompt_hash a) (prompt_hash b) then 1%Q
      (* Same template structure *)
      else if String.eqb (structure_hash a) (structure_hash b) then (9 # 10)%Q
      else
        (* Metric-based comparison *)
        let ratios := [ratio (char_count a) (char_count b);
                       ratio (word_count a) (word_count b);
                       ratio (line_count a) (line_count b)] in
        Qmax 0 (Qmin 1 (fold_left Qplus ratios 0%Q / 3))
  | _, _ => 0%Q
  end.

End Fingerprint.

(** A stand-in for the hash in examples: the identity, which has no
    collisions. *)
Definition transparent_hash (s : string) : string := s.

(* ================================================================= *)
(** * Callables, events and transports *)
(* ================================================================= *)

(** [type(e).__name__] *)
Definition exn_class_name (e : exn) : string :=
  match e with
  | AgentBlockedError _ _ => "AgentBlockedError"
  | PolicyViolationError _ _ _ _ => "PolicyViolationError"
  | TypeError => "TypeError"
  | AttributeError => "AttributeError"
  | KeyError => "KeyError"
  | IndexError => "IndexError"
  | ValueError => "ValueError"
  | ZeroDivisionError => "ZeroDivisionError"
  | ValidationError => "ValidationError"
  | Raised _ class_name _ => class_name
  end.

(** [AgentBlockedError(agent_id, reason)]: the constructor stores
    [reason or "Agent is blocked"]. *)
Definition new_AgentBlockedError (agent_id : string) (reason : pyval) : exn :=
  AgentBlockedError agent_id (Py.or_else reason (PStr "Agent is blocked")).

(** A Python function, as a wrapper sees it: its [__name__], the names
    in [inspect.signature(func).parameters], whether one of them is a
    [**kwargs] parameter, and what a call with given positional and
    keyword arguments does once they are bound. *)
Record PyFunction := mkFunction {
  __name__ : string;
  parameters : list string;
  has_var_keyword : bool;
  body : list pyval -> list (string * pyval) -> M pyval
}.

(** A keyword argument binds to a parameter of that name or to the
    [**kwargs] parameter. *)
Definition accepts_keyword (func : PyFunction) (key : string) : bool :=
  existsb (String.eqb key) (parameters func) || has_var_keyword func.

(** The call [func] of [args] and [kwargs]: a keyword the signature does not accept
    raises [TypeError] before the body runs; a call that enters the
    body is recorded. *)
Definition py_call (func : PyFunction) (args : list pyval)
           (kwargs : list (string * pyval)) : M pyval :=
  if forallb (fun kv => accepts_keyword func (fst kv)) kwargs then
    run modify (fun w =>
          with_calls (mkCall (__name__ func) args kwargs :: calls w) w) then
    body func args kwargs
  else raise TypeError.

Module TelemetryEvent.
(** [schema.TelemetryEvent], the fields the wrapper fills in. *)
Record t := make {
  event_id : nat;
  event_type : string;
  timestamp : Z;
  api_key : string;
  agent_id : string;
  agent_name : option string;
  invocation_id : nat;
  model_id : string;
  region : string;
  started_at : Z;
  ended_at : Z;
  duration_ms : Z;
  input_tokens : Z;
  output_tokens : Z;
  estimated_cost_usd : pyfloat;
  status : string;
  error_message : option string;
  error_type : option string;
  tools_called : list string;
  prompt_summary : option string;
  prompt_fingerprint : option Fingerprint.t;
  spans : list Span.t;
  sdk_version : string
}.
End TelemetryEvent.

(** What the wrapper needs of a transport: a [send] method. *)
Record TransportLike := mkTransport {
  send : TelemetryEvent.t -> M unit
}.

(** What the wrapper needs of a status checker. *)
Record StatusCheckerLike := mkStatusChecker {
  is_blocked : string -> M (bool * pyval);
  get_policies : string -> M pyval
}.

(** An [AgentStatusChecker] as the checker of a wrapper. *)
Definition checker_of (self : Status.AgentStatusChecker) : StatusCheckerLike :=
  mkStatusChecker (Status.is_blocked self) (Status.get_policies self).

(** A transport whose [send] raises, like a mock with a side effect. *)
Definition failing_transport : TransportLike :=
  mkTransport (fun _ => raise (Raised true "Exception" "Network error")).

Module EventTransport.

(** [queue.Queue(maxsize).full()]: a queue without a positive
    [maxsize] is never full. *)
Definition full (maxsize : Z) (q : list string) : bool :=
  (0 <? maxsize)%Z && (maxsize <=? Z.of_nat (length q))%Z.

Section Send.

(** [event.model_dump_json()], pydantic's serialization. *)
Variable model_dump_json : TelemetryEvent.t -> string.

(** [EventTransport.send(event)]: the event is serialized and put
    on the queue, or dropped with a warning when the queue is
    full. *)
Definition send_event (max_queue_size : Z) (event : TelemetryEvent.t) : M unit :=
  let json := model_dump_json event in
  fun w =>
    if full max_queue_size (queue w) then (Ret tt, w)
    else (Ret tt, with_queue (queue w ++ [json]) w).

(** An [EventTransport] as the transport of a wrapper. *)
Definition transport (max_queue_size : Z) : TransportLike :=
  mkTransport (send_event max_queue_size).

End Send.

End EventTransport.

(* ================================================================= *)
(** * tracing.py, part 3: the [span] context manager *)
(* ================================================================= *)

Module SpanScope.

(** [s.output = value] *)
Definition set_output (value : option string) (s : Span.t) : Span.t :=
  Span.make (Span.span_id s) (Span.parent_span_id s) (Span.span_type s)
    (Span.name s) (Span.started_at s) (Span.ended_at s) (Span.duration_ms s)
    (Span.input s) value (Span.status s) (Span.error s)
    (Span.model_id s) (Span.input_tokens s) (Span.output_tokens s)
    (Span.estimated_cost_usd s).

Section Scope.

(** [str(exc)] *)
Variable exn_str : exn -> string.

(** [with trace.span(name, span_type, input, model_id) as s: block(s)].
    The span is started; when the block raises an [Exception] the span
    is ended with [status="ERROR"] and [error=str(exc)] and the
    exception is raised again; when the block completes the span is
    ended with the attributes it has by then.  An exception that is
    not an [Exception] passes through the generator untouched. *)
Definition span {A} (t : nat) (name : pyval) (span_type : string)
           (input : option string) (model_id : pyval) (block : nat -> M A)
  : M A :=
  let* s := Tracing.start_span t name span_type input model_id in
  fun w =>
    match block s w with
    | (Raise exc, w') =>
        if is_Exception exc then
          (let* sp := Tracing.get_span s in
           run Tracing.end_span t s None ERROR (Some (exn_str exc))
                 (Span.input_tokens sp) (Span.output_tokens sp)
                 (Span.model_id sp) then
           raise exc) w'
        else (Raise exc, w')
    | (Ret a, w') =>
        (let* sp := Tracing.get_span s in
         run Tracing.end_span t s (Span.output sp) (Span.status sp)
               (Span.error sp) (Span.input_tokens sp) (Span.output_tokens sp)
               (Span.model_id sp) then
         ret a) w'
    end.

End Scope.

End SpanScope.

(* ================================================================= *)
(** * decorators.py *)
(* ================================================================= *)

Module Decorators.

(** The attributes of an [ObserveDecorator]. *)
Record ObserveDecorator := mkDecorator {
  transport : TransportLike;
  agent_id : string;
  agent_name : option string;
  model_id : string;
  api_key : string;
  sdk_version : string;
  status_checker : option StatusCheckerLike
}.

(** [ObserveDecorator(transport, agent_id, agent_name, model_id,
    api_key, sdk_version, status_checker)]: the model id defaults to
    ["unknown"] when it is [None] or empty. *)
Definition new_decorator (transport : TransportLike) (agent_id : string)
           (agent_name model_id : option string) (api_key sdk_version : string)
           (status_checker : option StatusCheckerLike) : ObserveDecorator :=
  mkDecorator transport agent_id agent_name
    (match model_id with
     | Some m => if String.eqb m "" then "unknown" else m
     | None => "unknown"
     end)
    api_key sdk_version status_checker.

Definition prompt_keys : list string := ["prompt"; "input_text"; "query"; "message"].

(** The first value of [candidates] that is a [str]. *)
Fixpoint first_str (candidates : list (option pyval)) : option string :=
  match candidates with
  | [] => None
  | Some (PStr s) :: _ => Some s
  | _ :: rest => first_str rest
  end.

(** [params.index(key)] *)
Fixpoint index_of (key : string) (params : list string) : option nat :=
  match params with
  | [] => None
  | p :: rest =>
      if String.eqb p key then Some 0%nat else option_map S (index_of key rest)
  end.

(** [ObserveDecorator._extract_prompt_text(args, kwargs, sig)] *)
Definition _extract_prompt_text (args : list pyval)
           (kwargs : list (string * pyval)) (params : list string)
  : option string :=
  (* Check kwargs for common prompt parameter names *)
  match first_str (map (Py.assoc kwargs) prompt_keys) with
  | Some s => Some s
  | None =>
      (* Check if any positional arg maps to a prompt-like parameter *)
      match first_str
              (map (fun key =>
                      match index_of key params with
                      | Some idx => args !! idx
                      | None => None
                      end) prompt_keys) with
      | Some s => Some s
      | None =>
          (* Fallback: first positional string argument *)
          first_str (map Some args)
      end
  end.

(** A [try] block without effects whose handler falls through to
    [default]. *)
Definition or_default {A} (r : Result A) (default : A) : A :=
  match r with
  | Ret a => a
  | Raise _ => default
  end.

Definition result_bind {A B} (r : Result A) (k : A -> Result B) : Result B :=
  match r with
  | Ret a => k a
  | Raise e => Raise e
  end.

(** [usage.get(first, usage.get(second, 0))] *)
Definition get_either (usage : pyval) (first second : string) : Result pyval :=
  result_bind (Py.get usage second (PInt 0)) (Py.get usage first).

(** [self._extract_tokens(response)] *)
Definition _extract_tokens (response : pyval) : pyval * pyval :=
  match response with
  | PDict _ =>
      or_default
        (result_bind (Py.get response "usage" (PDict [])) (fun usage =>
         if Py.truthy usage then
           result_bind (get_either usage "inputTokens" "input_tokens") (fun i =>
           result_bind (get_either usage "outputTokens" "output_tokens") (fun o =>
           Ret (i, o)))
         else
           (* Check ResponseMetadata *)
           result_bind (Py.get response "ResponseMetadata" (PDict [])) (fun metadata =>
           result_bind (Py.get metadata "usage" (PDict [])) (fun usage =>
           if Py.truthy usage then
             result_bind (Py.get usage "inputTokens" (PInt 0)) (fun i =>
             result_bind (Py.get usage "outputTokens" (PInt 0)) (fun o =>
             Ret (i, o)))
           else Ret (PInt 0, PInt 0)))))
        (PInt 0, PInt 0)
  | _ => (PInt 0, PInt 0)
  end.

(** [self._extract_model_id(response)] *)
Definition _extract_model_id (response : pyval) : pyval :=
  match response with
  | PDict d =>
      Py.or_else (default PNone (Py.assoc d "modelId"))
                 (default PNone (Py.assoc d "model_id"))
  | _ => PNone
  end.

(** [self._estimate_typical_cost()] *)
Definition _estimate_typical_cost (self : ObserveDecorator) : M pyfloat :=
  Cost.estimate_cost (PStr (model_id self)) (PInt 500) (PInt 200).

(** The violation dict of [_evaluate_pre_invocation_policies]. *)
Record Violation := mkViolation {
  policy_id : pyval;
  policy_type : pyval;
  message : ViolationMessage
}.

(** [_dt.now(_tz.utc).hour] *)
Definition utc_hour : M Z :=
  fun w => (Ret ((wall w / 3600000000) mod 24)%Z, w).

(** [allowed_hours[i] if len(allowed_hours) > i else fallback] *)
Definition hour_bound (allowed_hours : pyval) (i : nat) (fallback : Z)
  : Result pyval :=
  result_bind (Py.len allowed_hours) (fun n =>
  if (Z.of_nat i <? n)%Z then Py.index allowed_hours i else Ret (PInt fallback)).

(** The branch of one policy, by its type: the message of the
    violation, if there is one. *)
Definition check_policy (self : ObserveDecorator) (policy_type conditions : pyval)
  : M (option ViolationMessage) :=
  if Py.eq_str policy_type "COST_CAP" then
    let* max_cost := lift (Py.get conditions "max_cost_usd" (PFloat FInf)) in
    let* estimated := _estimate_typical_cost self in
    let* over := lift (Py.gt (PFloat estimated) max_cost) in
    ret (if over then Some (CostCapMessage estimated max_cost) else None)
  else if Py.eq_str policy_type "TOKEN_LIMIT" then
    let* max_tokens := lift (Py.get conditions "max_tokens" (PFloat FInf)) in
    let* estimated_input := lift (Py.get conditions "estimated_input_tokens" (PInt 0)) in
    if Py.truthy estimated_input then
      let* over := lift (Py.gt estimated_input max_tokens) in
      ret (if over then Some (TokenLimitMessage estimated_input max_tokens) else None)
    else ret None
  else if Py.eq_str policy_type "RATE_LIMIT" then
    let* max_invocations := lift (Py.get conditions "max_invocations" (PFloat FInf)) in
    let* window_minutes := lift (Py.get conditions "window_minutes" (PInt 60)) in
    let* window_seconds := lift (Py.mul window_minutes (PInt 60)) in
    let* count := Status.count_in_window (agent_id self) window_seconds in
    let* reached := lift (Py.ge (PInt count) max_invocations) in
    ret (if reached
         then Some (RateLimitMessage count window_minutes max_invocations)
         else None)
  else if Py.eq_str policy_type "TIME_RESTRICTION" then
    let* allowed_hours :=
      lift (Py.get conditions "allowed_hours_utc" (PList [PInt 0; PInt 24])) in
    let* allowed_start := lift (hour_bound allowed_hours 0 0) in
    let* allowed_end := lift (hour_bound allowed_hours 1 24) in
    let* current_hour := utc_hour in
    let* after_start := lift (Py.le allowed_start (PInt current_hour)) in
    let* inside :=
      (if after_start then lift (Py.lt (PInt current_hour) allowed_end)
       else ret false) in
    ret (if inside then None
         else Some (TimeRestrictionMessage current_hour allowed_start allowed_end))
  else ret None.

(** The loop of [_evaluate_pre_invocation_policies] over the policies
    still to look at. *)
Fixpoint evaluate_policies (self : ObserveDecorator) (policies : list pyval)
  : M (option Violation) :=
  match policies with
  | [] => ret None
  | policy :: rest =>
      let* policy_type := lift (Py.get policy "policy_type" (PStr "")) in
      let* conditions := lift (Py.get policy "conditions" (PDict [])) in
      let* enforcement := lift (Py.get policy "enforcement" (PStr "BLOCK")) in
      if negb (Py.eq_str enforcement "BLOCK") then
        evaluate_policies self rest (* LOG-only policies don't block *)
      else
        let* violation_msg := check_policy self policy_type conditions in
        match violation_msg with
        | Some msg =>
            let* policy_id := lift (Py.get policy "policy_id" (PStr "unknown")) in
            ret (Some (mkViolation policy_id policy_type msg))
        | None => evaluate_policies self rest
        end
  end.

(** [self._evaluate_pre_invocation_policies(policies)] *)
Definition _evaluate_pre_invocation_policies (self : ObserveDecorator)
           (policies : pyval) : M (option Violation) :=
  let* policies := lift (Py.iter policies) in
  evaluate_policies self policies.

(** [self._detect_region()] *)
Definition _detect_region : M string :=
  fun w => (Ret (default "us-east-1" (aws_default_region w)), w).

(** [try: m  except Kept: raise  except Exception: pass], where
    [kept] recognizes the exceptions of the class that is raised
    again. *)
Definition fail_open (kept : exn -> bool) (m : M unit) : M unit :=
  fun w =>
    match m w with
    | (Raise e, w') =>
        if kept e then (Raise e, w')
        else if is_Exception e then (Ret tt, w')
        else (Raise e, w')
    | ok => ok
    end.

Definition is_AgentBlockedError (e : exn) : bool :=
  match e with AgentBlockedError _ _ => true | _ => false end.

Definition is_PolicyViolationError (e : exn) : bool :=
  match e with PolicyViolationError _ _ _ _ => true | _ => false end.

(** The pre-invocation kill switch check of the wrapper. *)
Definition kill_switch_check (self : ObserveDecorator) : M unit :=
  match status_checker self with
  | Some checker =>
      fail_open is_AgentBlockedError
        (let* '(blocked, reason) := is_blocked checker (agent_id self) in
         if blocked then raise (new_AgentBlockedError (agent_id self) reason)
         else ret tt)
  | None => ret tt
  end.

(** The pre-invocation policy enforcement of the wrapper. *)
Definition policy_check (self : ObserveDecorator) : M unit :=
  match status_checker self with
  | Some checker =>
      fail_open is_PolicyViolationError
        (let* policies := get_policies checker (agent_id self) in
         let* violation := _evaluate_pre_invocation_policies self policies in
         match violation with
         | Some v =>
             raise (PolicyViolationError (agent_id self) (policy_id v)
                      (policy_type v) (message v))
         | None => ret tt
         end)
  | None => ret tt
  end.

(** [int(x)] for a duration: truncation toward zero. *)
Definition truncate_Q (x : Q) : Z := Z.quot (Qnum x) (Zpos (Qden x)).

(** What the [try] and [except] clauses around the user call leave in
    the local variables [status], [error_message], [error_type] and
    [result]. *)
Record CallOutcome := mkOutcome {
  status : string;
  error_message : option string;
  error_type : option string;
  result : pyval
}.

Section Wrapper.

(** The [str] builtin, on a value and on an exception. *)
Variable py_str : pyval -> string.
Variable exn_str : exn -> string.

(** [hashlib.sha256(..).hexdigest()] *)
Variable sha256_hexdigest : string -> string.

(** pydantic's validation of a value for an [int] field: the integer
    the field gets, or [None] where pydantic raises
    [ValidationError]. *)
Variable pydantic_int : pyval -> option Z.

Definition outcome_of (r : Result pyval) : CallOutcome :=
  match r with
  | Ret v => mkOutcome "SUCCESS" None None v
  | Raise e =>
      if is_Exception e
      then mkOutcome "FAILURE" (Some (PyStr.slice_to (exn_str e) 500))
             (Some (exn_class_name e)) PNone
      else mkOutcome "SUCCESS" None None PNone
  end.

(** The block of a span opened by [_extract_bedrock_trace]:
    [s.output = output]. *)
Definition assign_output (output : Result string) (s : nat) : M unit :=
  let* text := lift output in
  Tracing.update_span s (SpanScope.set_output (Some text)).

(** [str(d.get(key, ""))] *)
Definition str_of_field (d : pyval) (key : string) : Result string :=
  result_bind (Py.get d key (PStr "")) (fun v => Ret (py_str v)).

(** Model invocation steps -> llm spans *)
Definition llm_step (t : nat) (step : pyval) : M unit :=
  if Py.is_dict step then
    let* name := lift (Py.get step "type" (PStr "llm_call")) in
    let* text := lift (str_of_field step "text") in
    let* model := lift (Py.get step "foundationModel" PNone) in
    SpanScope.span exn_str t name "llm" (Some (PyStr.slice_to text 2000)) model
      (assign_output
         (result_bind (Py.get step "rawResponse" (PDict [])) (fun raw =>
          result_bind (str_of_field raw "content") (fun content =>
          Ret (PyStr.slice_to content 2000)))))
  else ret tt.

(** Action group invocations -> tool spans *)
Definition tool_step (t : nat) (inv : pyval) : M unit :=
  if Py.is_dict inv then
    let* action_input := lift (Py.get inv "actionGroupInvocationInput" (PDict [])) in
    if Py.truthy action_input then
      let* name := lift (Py.get action_input "actionGroupName" (PStr "action_group")) in
      let* path := lift (str_of_field action_input "apiPath") in
      SpanScope.span exn_str t name "tool" (Some path) PNone
        (assign_output (str_of_field action_input "verb"))
    else ret tt
  else ret tt.

(** [self._extract_bedrock_trace(response, trace)] *)
Definition _extract_bedrock_trace (response : pyval) (t : nat) : M unit :=
  if Py.is_dict response then
    try_except
      (let* trace := lift (Py.get response "trace" (PDict [])) in
       let* orch_trace := lift (Py.get trace "orchestrationTrace" (PDict [])) in
       if negb (Py.truthy orch_trace) then ret tt
       else
         let* steps := lift (Py.get orch_trace "modelInvocationInput" (PList [])) in
         let* steps := lift (Py.iter steps) in
         run for_each steps (llm_step t) then
         let* invs := lift (Py.get orch_trace "invocationInput" (PList [])) in
         let* invs := lift (Py.iter invs) in
         for_each invs (tool_step t))
      (fun _ => ret tt)
  else ret tt.

(** [TelemetryEvent(..)]: the arguments are validated ([model_id] a
    [str], the token counts valid for an [int] field), the default
    factories draw the ids and read the clock. *)
Definition new_event (event_type api_key agent_id : string)
           (agent_name : option string) (model_id : pyval) (region : string)
           (started_at ended_at duration_ms : Z) (input_tokens output_tokens : pyval)
           (estimated_cost_usd : pyfloat) (status : string)
           (error_message error_type : option string) (tools_called : list string)
           (prompt_summary : option string)
           (prompt_fingerprint : option Fingerprint.t) (spans : list Span.t)
           (sdk_version : string) : M TelemetryEvent.t :=
  match model_id, pydantic_int input_tokens, pydantic_int output_tokens with
  | PStr model_id, Some input_tokens, Some output_tokens =>
      let* event_id := Tracing.uuid4 in
      let* timestamp := Tracing.utcnow in
      let* invocation_id := Tracing.uuid4 in
      ret (TelemetryEvent.make event_id event_type timestamp api_key agent_id
             agent_name invocation_id model_id region started_at ended_at
             duration_ms input_tokens output_tokens estimated_cost_usd status
             error_message error_type tools_called prompt_summary
             prompt_fingerprint spans sdk_version)
  | _, _, _ => raise ValidationError
  end.

(** The [finally] clause of the wrapper. *)
Definition finalize (self : ObserveDecorator) (func : PyFunction)
           (args : list pyval) (kwargs : list (string * pyval))
           (t root_span : nat) (started_at : Z) (start_time : Q)
           (outcome : CallOutcome) : M unit :=
  let* ended_at := Tracing.utcnow in
  let* now := Status.monotonic in
  let duration_ms := truncate_Q ((now - start_time) * 1000) in
  let '(input_tokens, output_tokens) := _extract_tokens (result outcome) in
  let model := Py.or_else (_extract_model_id (result outcome))
                 (PStr (model_id self)) in
  (* End root span *)
  run Tracing.end_span t root_span None
        (if String.eqb (status outcome) "SUCCESS" then OK else ERROR)
        (error_message outcome) input_tokens output_tokens model then
  (* Extract Bedrock trace data if present *)
  run _extract_bedrock_trace (result outcome) t then
  (* Collect tool names from spans *)
  let* spans := Tracing.spans t in
  let tool_names :=
    map Span.name
        (List.filter (fun s => match Span.span_type s with tool => true | _ => false end)
           spans) in
  (* Prompt fingerprinting for drift detection *)
  let prompt_text := _extract_prompt_text args kwargs (parameters func) in
  let fingerprinted :=
    match prompt_text with
    | Some text =>
        if String.eqb text "" then None
        else Some (Fingerprint.compute_fingerprint sha256_hexdigest text,
                   PyStr.slice_to text 500)
    | None => None
    end in
  let* region := _detect_region in
  let* cost := Cost.estimate_cost model input_tokens output_tokens in
  let* dicts := Tracing.to_dicts t in
  let* event :=
    new_event
      (if String.eqb (status outcome) "SUCCESS"
       then "invocation.completed" else "invocation.failed")
      (api_key self) (agent_id self) (agent_name self) model region
      started_at ended_at duration_ms input_tokens output_tokens cost
      (status outcome) (error_message outcome) (error_type outcome) tool_names
      (option_map snd fingerprinted) (option_map fst fingerprinted) dicts
      (sdk_version self) in
  (* Record invocation for rate limiting *)
  run try_except (Status.record_invocation (agent_id self)) (fun _ => ret tt) then
  (* Fire-and-forget: never let telemetry crash the user's code *)
  try_except (send (transport self) event) (fun _ => ret tt).

(** The part of the wrapper after the pre-invocation checks: trace
    setup, the user call and the [finally] clause. *)
Definition traced_call (self : ObserveDecorator) (func : PyFunction)
           (args : list pyval) (kwargs : list (string * pyval)) : M pyval :=
  (* Create trace context and root span *)
  let* t := Tracing.new_trace in
  let* root_span := Tracing.start_span t (PStr (__name__ func)) "chain" None PNone in
  (* Inject trace if the function accepts it *)
  let kwargs :=
    if existsb (String.eqb "trace") (parameters func)
    then Py.assoc_set kwargs "trace" (PTrace t) else kwargs in
  let* started_at := Tracing.utcnow in
  let* start_time := Status.monotonic in
  try_finally (py_call func args kwargs)
    (fun r => finalize self func args kwargs t root_span started_at start_time
                (outcome_of r)).

(** The wrapper that [ObserveDecorator.__call__(func)] returns, called
    with [args] and [kwargs]. *)
Definition wrapper (self : ObserveDecorator) (func : PyFunction)
           (args : list pyval) (kwargs : list (string * pyval)) : M pyval :=
  run kill_switch_check self then
  run policy_check self then
  traced_call self func args kwargs.

End Wrapper.

End Decorators.

(* ================================================================= *)
(** * client.py *)
(* ================================================================= *)

Module Client.

(** What an [InvokeLensClient] holds after [__init__]: its key, its
    transport and, when the kill switch is enabled, its status
    checker. *)
Record InvokeLensClient := mkClient {
  api_key : string;
  _transport : TransportLike;
  _status_checker : option Status.AgentStatusChecker
}.

Definition DEFAULT_ENDPOINT : string := "https://api.invokelens.com".

(** [InvokeLensClient(api_key, endpoint_url, .., enable_kill_switch,
    status_check_ttl)], for a transport already built. *)
Definition new_client (api_key : string) (endpoint_url : option string)
           (transport : TransportLike) (enable_kill_switch : bool)
           (status_check_ttl : Q) : InvokeLensClient :=
  let endpoint :=
    match endpoint_url with
    | Some u => if String.eqb u "" then DEFAULT_ENDPOINT else u
    | None => DEFAULT_ENDPOINT
    end in
  mkClient api_key transport
    (if enable_kill_switch
     then Some (Status.new_checker endpoint api_key status_check_ttl)
     else None).

(** [client.observe(agent_id, agent_name, model_id)] *)
Definition observe (self : InvokeLensClient) (version agent_id : string)
           (agent_name model_id : option string) : Decorators.ObserveDecorator :=
  Decorators.new_decorator (_transport self) agent_id agent_name model_id
    (api_key self) version (option_map checker_of (_status_checker self)).

Section TraceTool.

Variable py_str : pyval -> string.
Variable exn_str : exn -> string.

(** [str(result)[:2000] if result is not None else None] *)
Definition captured_output (result : pyval) : option string :=
  match result with
  | PNone => None
  | _ => Some (PyStr.slice_to (py_str result) 2000)
  end.

(** The wrapper that [client.trace_tool(name, span_type)(func)]
    returns, called with [args] and [kwargs]. *)
Definition trace_tool (name : option string) (span_type : string)
           (func : PyFunction) (args : list pyval)
           (kwargs : list (string * pyval)) : M pyval :=
  let tool_name :=
    match name with
    | Some n => if String.eqb n "" then __name__ func else n
    | None => __name__ func
    end in
  match Py.assoc kwargs "trace" with
  | Some (PTrace t) =>
      SpanScope.span exn_str t (PStr tool_name) span_type None PNone
        (fun s =>
           let* result := py_call func args kwargs in
           run Tracing.update_span s
                 (SpanScope.set_output (captured_output result)) then
           ret result)
  | _ => py_call func args kwargs
  end.

End TraceTool.

End Client.

(* ================================================================= *)
(** * Sample runtimes, functions and wrappers *)
(* ================================================================= *)

(** The [str] of the values whose rendering is plain: [None], the
    booleans and strings; any other value is rendered as an opaque
    tag, which is enough for the examples. *)
Definition sample_str (v : pyval) : string :=
  match v with
  | PNone => "None"
  | PBool true => "True"
  | PBool false => "False"
  | PStr s => s
  | _ => "<value>"
  end.

(** The [str] of an exception raised by user code is its message. *)
Definition sample_exn_str (e : exn) : string :=
  match e with
  | Raised _ _ message => message
  | other => exn_class_name other
  end.

(** A validator for [int] fields that accepts integers only. *)
Definition strict_int (v : pyval) : option Z :=
  match v with
  | PInt n => Some n
  | _ => None
  end.

(** A serialization that keeps the agent id and the status. *)
Definition sample_json (e : TelemetryEvent.t) : string :=
  TelemetryEvent.agent_id e +:+ ":" +:+ TelemetryEvent.status e.

(** A user function without parameters that returns [value]. *)
Definition returning (name : string) (value : pyval) : PyFunction :=
  mkFunction name [] false (fun _ _ => ret value).

(** A user function without parameters that raises [ValueError]. *)
Definition raising (name : string) (message : string) : PyFunction :=
  mkFunction name [] false (fun _ _ => raise (Raised true "ValueError" message)).

(** A response whose token counts are strings, as some JSON producers
    write them. *)
Definition response_with_string_counts : pyval :=
  PDict [("usage", PDict [("inputTokens", PStr "12"); ("outputTokens", PStr "7")])].

(** The wrapper of the examples, with the sample runtime. *)
Definition sample_wrapper :=
  Decorators.wrapper sample_str sample_exn_str transparent_hash strict_int.

(** A decorator without a status checker whose transport raises. *)
Definition decorator_with_failing_transport : Decorators.ObserveDecorator :=
  Decorators.new_decorator failing_transport "test-agent" None None "test-key"
    "0.1.0" None.

(** ** Rate-limit policies *)






(** A decorator of a client with the kill switch enabled. *)
Definition guarded_decorator : Decorators.ObserveDecorator :=
  Decorators.new_decorator (EventTransport.transport sample_json 1000)
    "agent-1" (Some "Support Bot") (Some "anthropic.claude-3-haiku") "il_live_abc123"
    "0.1.0" (Some (checker_of sample_checker)).





(** The state of a process that has just learnt from the backend that
    ["agent-1"] is blocked. *)
Definition blocked_world : World :=
  snd (Status.is_blocked sample_checker "agent-1"
         (initial_world (backend_blocked 200))).


(** ** Spans below the limit, and the spans of [trace_tool] *)

(** The [Span] object that [start_span] builds in the state [w] for a
    trace context [tc] below the limit: its parent is the top of the
    active stack. *)
Definition child_span (w : World) (tc : TraceContext.t) (name : string)
           (span_type : SpanType) (input model_id : option string) : Span.t :=
  Span.make (uuid_supply w) (head (TraceContext._active_stack tc)) span_type name
    (IsoOf (wall w)) None 0 (_truncate input MAX_IO_LENGTH) None OK None
    (of_optional model_id) (PInt 0) (PInt 0) (FFin 0).

(** The state [start_span] leaves below the limit. *)
Definition with_child_span (t : nat) (w : World) (tc : TraceContext.t)
           (s : Span.t) : World :=
  with_traces
    (<[t := TraceContext.make (TraceContext._spans tc ++ [length (heap w)])
              (Span.span_id s :: TraceContext._active_stack tc)]> (traces w))
    (with_heap (heap w ++ [s]) (with_uuid_supply (S (uuid_supply w)) w)).

(** The name [trace_tool] gives its span: [name or func.__name__]. *)
Definition tool_name_of (name : option string) (func : PyFunction) : string :=
  match name with
  | Some n => if String.eqb n "" then __name__ func else n
  | None => __name__ func
  end.

(** The state in which [trace_tool] calls the function: the one that
    starting the span on the trace context [t] leaves. *)
Definition in_tool_span (t : nat) (name : option string) (span_type : SpanType)
           (func : PyFunction) (w : World) : World :=
  snd (Tracing.start_span t (PStr (tool_name_of name func))
         (Tracing.span_type_name span_type) None PNone w).


(** A process with one trace context, still empty. *)
Definition world_with_trace : World :=
  snd (Tracing.new_trace (initial_world backend_down)).


(* ================================================================= *)
(** * transport.py, part 2: the worker loop *)
(* ================================================================= *)

Module Worker.

(** What [self._queue.get(timeout=self.flush_interval)] does in one
    turn of the loop of [_run]: it returns an item, or raises
    [queue.Empty] after the timeout. *)
Inductive Poll :=
| Got (item : string)
| TimedOut.

Definition nonempty (batch : list string) : bool :=
  match batch with [] => false | _ => true end.

(** The [while not self._shutdown.is_set()] loop of [_run], over the
    polls made before the shutdown flag was seen set: the batches
    handed to [_flush], in order, and the batch left pending. *)
Fixpoint worker_loop (batch_size : Z) (polls : list Poll) (batch : list string)
  : list (list string) * list string :=
  match polls with
  | [] => ([], batch)
  | Got item :: rest =>
      let batch := batch ++ [item] in
      if (batch_size <=? Z.of_nat (length batch))%Z then
        let '(flushed, pending) := worker_loop batch_size rest [] in
        (batch :: flushed, pending)
      else worker_loop batch_size rest batch
  | TimedOut :: rest =>
      if nonempty batch then
        let '(flushed, pending) := worker_loop batch_size rest [] in
        (batch :: flushed, pending)
      else worker_loop batch_size rest batch
  end.

(** [EventTransport._run()]: the loop, then the drain of the items
    [remaining] on the queue and the final flush.  The result is the
    list of the batches passed to [_flush]. *)
Definition _run (batch_size : Z) (polls : list Poll) (remaining : list string)
  : list (list string) :=
  let '(flushed, pending) := worker_loop batch_size polls [] in
  (* Drain remaining items on shutdown *)
  let batch := pending ++ remaining in
  flushed ++ (if nonempty batch then [batch] else []).

(** The items the polls delivered. *)
Definition delivered (polls : list Poll) : list string :=
  omap (fun p => match p with Got item => Some item | TimedOut => None end) polls.

End Worker.

(** A POST outcome after which [_flush_http] tries again: a status
    code of 500 or more, or an exception. *)
Definition retryable (o : Transport.PostOutcome) : bool :=
  match o with
  | Transport.Response c _ => (500 <=? c)%Z
  | Transport.PostRaises _ => true
  end.

(** The seconds slept in a trace of effects. *)
Definition sleeps (tr : list Transport.Effect) : list Q :=
  omap (fun e => match e with Transport.Sleep s => Some s | _ => None end) tr.

Definition is_drop_log (e : Transport.Effect) : bool :=
  match e with Transport.LogDropped _ _ => true | _ => false end.

(** A server that fails twice, with a 503 and with a timeout, and then
    accepts the batch; and a server that cannot be reached. *)
Definition flaky_server (attempt : nat) : Transport.PostOutcome :=
  match attempt with
  | 0%nat => Transport.Response 503 "unavailable"
  | 1%nat => Transport.PostRaises "ReadTimeout"
  | _ => Transport.Response 200 "ok"
  end.

Definition dead_server (attempt : nat) : Transport.PostOutcome :=
  Transport.PostRaises "ConnectError".

(** The calls [transport.send(e)] for the events [e] of [events], one
    after the other, with no worker taking items off the queue in
    between. *)
Definition send_all (model_dump_json : TelemetryEvent.t -> string)
           (max_queue_size : Z) (events : list TelemetryEvent.t) : M unit :=
  for_each events (EventTransport.send_event model_dump_json max_queue_size).

(** An event of the examples. *)
Definition sample_event (agent_id : string) : TelemetryEvent.t :=
  TelemetryEvent.make 0 "invocation.completed" 0 "il_live_abc123" agent_id None 1
    "unknown" "us-east-1" 0 0 0 0 0 (FFin 0) "SUCCESS" None None [] None None []
    "0.1.0".

(** Twelve polls of a worker: five items, a timeout, two items. *)
Definition sample_polls : list Worker.Poll :=
  [Worker.Got "e1"; Worker.Got "e2"; Worker.Got "e3"; Worker.Got "e4";
   Worker.Got "e5"; Worker.TimedOut; Worker.TimedOut; Worker.Got "e6";
   Worker.Got "e7"].

(** ** Failing fetches *)

(** A GET outcome on which [_fetch_status] raises an [Exception]: the
    request itself raises one, or the response has status code 200 and
    a body that is not a JSON object (not JSON at all, or JSON of
    another type, which has no [get]). *)
Definition fetch_fails (o : GetOutcome) : bool :=
  match o with
  | GetRaises e => is_Exception e
  | GetResponse status_code json =>
      (status_code =? 200)%Z
      && match json with Some (PDict _) => false | _ => true end
  end.

(** The state a failed GET for [agent_id] leaves. *)
Definition after_failed_get (self : Status.AgentStatusChecker) (agent_id : string)
           (latency : Q) (w : World) : World :=
  elapse latency (with_requests (Status.status_url self agent_id :: requests w) w).

(** A process that learnt that ["agent-1"] is blocked, eleven seconds
    later (the entry has expired), with the backend now out of
    reach. *)
Definition stale_blocked_world : World :=
  with_backend backend_down (elapse 11 blocked_world).

(** A process that has looked up two agents, both found blocked. *)
Definition two_agents_world : World :=
  snd (Status.is_blocked sample_checker "agent-2" blocked_world).

(** ** The rate tracker *)

(** The timestamps of [agent_id] newer than [now - window_seconds]. *)
Definition within_window (agent_id : string) (window_seconds : Z) (w : World)
  : list Q :=
  List.filter (fun t => PyFloat.Qltb (mono w - inject_Z window_seconds)%Q t)
    (default [] (rate_counts w !! agent_id)).

(** A process in which ["agent-1"] was invoked at seconds 0, 100 and
    200, at second 210. *)
Definition rate_history_world : World :=
  with_mono 210
    (with_rate_counts {[ "agent-1" := [0; 100; 200]%Q ]} (initial_world backend_down)).

(** ** Sequences of span operations *)

(** A call of [start_span] or [end_span] on a trace context, with any
    arguments. *)
Inductive TraceOp :=
| StartSpan (t : nat) (name : pyval) (span_type : string)
            (input : option string) (model_id : pyval)
| EndSpan (t : nat) (span : nat) (output : option string) (status : SpanStatus)
          (error : option string) (input_tokens output_tokens model_id : pyval).

(** The state a call leaves, whether it returns or raises. *)
Definition trace_op (w : World) (op : TraceOp) : World :=
  match op with
  | StartSpan t name span_type input model_id =>
      snd (Tracing.start_span t name span_type input model_id w)
  | EndSpan t span output status error input_tokens output_tokens model_id =>
      snd (Tracing.end_span t span output status error input_tokens output_tokens
             model_id w)
  end.

Definition trace_ops (ops : list TraceOp) (w : World) : World :=
  fold_left trace_op ops w.

(** The addresses in [_spans] of the trace context at address [t]. *)
Definition stored_spans (t : nat) (w : World) : list nat :=
  match traces w !! t with
  | Some tc => TraceContext._spans tc
  | None => []
  end.

(** A hundred and fifty spans started on the trace context 0, none
    ended. *)
Definition many_starts : list TraceOp :=
  replicate 150 (StartSpan 0 (PStr "step") "custom" None PNone).

(** The active stack of the trace context at address [t], top
    first. *)
Definition active_stack (t : nat) (w : World) : list nat :=
  match traces w !! t with
  | Some tc => TraceContext._active_stack tc
  | None => []
  end.

(** The stack after [end_span] on a span with id [span_id]: popped
    when that id is on top, else as it was. *)
Definition pop_top (span_id : nat) (stack : list nat) : list nat :=
  match stack with
  | top :: rest => if (top =? span_id)%nat then rest else stack
  | [] => []
  end.

(** [end_span(span, output, status, error)], with the default token
    counts and model id. *)
Definition end_span_plain (t span : nat) (output : option string)
           (status : SpanStatus) (error : option string) : M unit :=
  Tracing.end_span t span output status error (PInt 0) (PInt 0) PNone.

(** Two spans started one inside the other: the addresses of the
    outer and of the inner span. *)
Definition start_nested (t : nat) (outer_name inner_name : string)
           (outer_type inner_type : SpanType) : M (nat * nat) :=
  let* outer := Tracing.start_span t (PStr outer_name)
                  (Tracing.span_type_name outer_type) None PNone in
  let* inner := Tracing.start_span t (PStr inner_name)
                  (Tracing.span_type_name inner_type) None PNone in
  ret (outer, inner).

(** The parent of the span object at address [a]. *)
Definition parent_of (a : nat) (w : World) : option (option nat) :=
  Span.parent_span_id <$> heap w !! a.

(** A tool function that accepts a trace and raises. *)
Definition failing_tool : PyFunction :=
  mkFunction "lookup" ["key"; "trace"] false
    (fun _ _ => raise (Raised true "KeyError" "no such key")).

(** A tool function that is interrupted from the keyboard. *)
Definition interrupted_tool : PyFunction :=
  mkFunction "lookup" ["key"; "trace"] false
    (fun _ _ => raise (Raised false "KeyboardInterrupt" "")).

(** ** Costs *)

(** The cost of [input_tokens] and [output_tokens] tokens at the
    prices [pricing] per thousand, rounded as [estimate_cost] rounds
    it. *)
Definition cost_at (pricing : Q * Q) (input_tokens output_tokens : Z) : pyfloat :=
  Cost.round8
    (FFin (inject_Z input_tokens / 1000 * fst pricing
           + inject_Z output_tokens / 1000 * snd pricing)%Q).




(** ** The wrapped call *)

(** An outcome that [except Exception: pass] leaves nothing of: a
    return, or an [Exception]. *)
Definition swallowed {A} (r : Result A) : bool :=
  match r with
  | Ret _ => true
  | Raise e => is_Exception e
  end.

(** The state in which the wrapper calls the user function: the one
    that creating the trace context and starting the root span
    leaves. *)
Definition in_root_span (func : PyFunction) (w : World) : World :=
  snd ((let* t := Tracing.new_trace in
        Tracing.start_span t (PStr (__name__ func)) "chain" None PNone) w).

(** The keyword arguments the wrapper passes to the user function,
    [t] being the address of the trace context it created. *)
Definition passed_kwargs (func : PyFunction) (kwargs : list (string * pyval))
           (t : nat) : list (string * pyval) :=
  if existsb (String.eqb "trace") (parameters func)
  then Py.assoc_set kwargs "trace" (PTrace t) else kwargs.


(** A decorator of a client whose checker is [sample_checker], for the
    agent ["agent-1"]. *)
Definition checked_decorator (transport : TransportLike) : Decorators.ObserveDecorator :=
  Decorators.new_decorator transport "agent-1" None None "il_live_abc123" "0.1.0"
    (Some (checker_of sample_checker)).

(** ** Policies *)

(** The policy types that [_evaluate_pre_invocation_policies] has a
    branch for. *)
Definition known_policy_type (policy_type : pyval) : bool :=
  Py.eq_str policy_type "COST_CAP" || Py.eq_str policy_type "TOKEN_LIMIT"
  || Py.eq_str policy_type "RATE_LIMIT" || Py.eq_str policy_type "TIME_RESTRICTION".

(** A policy document whose enforcement is not ["BLOCK"] (it is, for
    one, ["LOG"]), or whose type is none of the known ones. *)
Definition log_only_or_unknown (policy : pyval) : bool :=
  match policy with
  | PDict d =>
      negb (Py.eq_str (match Py.assoc d "enforcement" with
                       | Some e => e
                       | None => PStr "BLOCK"
                       end) "BLOCK")
      || negb (known_policy_type (match Py.assoc d "policy_type" with
                                  | Some ty => ty
                                  | None => PStr ""
                                  end))
  | _ => false
  end.

(** A BLOCK-enforced TIME_RESTRICTION policy as the backend sends it,
    with [allowed_hours_utc] when given. *)
Definition time_restriction_policy (policy_id : string)
           (allowed_hours_utc : option (list Z)) : pyval :=
  PDict [("policy_id", PStr policy_id);
         ("policy_type", PStr "TIME_RESTRICTION");
         ("enforcement", PStr "BLOCK");
         ("conditions",
          PDict match allowed_hours_utc with
                | Some hours => [("allowed_hours_utc", PList (map PInt hours))]
                | None => []
                end)].

(** The hour of the day, in UTC, in the state [w]. *)
Definition hour_of (w : World) : Z := ((wall w / 3600000000) mod 24)%Z.

(** A LOG-enforced rate limit of zero invocations, and a BLOCK-enforced
    policy of a type the SDK does not know. *)
Definition log_rate_limit : pyval :=
  PDict [("policy_id", PStr "p-log"); ("policy_type", PStr "RATE_LIMIT");
         ("enforcement", PStr "LOG");
         ("conditions", PDict [("max_invocations", PInt 0)])].

Definition unknown_policy : pyval :=
  PDict [("policy_id", PStr "p-new"); ("policy_type", PStr "REGION_LOCK");
         ("enforcement", PStr "BLOCK")].

(** A process at 23:30 UTC of its first day. *)
Definition late_evening_world : World :=
  with_wall (23 * 3600000000 + 1800000000) (initial_world backend_down).

(** A BLOCK-enforced TOKEN_LIMIT policy, with the conditions
    [max_tokens] and [estimated_input_tokens] when given. *)
Definition token_limit_policy (policy_id : string)
           (max_tokens estimated_input_tokens : option Z) : pyval :=
  PDict [("policy_id", PStr policy_id);
         ("policy_type", PStr "TOKEN_LIMIT");
         ("enforcement", PStr "BLOCK");
         ("conditions",
          PDict (match max_tokens with
                 | Some m => [("max_tokens", PInt m)]
                 | None => []
                 end ++
                 match estimated_input_tokens with
                 | Some n => [("estimated_input_tokens", PInt n)]
                 | None => []
                 end))].



(** ** Identifiers *)





(** A computation that raises nothing but [Exception]s. *)
Definition contained {A} (m : M A) : Prop :=
  forall w : World, swallowed (fst (m w)) = true.

(** [d.get(key, 0)] and [d.get(first, d.get(second, 0))] on the items
    of a [dict]. *)
Definition count_at (d : list (string * pyval)) (key : string) : pyval :=
  match Py.assoc d key with
  | Some v => v
  | None => PInt 0
  end.

Definition first_of (d : list (string * pyval)) (first second : string) : pyval :=
  match Py.assoc d first with
  | Some v => v
  | None => count_at d second
  end.

(** A response with orchestration trace data of every kind: a model
    invocation step, one that is not a [dict], an action group
    invocation and one whose name is not a string. *)
Definition orchestration_response : pyval :=
  PDict [("trace",
          PDict [("orchestrationTrace",
                  PDict [("modelInvocationInput",
                          PList [PDict [("type", PStr "ORCHESTRATION");
                                        ("text", PStr "find it");
                                        ("foundationModel", PStr "anthropic.claude-3-haiku")];
                                 PInt 7]);
                         ("invocationInput",
                          PList [PDict [("actionGroupInvocationInput",
                                         PDict [("actionGroupName", PStr "search");
                                                ("apiPath", PStr "/search");
                                                ("verb", PStr "GET")])];
                                 PDict [("actionGroupInvocationInput",
                                         PDict [("actionGroupName", PInt 3)])]])])])].

(** A usage object with both spellings of the input count, and a
    response that carries it under [ResponseMetadata] only. *)
Definition mixed_usage : list (string * pyval) :=
  [("input_tokens", PInt 5); ("inputTokens", PInt 9); ("output_tokens", PInt 3)].

Definition metadata_response : list (string * pyval) :=
  [("ResponseMetadata", PDict [("usage", PDict mixed_usage)])].

(* ================================================================= *)
(** * Properties *)
(* ================================================================= *)

Section StringFacts.

Lemma length_take n s :
  String.length (PyStr.take n s) = Nat.min n (String.length s).
Proof.
  revert s; induction n as [|n IH]; intros [|c s]; simpl; auto.
Qed.

Lemma length_app (s t : string) :
  String.length (s +:+ t) = (String.length s + String.length t)%nat.
Proof. induction s as [|c s IH]; simpl; auto. Qed.

Lemma drop_app_length (s t : string) :
  PyStr.drop (String.length s) (s +:+ t) = t.
Proof. induction s as [|c s IH]; simpl; auto. Qed.

Lemma endswith_app (s t : string) : PyStr.endswith (s +:+ t) t = true.
Proof.
  unfold PyStr.endswith. rewrite length_app.
  destruct (Nat.leb_spec (String.length t) (String.length s + String.length t)); [|lia].
  replace (String.length s + String.length t - String.length t)%nat
    with (String.length s) by lia.
  rewrite drop_app_length. apply String.eqb_refl.
Qed.

End StringFacts.

(* ----------------------------------------------------------------- *)
(** ** IO truncation ([_truncate]) *)

Section Truncation.

Lemma stored_io_short s :
  (PyStr.len s <= MAX_IO_LENGTH)%Z -> stored_io s = s.
Proof.
  intros H. unfold stored_io, _truncate.
  destruct (Z.leb_spec (PyStr.len s) MAX_IO_LENGTH); [reflexivity | lia].
Qed.

Lemma stored_io_long s :
  (MAX_IO_LENGTH < PyStr.len s)%Z ->
  stored_io s = PyStr.take 1986 s +:+ truncation_marker.
Proof.
  intros H. unfold stored_io, _truncate.
  destruct (Z.leb_spec (PyStr.len s) MAX_IO_LENGTH); [lia | reflexivity].
Qed.

Lemma stored_io_long_length s :
  (MAX_IO_LENGTH < PyStr.len s)%Z -> PyStr.len (stored_io s) = MAX_IO_LENGTH.
Proof.
  intros H. rewrite (stored_io_long s H). unfold PyStr.len in *.
  rewrite length_app, length_take. unfold MAX_IO_LENGTH in *.
  change (String.length truncation_marker) with 14%nat. lia.
Qed.

Lemma was_truncated_iff s :
  was_truncated s = true <-> (MAX_IO_LENGTH < PyStr.len s)%Z.
Proof.
  unfold was_truncated. rewrite negb_true_iff, String.eqb_neq. split.
  - intros Hne. destruct (Z.le_gt_cases (PyStr.len s) MAX_IO_LENGTH) as [Hle|Hgt];
      [|exact Hgt]. exfalso. apply Hne, stored_io_short, Hle.
  - intros Hgt Heq. pose proof (stored_io_long_length s Hgt) as Hlen.
    rewrite Heq in Hlen. lia.
Qed.

(** C7 (as amended).  The stored value never exceeds [MAX_IO_LENGTH];
    a string longer than that is stored as exactly [MAX_IO_LENGTH]
    characters ending in the marker ["...[truncated]"]; and for a
    string that does not itself already end in the marker, the stored
    value ends in the marker if and only if truncation occurred. *)
Theorem truncate_bound_and_marker (s : string) :
  (PyStr.len (stored_io s) <= MAX_IO_LENGTH)%Z /\
  ((MAX_IO_LENGTH < PyStr.len s)%Z ->
     PyStr.len (stored_io s) = MAX_IO_LENGTH /\
     PyStr.endswith (stored_io s) truncation_marker = true) /\
  (was_truncated s = true ->
     PyStr.endswith (stored_io s) truncation_marker = true) /\
  (PyStr.endswith s truncation_marker = false ->
     (PyStr.endswith (stored_io s) truncation_marker = true
      <-> was_truncated s = true)).
Proof.
  assert (Hlong : (MAX_IO_LENGTH < PyStr.len s)%Z ->
            PyStr.endswith (stored_io s) truncation_marker = true).
  { intros H. rewrite (stored_io_long s H). apply endswith_app. }
  repeat split.
  - destruct (Z.le_gt_cases (PyStr.len s) MAX_IO_LENGTH) as [Hle|Hgt].
    + rewrite stored_io_short; assumption.
    + rewrite stored_io_long_length by lia. lia.
  - apply stored_io_long_length; assumption.
  - auto.
  - intros Ht. apply Hlong, was_truncated_iff, Ht.
  - intros He. apply was_truncated_iff.
    destruct (Z.le_gt_cases (PyStr.len s) MAX_IO_LENGTH) as [Hle|Hgt]; [|lia].
    rewrite (stored_io_short s Hle) in He. congruence.
  - intros Ht. apply Hlong, was_truncated_iff, Ht.
Qed.

End Truncation.

(** A string of 2001 characters, one more than the limit. *)
Definition over_limit_string : string := PyStr.repeat "x" 2001.

Lemma truncate_bound_and_marker_witness :
  (MAX_IO_LENGTH < PyStr.len over_limit_string)%Z /\
  PyStr.len (stored_io over_limit_string) = MAX_IO_LENGTH /\
  PyStr.endswith (stored_io over_limit_string) truncation_marker = true /\
  was_truncated over_limit_string = true /\
  PyStr.endswith over_limit_string truncation_marker = false.
Proof.
  assert (Hlen : (MAX_IO_LENGTH < PyStr.len over_limit_string)%Z)
    by (vm_compute; reflexivity).
  destruct (truncate_bound_and_marker over_limit_string) as (_ & Hl & Hm & Hiff).
  destruct (Hl Hlen) as [H1 H2].
  assert (He : PyStr.endswith over_limit_string truncation_marker = false)
    by (vm_compute; reflexivity).
  exact (conj Hlen (conj H1 (conj H2 (conj (proj1 (Hiff He) H2) He)))).
Defined.

(** C7, as stated, fails: the 14-character string ["...[truncated]"] is
    stored unchanged, so no truncation occurred, yet the stored value
    ends with the marker. *)
Lemma truncate_marker_without_truncation :
  stored_io "...[truncated]" = "...[truncated]" /\
  was_truncated "...[truncated]" = false /\
  PyStr.endswith (stored_io "...[truncated]") truncation_marker = true /\
  ~ (PyStr.endswith (stored_io "...[truncated]") truncation_marker = true
     <-> was_truncated "...[truncated]" = true).
Proof.
  split; [reflexivity|]. split; [reflexivity|]. split; [reflexivity|].
  intros [H _]. specialize (H eq_refl). discriminate H.
Qed.

(* ----------------------------------------------------------------- *)
(** ** The retried HTTP flush ([EventTransport._flush_http]) *)

Section FlushHttp.

Import Transport.

Variable server : nat -> PostOutcome.
Variable batch : list string.

(** Case analysis on what the server answers at attempt [k], along
    the three branches the loop body distinguishes. *)
Local Ltac answer k :=
  let c := fresh "code" in
  let E := fresh "Hanswer" in
  destruct (server k) as [c ?|?] eqn:E;
  [ destruct (c <? 400)%Z eqn:?;
    [| destruct ((400 <=? c)%Z && (c <? 500)%Z) eqn:? ] |];
  cbn [List.filter is_post is_post_or_sleep length Nat.ltb Nat.leb
       MAX_RETRIES].

(** Use in [H] what the server is known to have answered. *)
Local Ltac answered H :=
  repeat match goal with
         | E : server _ = _ |- _ => rewrite E in H; clear E
         end.

Local Ltac settle n :=
  split; [cbn; lia|];
  split; [exists n; cbn; repeat split; lia|];
  split;
  [ intros k Hk H4; cbn in Hk;
    do 4 (destruct k as [|k];
          [unfold is_4xx in H4; try answered H4; cbn; congruence || lia|]);
    lia
  | intros H4; unfold is_4xx in H4; cbn; congruence || lia ].

(** C4.  Whatever the server answers, one flush makes at most
    [MAX_RETRIES + 1 = 4] POST attempts; its POSTs and sleeps follow
    the schedule POST, sleep 1, POST, sleep 2, POST, sleep 4, POST up
    to its last POST; no POST follows a 4xx response, so a flush
    whose first response is 4xx makes exactly one POST. *)
Theorem flush_http_retry_schedule :
  let tr := _flush_http server batch in
  (post_attempts tr <= MAX_RETRIES + 1)%nat /\
  (exists n : nat,
      (1 <= n <= 4)%nat /\
      post_attempts tr = n /\
      posts_and_sleeps tr = firstn (2 * n - 1) (full_schedule batch)) /\
  (forall k : nat,
      (k < post_attempts tr)%nat -> is_4xx (server k) = true ->
      post_attempts tr = (k + 1)%nat) /\
  (is_4xx (server 0) = true -> post_attempts tr = 1%nat).
Proof.
  unfold _flush_http, post_attempts, posts_and_sleeps.
  cbn [seq MAX_RETRIES Nat.add flush_loop Nat.ltb Nat.leb].
  answer 0%nat; [settle 1%nat | settle 1%nat | |];
  (answer 1%nat; [settle 2%nat | settle 2%nat | |]);
  (answer 2%nat; [settle 3%nat | settle 3%nat | |]);
  (answer 3%nat; settle 4%nat).
Qed.

End FlushHttp.

(** A server that rejects the first POST with [401 Unauthorized]. *)
Definition rejecting_server (k : nat) : Transport.PostOutcome :=
  Transport.Response 401 "Unauthorized".

Lemma flush_http_retry_schedule_witness :
  Transport.is_4xx (rejecting_server 0) = true /\
  Transport.post_attempts (Transport._flush_http rejecting_server ["e1"; "e2"]) = 1%nat.
Proof.
  split; [reflexivity|].
  apply (flush_http_retry_schedule rejecting_server ["e1"; "e2"]).
  reflexivity.
Defined.

(* ----------------------------------------------------------------- *)
(** ** The status cache ([AgentStatusChecker]) *)

Section StatusCache.

Import Status.

Lemma Qltb_true (a b : Q) : PyFloat.Qltb a b = true <-> (a < b)%Q.
Proof.
  unfold PyFloat.Qltb. rewrite negb_true_iff.
  destruct (Qle_bool b a) eqn:E.
  - apply Qle_bool_iff in E. split; [discriminate | intros H; lra].
  - split; [intros _ | reflexivity].
    destruct (Qlt_le_dec a b) as [H|H]; [exact H|].
    apply Qle_bool_iff in H. congruence.
Qed.

Lemma Qltb_false (a b : Q) : PyFloat.Qltb a b = false <-> (b <= a)%Q.
Proof.
  destruct (PyFloat.Qltb a b) eqn:E.
  - apply Qltb_true in E. split; [discriminate | intros H; lra].
  - split; [intros _ | reflexivity].
    destruct (Qlt_le_dec a b) as [H|H]; [|exact H].
    apply Qltb_true in H. congruence.
Qed.

Variable self : AgentStatusChecker.

Lemma fresh_entry_world agent_id w : snd (fresh_entry agent_id w) = w.
Proof.
  unfold fresh_entry, bind, get_world, monotonic, ret. simpl.
  destruct (status_cache w !! agent_id) as [e|]; [|reflexivity].
  destruct (PyFloat.Qltb _ _); reflexivity.
Qed.

Lemma fresh_entry_miss agent_id w :
  miss_or_expired agent_id w -> fresh_entry agent_id w = (Ret None, w).
Proof.
  unfold miss_or_expired, fresh_entry, bind, get_world, monotonic, ret. simpl.
  destruct (status_cache w !! agent_id) as [e|]; [|reflexivity].
  intros H. apply Qltb_false in H. rewrite H. reflexivity.
Qed.

(** What [_fetch_and_cache] does when the backend answers with a
    response. *)
Lemma fetch_and_cache_response agent_id w latency code json body :
  backend w (length (requests w)) (status_url self agent_id)
    = (latency, GetResponse code json) ->
  (code = 200%Z -> json = Some (PDict body)) ->
  _fetch_and_cache self agent_id w =
    (Ret tt,
     let w1 := elapse latency
                 (with_requests (status_url self agent_id :: requests w) w) in
     with_status_cache
       (<[agent_id := entry_of_response code body (mono w1) (_ttl self)]>
          (status_cache w1)) w1).
Proof.
  intros Hb Hjson.
  unfold _fetch_and_cache, _fetch_status, httpx_get, bind. rewrite Hb.
  unfold entry_of_response.
  destruct (Z.eqb_spec code 200) as [->|Hne]; simpl.
  - rewrite (Hjson eq_refl). reflexivity.
  - reflexivity.
Qed.

(** C5 (as amended).  On a cache miss or expiry, a lookup performs
    one GET on the status endpoint; when the backend answers with
    status code 200 and a JSON object, the object's [status],
    [blocked_reason] and [policies] are cached with expiry
    [now + TTL]; for every other status code the entry
    [ACTIVE, None, []] is cached with expiry [now + TTL]. *)
Theorem fetch_caches_response agent_id w latency code json body :
  miss_or_expired agent_id w ->
  backend w (length (requests w)) (status_url self agent_id)
    = (latency, GetResponse code json) ->
  (code = 200%Z -> json = Some (PDict body)) ->
  let url := status_url self agent_id in
  let now := (mono w + latency)%Q in
  let entry := entry_of_response code body now (_ttl self) in
  let w' := with_status_cache (<[agent_id := entry]> (status_cache w))
              (elapse latency (with_requests (url :: requests w) w)) in
  snd (is_blocked self agent_id w) = w' /\
  snd (get_policies self agent_id w) = w' /\
  requests w' = url :: requests w /\
  status_cache w' !! agent_id = Some entry /\
  CacheEntry.expires_at entry = (now + _ttl self)%Q /\
  (code <> 200%Z ->
   CacheEntry.status entry = PStr "ACTIVE" /\
   CacheEntry.blocked_reason entry = PNone /\
   CacheEntry.policies entry = PList []) /\
  (code = 200%Z ->
   Ret (CacheEntry.status entry) = Py.get (PDict body) "status" (PStr "ACTIVE") /\
   Ret (CacheEntry.blocked_reason entry) = Py.get (PDict body) "blocked_reason" PNone /\
   Ret (CacheEntry.policies entry) = Py.get (PDict body) "policies" (PList [])).
Proof.
  intros Hmiss Hb Hjson url now entry w'.
  pose proof (fetch_and_cache_response agent_id w latency code json body Hb Hjson)
    as Hfetch.
  assert (Hlookup : status_cache w' !! agent_id = Some entry)
    by (subst w'; simpl; apply lookup_insert_eq).
  repeat split.
  - unfold is_blocked, bind, try_except.
    rewrite (fresh_entry_miss _ _ Hmiss), Hfetch. simpl.
    rewrite lookup_insert_eq. reflexivity.
  - unfold get_policies, bind, try_except.
    rewrite (fresh_entry_miss _ _ Hmiss), Hfetch. simpl.
    rewrite lookup_insert_eq. reflexivity.
  - exact Hlookup.
  - subst entry. unfold entry_of_response. destruct (code =? 200)%Z; reflexivity.
  - subst entry. unfold entry_of_response.
    destruct (Z.eqb_spec code 200); [contradiction | reflexivity].
  - subst entry. unfold entry_of_response.
    destruct (Z.eqb_spec code 200); [contradiction | reflexivity].
  - subst entry. unfold entry_of_response.
    destruct (Z.eqb_spec code 200); [contradiction | reflexivity].
  - subst entry. unfold entry_of_response. rewrite H. simpl.
    destruct (Py.assoc body "status"); reflexivity.
  - subst entry. unfold entry_of_response. rewrite H. simpl.
    destruct (Py.assoc body "blocked_reason"); reflexivity.
  - subst entry. unfold entry_of_response. rewrite H. simpl.
    destruct (Py.assoc body "policies"); reflexivity.
Qed.

End StatusCache.

Lemma fetch_caches_response_witness :
  miss_or_expired "agent-1" (initial_world (backend_blocked 200)) /\
  status_cache
    (snd (Status.is_blocked sample_checker "agent-1"
            (initial_world (backend_blocked 200)))) !! "agent-1"
  = Some (entry_of_response 200 blocked_body (0 + 0) 10).
Proof.
  assert (Hmiss : miss_or_expired "agent-1" (initial_world (backend_blocked 200)))
    by (vm_compute; exact I).
  split; [exact Hmiss|].
  destruct (fetch_caches_response sample_checker "agent-1"
              (initial_world (backend_blocked 200)) 0 200
              (Some (PDict blocked_body)) blocked_body
              Hmiss eq_refl (fun _ => eq_refl))
    as (H1 & _ & _ & H4 & _).
  rewrite H1. exact H4.
Defined.

(** C5, as stated, fails on a 2xx code other than 200: the body of a
    [201] response says [BLOCKED], yet the lookup reports the agent as
    not blocked and the entry cached is [ACTIVE, None, []]. *)
Lemma status_201_body_not_parsed :
  let out := Status.is_blocked sample_checker "agent-1"
               (initial_world (backend_blocked 201)) in
  fst out = Ret (false, PNone) /\
  status_cache (snd out) !! "agent-1"
  = Some (CacheEntry.make (PStr "ACTIVE") PNone (PList []) (0 + 0 + 10)).
Proof. vm_compute. split; reflexivity. Qed.

(* ----------------------------------------------------------------- *)
(** ** Cache freshness: how often the backend is asked *)

Section StringCancellation.

Lemma app_cancel_l (p s t : string) : p +:+ s = p +:+ t -> s = t.
Proof. induction p as [|c p IH]; simpl; intros H; [exact H | injection H; auto]. Qed.

Lemma app_cancel_r_len (t : string) :
  forall s s' : string,
    String.length s = String.length s' -> s +:+ t = s' +:+ t -> s = s'.
Proof.
  induction s as [|c s IH]; intros [|c' s'] Hlen H; simpl in *;
    try reflexivity; try discriminate.
  injection H as -> H. f_equal. apply IH; [lia | exact H].
Qed.

Lemma app_cancel_r (s s' t : string) : s +:+ t = s' +:+ t -> s = s'.
Proof.
  intros H. apply (app_cancel_r_len t); [|exact H].
  apply (f_equal String.length) in H. rewrite !length_app in H. lia.
Qed.

Lemma status_url_inj self a b :
  Status.status_url self a = Status.status_url self b -> a = b.
Proof.
  unfold Status.status_url. intros H.
  apply app_cancel_l, app_cancel_l in H. apply app_cancel_r in H. exact H.
Qed.

End StringCancellation.

Section CacheFreshness.

Import Status.

Variable self : AgentStatusChecker.
Variable agent_id : string.

Local Abbreviation url := (status_url self agent_id).
Local Abbreviation T := (_ttl self).
Local Abbreviation Qn n := (inject_Z (Z.of_nat n)).
Local Abbreviation fetched := (fetched self).
Local Abbreviation fresh_inv := (fresh_inv self agent_id).

Hypothesis ttl_positive : (0 < T)%Q.

Lemma Qn_succ n : (Qn (S n) == Qn n + 1)%Q.
Proof. rewrite Nat2Z.inj_succ, <- Z.add_1_r, inject_Z_plus. reflexivity. Qed.

Lemma lookup_cases b w :
  backend_answers (backend w) ->
  (snd (is_blocked self b w) = w /\ snd (get_policies self b w) = w) \/
  (fetched b w (snd (is_blocked self b w)) /\
   fetched b w (snd (get_policies self b w))).
Proof.
  intros Hans.
  destruct (fresh_entry b w) as [r w1] eqn:Hfresh.
  assert (w1 = w) by (rewrite <- (fresh_entry_world b w), Hfresh; reflexivity).
  subst w1.
  assert (Hcase : (exists e, r = Ret (Some e)) \/ (r = Ret None /\ miss_or_expired b w)).
  { revert Hfresh. unfold fresh_entry, miss_or_expired, bind, get_world,
      monotonic, ret. simpl.
    destruct (status_cache w !! b) as [e|].
    - destruct (PyFloat.Qltb (mono w) (CacheEntry.expires_at e)) eqn:E;
        intros [= <-]; [left; eauto | right; split; [reflexivity|]].
      apply Qltb_false, E.
    - intros [= <-]. right. split; [reflexivity | exact I]. }
  destruct Hcase as [[e ->] | [-> Hmiss]].
  - left. unfold is_blocked, get_policies, bind. rewrite Hfresh. split; reflexivity.
  - right.
    destruct (Hans (length (requests w)) (status_url self b))
      as [Hlat (code & json & Hout & Hjson)].
    destruct (backend w (length (requests w)) (status_url self b))
      as [latency out] eqn:Hb. simpl in Hlat, Hout. subst out.
    assert (Hbody : exists body, code = 200%Z -> json = Some (PDict body)).
    { destruct (Z.eq_dec code 200%Z) as [Hc|Hc].
      - destruct (Hjson Hc) as [body ->]. exists body. reflexivity.
      - exists []. intros; contradiction. }
    destruct Hbody as [body Hbody].
    destruct (fetch_caches_response self b w latency code json body Hmiss Hb Hbody)
      as (H1 & H2 & _).
    split; (split; [exact Hmiss|]); exists latency, code, body;
      (split; [exact Hlat|]); assumption.
Qed.

Lemma entry_expiry code body now :
  CacheEntry.expires_at (entry_of_response code body now T) = (now + T)%Q.
Proof. unfold entry_of_response. destruct (code =? 200)%Z; reflexivity. Qed.

Lemma fresh_inv_fetched w0 w n b w' :
  fresh_inv w0 w n -> fetched b w w' -> exists n', fresh_inv w0 w' n'.
Proof.
  intros (Hback & Hmono & Hgets & Hentry) (Hmiss & latency & code & body & Hlat & ->).
  destruct (decide (b = agent_id)) as [->|Hne].
  - exists (S n). unfold fresh_inv. simpl.
    split; [exact Hback|]. split; [lra|]. split.
    + unfold gets_on in *. simpl. rewrite String.eqb_refl. simpl. lia.
    + right. eexists. split; [apply lookup_insert_eq|].
      rewrite entry_expiry. split; [|lra].
      rewrite Qn_succ.
      destruct Hentry as [->|(e & He & Hn & _)].
      * change (inject_Z (Z.of_nat 0)) with 0%Q. lra.
      * unfold miss_or_expired in Hmiss. rewrite He in Hmiss. lra.
  - exists n. unfold fresh_inv. simpl.
    split; [exact Hback|]. split; [lra|]. split.
    + unfold gets_on in *. simpl.
      destruct (String.eqb_spec url (status_url self b)) as [Heq|_]; [|exact Hgets].
      exfalso. apply Hne. symmetry. apply (status_url_inj self), Heq.
    + destruct Hentry as [->|(e & He & Hn & Hexp)]; [left; reflexivity|].
      right. exists e. split; [rewrite lookup_insert_ne; auto|].
      split; [exact Hn | lra].
Qed.

Lemma fresh_inv_step w0 w n c :
  backend_answers (backend w0) -> forward c ->
  fresh_inv w0 w n -> exists n', fresh_inv w0 (checker_step self w c) n'.
Proof.
  intros Hans Hfwd Hinv.
  assert (Hans' : backend_answers (backend w))
    by (destruct Hinv as (-> & _); exact Hans).
  destruct c as [b|b|d]; simpl.
  - destruct (lookup_cases b w Hans') as [[-> _]|[Hf _]];
      [exists n; exact Hinv | eapply fresh_inv_fetched; eauto].
  - destruct (lookup_cases b w Hans') as [[_ ->]|[_ Hf]];
      [exists n; exact Hinv | eapply fresh_inv_fetched; eauto].
  - exists n. simpl in Hfwd.
    destruct Hinv as (Hback & Hmono & Hgets & Hentry).
    unfold fresh_inv. simpl. split; [exact Hback|]. split; [lra|].
    split; [exact Hgets|].
    destruct Hentry as [->|(e & He & Hn & Hexp)]; [left; reflexivity|].
    right. exists e. repeat split; [exact He | exact Hn | lra].
Qed.

Lemma fresh_inv_run w0 calls :
  backend_answers (backend w0) ->
  forall w n, Forall forward calls -> fresh_inv w0 w n ->
              exists n', fresh_inv w0 (checker_run self calls w) n'.
Proof.
  intros Hans. induction calls as [|c calls IH]; intros w n Hfwd Hinv; simpl.
  - exists n. exact Hinv.
  - inversion Hfwd as [|? ? Hc Hrest]; subst.
    destruct (fresh_inv_step w0 w n c Hans Hc Hinv) as [n1 H1].
    apply (IH _ n1 Hrest H1).
Qed.

(** C6 (as amended).  With a positive TTL and a backend that always
    answers (no network or parse error), any sequence of [is_blocked]
    and [get_policies] calls, on this or other agents, with any
    waiting in between, makes at most [ceil(elapsed / TTL) + 1] GET
    requests for the agent, [elapsed] being the time the sequence
    took. *)
Theorem backend_calls_bounded (calls : list CheckerCall) (w : World) :
  backend_answers (backend w) ->
  Forall forward calls ->
  let w' := checker_run self calls w in
  let elapsed := (mono w' - mono w)%Q in
  (Z.of_nat (gets_between self agent_id w w') <= Qceiling (elapsed / T) + 1)%Z.
Proof.
  intros Hans Hfwd w' elapsed.
  assert (Hinit : fresh_inv w w 0).
  { unfold fresh_inv. repeat split; [lra | lia | left; reflexivity]. }
  destruct (fresh_inv_run w calls Hans w 0%nat Hfwd Hinit)
    as (n & _ & Hmono & Hgets & Hentry).
  fold w' in Hmono, Hgets, Hentry.
  unfold gets_between. rewrite Hgets.
  replace (gets_on url (requests w) + n - gets_on url (requests w))%nat with n by lia.
  assert (Hpos : (0 <= elapsed / T)%Q).
  { apply Qle_shift_div_l; [exact ttl_positive | subst elapsed; lra]. }
  destruct Hentry as [->|(e & _ & Hn & Hexp)].
  - pose proof (Qceiling_resp_le _ _ Hpos) as H.
    change (Qceiling 0) with 0%Z in H. simpl. lia.
  - assert (Hq : (Qn n - 1 <= elapsed / T)%Q).
    { apply Qle_shift_div_l; [exact ttl_positive | subst elapsed; lra]. }
    pose proof (Qle_ceiling (elapsed / T)) as Hc.
    assert (Hz : (inject_Z (Z.of_nat n - 1) <= inject_Z (Qceiling (elapsed / T)))%Q).
    { unfold Z.sub. rewrite inject_Z_plus. change (inject_Z (Z.opp 1)) with (-1)%Q.
      set (r := (elapsed / T)%Q) in *. clearbody r. lra. }
    rewrite <- Zle_Qle in Hz. lia.
Qed.

End CacheFreshness.

Lemma backend_blocked_answers code : backend_answers (backend_blocked code).
Proof.
  intros k url. split; [simpl; lra|].
  exists code, (Some (PDict blocked_body)). split; [reflexivity|].
  intros _. exists blocked_body. reflexivity.
Qed.

Lemma backend_calls_bounded_witness :
  let w := initial_world (backend_blocked 200) in
  let w' := checker_run sample_checker sample_calls w in
  (0 < Status._ttl sample_checker)%Q /\
  backend_answers (backend w) /\
  Forall forward sample_calls /\
  gets_between sample_checker "agent-1" w w' = 2%nat /\
  (Z.of_nat (gets_between sample_checker "agent-1" w w')
   <= Qceiling ((mono w' - mono w) / Status._ttl sample_checker) + 1)%Z.
Proof.
  intros w w'.
  assert (Httl : (0 < Status._ttl sample_checker)%Q) by (vm_compute; reflexivity).
  assert (Hfwd : Forall forward sample_calls)
    by (repeat constructor; vm_compute; discriminate).
  split; [exact Httl|].
  split; [apply backend_blocked_answers|].
  split; [exact Hfwd|].
  split; [vm_compute; reflexivity|].
  exact (backend_calls_bounded sample_checker "agent-1" Httl sample_calls w
           (backend_blocked_answers 200) Hfwd).
Defined.

(** C6, as stated, fails when the backend raises: nothing is cached
    after a failed GET, so three lookups made at the same instant make
    three GETs, more than [ceil(0 / 10) + 1 = 1]. *)
Lemma backend_errors_are_not_cached :
  let w := initial_world backend_down in
  let w' := checker_run sample_checker burst_calls w in
  gets_between sample_checker "agent-1" w w' = 3%nat /\
  (mono w' - mono w == 0)%Q /\
  (Qceiling ((mono w' - mono w) / Status._ttl sample_checker) + 1
   < Z.of_nat (gets_between sample_checker "agent-1" w w'))%Z.
Proof. vm_compute. repeat split; reflexivity. Qed.

(* ----------------------------------------------------------------- *)
(** ** Spans beyond [MAX_SPANS_PER_TRACE] *)

Section DetachedSpans.

Import Tracing.

Lemma span_type_roundtrip ty : span_type_of_string (span_type_name ty) = Some ty.
Proof. destruct ty; reflexivity. Qed.

Lemma estimate_cost_world m i o w : snd (Cost.estimate_cost m i o w) = w.
Proof.
  unfold Cost.estimate_cost, bind, lift, get_world, ret.
  destruct (Cost.lookup_key m); [|reflexivity].
  destruct (Py.div_1000 i); [|reflexivity].
  destruct (Py.div_1000 o); reflexivity.
Qed.

Lemma bind_known {A B} (m : M A) (k : A -> M B) w a w' :
  m w = (Ret a, w') -> bind m k w = k a w'.
Proof. intros H. unfold bind. rewrite H. reflexivity. Qed.

Lemma bind_raised {A B} (m : M A) (k : A -> M B) w e w' :
  m w = (Raise e, w') -> bind m k w = (Raise e, w').
Proof. intros H. unfold bind. rewrite H. reflexivity. Qed.

Lemma same_outside_tracing_refl w : same_outside_tracing w w.
Proof. unfold same_outside_tracing. repeat split; reflexivity. Qed.

Lemma same_outside_tracing_trans w1 w2 w3 :
  same_outside_tracing w1 w2 -> same_outside_tracing w2 w3 ->
  same_outside_tracing w1 w3.
Proof.
  unfold same_outside_tracing. intros H1 H2.
  destruct H1 as (?&?&?&?&?&?&?&?&?&?&?), H2 as (?&?&?&?&?&?&?&?&?&?&?).
  repeat split; congruence.
Qed.

Lemma get_span_some a w s : heap w !! a = Some s -> get_span a w = (Ret s, w).
Proof. intros H. unfold get_span. rewrite H. reflexivity. Qed.

Lemma get_span_none a w : heap w !! a = None -> get_span a w = (Raise AttributeError, w).
Proof. intros H. unfold get_span. rewrite H. reflexivity. Qed.

Lemma update_span_some a f w s :
  heap w !! a = Some s ->
  update_span a f w = (Ret tt, with_heap (alter f a (heap w)) w).
Proof.
  intros H. unfold update_span. rewrite (bind_known _ _ _ _ _ (get_span_some a w s H)).
  reflexivity.
Qed.

Lemma update_span_none a f w :
  heap w !! a = None -> update_span a f w = (Raise AttributeError, w).
Proof.
  intros H. unfold update_span. apply bind_raised, get_span_none, H.
Qed.

(** What [pop_if_top] does to the state: nothing, or it pops the top of
    the active stack, which then was [span_id]. *)
Lemma pop_if_top_effect t span_id w :
  let w' := snd (pop_if_top t span_id w) in
  heap w' = heap w /\ same_outside_tracing w w' /\
  (w' = w \/
   exists tc rest,
     traces w !! t = Some tc /\
     TraceContext._active_stack tc = span_id :: rest /\
     traces w' = <[t := TraceContext.make (TraceContext._spans tc) rest]> (traces w)).
Proof.
  unfold pop_if_top, bind, get_trace.
  destruct (traces w !! t) as [tc|] eqn:Htr; simpl;
    [|repeat split; auto using same_outside_tracing_refl].
  destruct (TraceContext._active_stack tc) as [|top rest] eqn:Hst; simpl;
    [repeat split; auto using same_outside_tracing_refl|].
  destruct (Nat.eqb_spec top span_id) as [->|Hne]; simpl;
    [|repeat split; auto using same_outside_tracing_refl].
  split; [reflexivity|]. split; [unfold same_outside_tracing; repeat split|].
  right. exists tc, rest. auto.
Qed.

Lemma finish_span_id now o st e i ot m s :
  Span.span_id (finish now o st e i ot m s) = Span.span_id s.
Proof. reflexivity. Qed.

(** What [end_span] does to the state, whether it returns or raises:
    the span object at [a] gets new attributes but keeps its id, no
    other object changes, and the active stack of the trace is popped
    only when its top is that id. *)
Lemma end_span_effect t a output status error input_tokens output_tokens model_id w :
  let w' := snd (end_span t a output status error input_tokens output_tokens
                   model_id w) in
  (exists g : Span.t -> Span.t,
      (forall s, Span.span_id (g s) = Span.span_id s) /\
      heap w' = alter g a (heap w)) /\
  same_outside_tracing w w' /\
  (traces w' = traces w \/
   exists tc s rest,
     traces w !! t = Some tc /\ heap w !! a = Some s /\
     TraceContext._active_stack tc = Span.span_id s :: rest /\
     traces w'
     = <[t := TraceContext.make (TraceContext._spans tc) rest]> (traces w)).
Proof.
  unfold end_span. rewrite (bind_known _ _ w (wall w) w) by reflexivity.
  assert (Hcase : (exists s0, heap w !! a = Some s0) \/ heap w !! a = None)
    by (destruct (heap w !! a); eauto).
  destruct Hcase as [[s0 Ha]|Ha].
  2:{ rewrite (bind_raised _ _ _ _ _ (update_span_none a _ w Ha)). simpl.
      split; [exists (fun s => s); split; [reflexivity|]|].
      - symmetry. apply list_alter_id. reflexivity.
      - split; [apply same_outside_tracing_refl | left; reflexivity]. }
  rewrite (bind_known _ _ _ _ _ (update_span_some a _ w s0 Ha)).
  set (f1 := finish (wall w) output status error input_tokens output_tokens model_id).
  set (w1 := with_heap (alter f1 a (heap w)) w).
  assert (Ha1 : heap w1 !! a = Some (f1 s0))
    by (subst w1; simpl; rewrite list_lookup_alter_eq, Ha; reflexivity).
  rewrite (bind_known _ _ _ _ _ (get_span_some a w1 _ Ha1)).
  assert (Hfin : forall (g : Span.t -> Span.t) (w2 : World),
             (forall s, Span.span_id (g s) = Span.span_id s) ->
             heap w2 = alter g a (heap w) -> traces w2 = traces w ->
             same_outside_tracing w w2 ->
             let w' := snd (pop_if_top t (Span.span_id (f1 s0)) w2) in
             (exists g, (forall s, Span.span_id (g s) = Span.span_id s) /\
                        heap w' = alter g a (heap w)) /\
             same_outside_tracing w w' /\
             (traces w' = traces w \/
              exists tc s rest,
                traces w !! t = Some tc /\ heap w !! a = Some s /\
                TraceContext._active_stack tc = Span.span_id s :: rest /\
                traces w'
                = <[t := TraceContext.make (TraceContext._spans tc) rest]> (traces w))).
  { intros g w2 Hg Hheap Htr Hsame.
    destruct (pop_if_top_effect t (Span.span_id (f1 s0)) w2) as (Hh & Hs & Hcase).
    split; [exists g; split; [exact Hg | congruence]|].
    split; [eapply same_outside_tracing_trans; eauto|].
    destruct Hcase as [->|(tc & rest & H1 & H2 & H3)]; [left; exact Htr|].
    right. exists tc, s0, rest. rewrite <- Htr. auto. }
  destruct (Py.truthy (Span.model_id (f1 s0))
            && (Py.truthy input_tokens || Py.truthy output_tokens)).
  - destruct (Cost.estimate_cost (Span.model_id (f1 s0)) input_tokens output_tokens w1)
      as [[c|e] w2] eqn:Hcost;
      pose proof (estimate_cost_world (Span.model_id (f1 s0)) input_tokens
                    output_tokens w1) as Hw; rewrite Hcost in Hw; simpl in Hw; subst w2.
    + rewrite (bind_known _ _ w1 tt (with_heap (alter (with_cost c) a (heap w1)) w1)).
      2:{ rewrite (bind_known _ _ _ _ _ Hcost). apply (update_span_some _ _ _ _ Ha1). }
      apply (Hfin (fun s => with_cost c (f1 s))); try reflexivity.
      * simpl. apply list_alter_alter_eq.
      * unfold same_outside_tracing; repeat split.
    + rewrite (bind_raised _ _ w1 e w1).
      2:{ apply (bind_raised _ _ _ _ _ Hcost). }
      simpl. split; [exists f1; split; reflexivity|].
      split; [unfold same_outside_tracing; repeat split | left; reflexivity].
  - rewrite (bind_known _ _ w1 tt w1) by reflexivity.
    apply (Hfin f1); try reflexivity. unfold same_outside_tracing; repeat split.
Qed.

Lemma of_optional_valid (o : option string) :
  match of_optional o with PNone | PStr _ => True | _ => False end.
Proof. destruct o; exact I. Qed.

(** At the limit, [start_span] only builds a new object. *)
Lemma start_span_at_limit t tc w name ty input model_id :
  traces w !! t = Some tc ->
  (MAX_SPANS_PER_TRACE <= length (TraceContext._spans tc))%nat ->
  start_span t (PStr name) (span_type_name ty) input (of_optional model_id) w
  = (Ret (length (heap w)),
     with_heap (heap w ++ [detached_span w name ty input model_id])
       (with_uuid_supply (S (uuid_supply w)) w)).
Proof.
  intros Htr Hfull. unfold start_span, bind, get_trace. rewrite Htr.
  destruct (Nat.leb_spec MAX_SPANS_PER_TRACE (length (TraceContext._spans tc)))
    as [_|Hlt]; [|lia].
  unfold new_span. rewrite span_type_roundtrip.
  destruct model_id; reflexivity.
Qed.

(** C10.  On a trace context that stores [MAX_SPANS_PER_TRACE] spans
    (or more), [start_span] returns a new span object without a parent,
    whatever the active stack holds, and leaves the stored spans and
    the active stack as they are; [end_span] on that span, with any
    arguments and whether or not it raises, again leaves them as they
    are and changes no object but the detached span. *)
Theorem detached_span_frame (t : nat) (tc : TraceContext.t) (w : World)
        (name : string) (ty : SpanType) (input model_id : option string) :
  traces w !! t = Some tc ->
  (MAX_SPANS_PER_TRACE <= length (TraceContext._spans tc))%nat ->
  Forall (fun id => (id < uuid_supply w)%nat) (TraceContext._active_stack tc) ->
  let s := detached_span w name ty input model_id in
  let a := length (heap w) in
  exists w1 : World,
    start_span t (PStr name) (span_type_name ty) input (of_optional model_id) w
    = (Ret a, w1) /\
    heap w1 = heap w ++ [s] /\
    Span.parent_span_id s = None /\
    traces w1 = traces w /\
    forall output status error input_tokens output_tokens model_id',
      let w2 := snd (end_span t a output status error input_tokens output_tokens
                       model_id' w1) in
      traces w2 = traces w /\
      exists s', heap w2 = heap w ++ [s'] /\ Span.span_id s' = Span.span_id s.
Proof.
  intros Htr Hfull Hfresh s a.
  exists (with_heap (heap w ++ [s]) (with_uuid_supply (S (uuid_supply w)) w)).
  split; [apply (start_span_at_limit t tc); assumption|].
  split; [reflexivity|]. split; [reflexivity|]. split; [reflexivity|].
  intros output status error input_tokens output_tokens model_id'. cbv zeta.
  destruct (end_span_effect t a output status error input_tokens output_tokens
              model_id'
              (with_heap (heap w ++ [s]) (with_uuid_supply (S (uuid_supply w)) w)))
    as ((g & Hg & Hheap) & _ & Htraces).
  simpl in Hheap, Htraces.
  split.
  - destruct Htraces as [H|(tc' & s1 & rest & H1 & H2 & H3 & _)]; [exact H|].
    exfalso. rewrite Htr in H1. injection H1 as <-.
    subst a. rewrite lookup_app_r in H2 by lia.
    rewrite Nat.sub_diag in H2. injection H2 as <-.
    rewrite H3 in Hfresh. inversion Hfresh as [|? ? Htop _]. simpl in Htop. lia.
  - exists (g s). split; [|apply Hg].
    rewrite Hheap. subst a. rewrite <- (Nat.add_0_r (length (heap w))) at 1.
    rewrite alter_app_r. reflexivity.
Qed.

End DetachedSpans.

Lemma detached_span_frame_witness :
  exists tc : TraceContext.t,
    traces world_at_span_limit !! 0%nat = Some tc /\
    length (TraceContext._spans tc) = MAX_SPANS_PER_TRACE /\
    length (TraceContext._active_stack tc) = 100%nat /\
    Forall (fun id => (id < uuid_supply world_at_span_limit)%nat)
           (TraceContext._active_stack tc) /\
    exists w1,
      Tracing.start_span 0 (PStr "overflow") "tool" None PNone world_at_span_limit
      = (Ret (length (heap world_at_span_limit)), w1) /\
      traces w1 = traces world_at_span_limit.
Proof.
  eexists. split; [vm_compute; reflexivity|].
  assert (Hfresh : Forall (fun id => (id < uuid_supply world_at_span_limit)%nat)
                     (rev (seq 0 100))).
  { apply List.Forall_forall. intros id Hin. apply in_rev, in_seq in Hin.
    change (uuid_supply world_at_span_limit) with 100%nat. lia. }
  split; [reflexivity|]. split; [reflexivity|]. split; [exact Hfresh|].
  destruct (detached_span_frame 0 _ world_at_span_limit "overflow" tool None None
              (eq_refl : traces world_at_span_limit !! 0%nat
                         = Some (TraceContext.make (seq 0 100) (rev (seq 0 100))))
              (le_n _) Hfresh)
    as (w1 & Hstart & _ & _ & Htraces & _).
  exists w1. split; [exact Hstart | exact Htraces].
Defined.

(* ----------------------------------------------------------------- *)
(** ** Prompt fingerprints *)

Section FingerprintLaws.

Import Fingerprint.

Variable sha256_hexdigest : string -> string.

Local Abbreviation fingerprint := (compute_fingerprint sha256_hexdigest).



(** The hash has no collisions: the idealisation under which two
    digests are compared in place of the strings. *)
Hypothesis sha256_collision_free :
  forall x y, sha256_hexdigest x = sha256_hexdigest y -> x = y.


End FingerprintLaws.


(* ----------------------------------------------------------------- *)
(** ** The invocation wrapper: pre-invocation checks *)

Section PreChecks.

Import Decorators.

Variable py_str : pyval -> string.
Variable exn_str : exn -> string.
Variable sha256_hexdigest : string -> string.
Variable pydantic_int : pyval -> option Z.

Local Abbreviation wrapper := (Decorators.wrapper py_str exn_str sha256_hexdigest pydantic_int).
Local Abbreviation traced_call :=
  (Decorators.traced_call py_str exn_str sha256_hexdigest pydantic_int).

Lemma fresh_entry_hit agent w entry :
  status_cache w !! agent = Some entry ->
  (mono w < CacheEntry.expires_at entry)%Q ->
  Status.fresh_entry agent w = (Ret (Some entry), w).
Proof.
  intros Hc Hf. unfold Status.fresh_entry, bind, get_world, Status.monotonic, ret.
  simpl. rewrite Hc. apply Qltb_true in Hf. rewrite Hf. reflexivity.
Qed.

Lemma is_blocked_hit chk agent w entry :
  status_cache w !! agent = Some entry ->
  (mono w < CacheEntry.expires_at entry)%Q ->
  Status.is_blocked chk agent w = (Ret (Status.blocked_of entry), w).
Proof.
  intros Hc Hf. unfold Status.is_blocked.
  rewrite (bind_known _ _ _ _ _ (fresh_entry_hit agent w entry Hc Hf)). reflexivity.
Qed.

Lemma get_policies_hit chk agent w entry :
  status_cache w !! agent = Some entry ->
  (mono w < CacheEntry.expires_at entry)%Q ->
  Status.get_policies chk agent w = (Ret (CacheEntry.policies entry), w).
Proof.
  intros Hc Hf. unfold Status.get_policies.
  rewrite (bind_known _ _ _ _ _ (fresh_entry_hit agent w entry Hc Hf)). reflexivity.
Qed.

(** C2.  When the cache holds a fresh entry with status ["BLOCKED"]
    for the agent, a call of the wrapped function raises
    [AgentBlockedError] with the agent id and the reason (the cached
    one, or ["Agent is blocked"] when there is none), and leaves the
    process state exactly as it was: the user function is not entered
    and nothing is put on the transport queue. *)
Theorem blocked_agent_is_preempted (chk : Status.AgentStatusChecker)
        (self : ObserveDecorator) (func : PyFunction) (args : list pyval)
        (kwargs : list (string * pyval)) (w : World) (entry : CacheEntry.t) :
  status_checker self = Some (checker_of chk) ->
  status_cache w !! agent_id self = Some entry ->
  (mono w < CacheEntry.expires_at entry)%Q ->
  CacheEntry.status entry = PStr "BLOCKED" ->
  let out := wrapper self func args kwargs w in
  fst out = Raise (AgentBlockedError (agent_id self)
                     (Py.or_else (CacheEntry.blocked_reason entry)
                                 (PStr "Agent is blocked"))) /\
  snd out = w /\
  calls (snd out) = calls w /\
  queue (snd out) = queue w.
Proof.
  intros Hchk Hc Hf Hst out.
  assert (Hout : out = (Raise (new_AgentBlockedError (agent_id self)
                                 (CacheEntry.blocked_reason entry)), w)).
  { subst out. unfold Decorators.wrapper. apply bind_raised.
    unfold kill_switch_check. rewrite Hchk. unfold fail_open. simpl.
    rewrite (bind_known _ _ _ _ _ (is_blocked_hit chk _ w entry Hc Hf)).
    unfold Status.blocked_of. rewrite Hst. reflexivity. }
  rewrite Hout. repeat split; reflexivity.
Qed.

Lemma bind_lift_ret {A B} (a : A) (k : A -> M B) w :
  bind (lift (Ret a)) k w = k a w.
Proof. reflexivity. Qed.

Lemma bind_ret {A B} (a : A) (k : A -> M B) w : bind (ret a) k w = k a w.
Proof. reflexivity. Qed.

Lemma count_in_window_int agent ws w :
  Status.count_in_window agent (PInt ws) w
  = (Ret (Z.of_nat (length
            (List.filter (fun t => PyFloat.Qltb (mono w - inject_Z ws)%Q t)
               (default [] (rate_counts w !! agent))))),
     with_rate_counts
       (<[agent := List.filter (fun t => PyFloat.Qltb (mono w - inject_Z ws)%Q t)
                     (default [] (rate_counts w !! agent))]> (rate_counts w)) w).
Proof. reflexivity. Qed.




End PreChecks.

Lemma blocked_agent_is_preempted_witness :
  status_cache blocked_world !! "agent-1"
  = Some (CacheEntry.make (PStr "BLOCKED") (PStr "manual") (PList []) (0 + 0 + 10)%Q) /\
  fst (sample_wrapper guarded_decorator (returning "ask_agent" (PStr "ok")) [] []
         blocked_world)
  = Raise (AgentBlockedError "agent-1" (PStr "manual")) /\
  calls (snd (sample_wrapper guarded_decorator (returning "ask_agent" (PStr "ok"))
                [] [] blocked_world)) = [].
Proof.
  assert (Hc : status_cache blocked_world !! "agent-1"
               = Some (CacheEntry.make (PStr "BLOCKED") (PStr "manual") (PList [])
                         (0 + 0 + 10)%Q))
    by (vm_compute; reflexivity).
  assert (Hf : (mono blocked_world < 0 + 0 + 10)%Q) by (vm_compute; reflexivity).
  destruct (blocked_agent_is_preempted sample_str sample_exn_str transparent_hash
              strict_int sample_checker guarded_decorator
              (returning "ask_agent" (PStr "ok")) [] [] blocked_world _
              eq_refl Hc Hf eq_refl) as (H1 & _ & H3 & _).
  split; [exact Hc|]. split; [exact H1 | exact H3].
Defined.


(** C1.  The claim fails on a response whose token counts are
    strings: the user function returns the response, the [finally]
    clause of the wrapper passes the counts to [end_span], whose cost
    estimate divides a string by 1000, and the [TypeError] of that
    division reaches the caller in place of the response, with any
    runtime and although the user function ran. *)
Theorem string_token_counts_reach_caller
        (py_str : pyval -> string) (exn_str : exn -> string)
        (sha256_hexdigest : string -> string) (pydantic_int : pyval -> option Z) :
  let func := returning "call_model" response_with_string_counts in
  let w := initial_world backend_down in
  let out := Decorators.wrapper py_str exn_str sha256_hexdigest pydantic_int
               decorator_with_failing_transport func [] [] w in
  fst (py_call func [] [] w) = Ret response_with_string_counts /\
  fst out = Raise TypeError /\
  calls (snd out) = [mkCall "call_model" [] []].
Proof. vm_compute. repeat split; reflexivity. Qed.

(* ----------------------------------------------------------------- *)
(** ** The tool wrapper ([client.trace_tool]) *)

Section ToolWrapper.

Import Tracing.

Variable py_str : pyval -> string.
Variable exn_str : exn -> string.

Local Abbreviation trace_tool := (Client.trace_tool py_str exn_str).

(** Below the limit, [start_span] stores the new span and pushes its
    id. *)
Lemma start_span_below_limit t tc w name ty input model_id :
  traces w !! t = Some tc ->
  (length (TraceContext._spans tc) < MAX_SPANS_PER_TRACE)%nat ->
  start_span t (PStr name) (span_type_name ty) input (of_optional model_id) w
  = (Ret (length (heap w)),
     with_child_span t w tc (child_span w tc name ty input model_id)).
Proof.
  intros Htr Hlt. unfold start_span. rewrite (bind_known _ _ w tc w).
  2:{ unfold get_trace. rewrite Htr. reflexivity. }
  destruct (Nat.leb_spec MAX_SPANS_PER_TRACE (length (TraceContext._spans tc)))
    as [Hge|_]; [lia|].
  erewrite (bind_known (new_span _ _ _ _ _) _ w (length (heap w))
              (with_heap (heap w ++ [child_span w tc name ty input model_id])
                 (with_uuid_supply (S (uuid_supply w)) w))).
  2:{ unfold new_span. rewrite span_type_roundtrip. destruct model_id; reflexivity. }
  erewrite (bind_known (get_span _)).
  2:{ apply get_span_some. simpl. rewrite lookup_app_r by lia.
      rewrite Nat.sub_diag. reflexivity. }
  reflexivity.
Qed.

(** With valid arguments, [start_span] returns the address of a new
    object with the name and type given, and touches neither the
    objects that exist nor the record of the calls. *)
Lemma start_span_new_object t tc w name ty input model_id :
  traces w !! t = Some tc ->
  exists (s : Span.t) (w1 : World),
    start_span t (PStr name) (span_type_name ty) input (of_optional model_id) w
    = (Ret (length (heap w)), w1) /\
    heap w1 = heap w ++ [s] /\
    Span.name s = name /\ Span.span_type s = ty /\
    Span.model_id s = of_optional model_id /\
    Span.input_tokens s = PInt 0 /\ Span.output_tokens s = PInt 0 /\
    Span.status s = OK /\ Span.error s = None /\
    calls w1 = calls w /\ wall w1 = wall w /\
    is_Some (traces w1 !! t).
Proof.
  intros Htr.
  destruct (Nat.le_gt_cases MAX_SPANS_PER_TRACE (length (TraceContext._spans tc)))
    as [Hge|Hlt].
  - eexists _, _. split; [apply (start_span_at_limit t tc); assumption|].
    simpl. rewrite Htr. repeat split; eauto.
  - eexists _, _. split; [apply (start_span_below_limit t tc); assumption|].
    simpl. repeat split; eauto.
    rewrite list_lookup_insert_eq; [eauto|]. apply lookup_lt_Some in Htr. exact Htr.
Qed.




Lemma pop_if_top_returns t span_id w :
  is_Some (traces w !! t) -> fst (pop_if_top t span_id w) = Ret tt.
Proof.
  intros [tc Htr]. unfold pop_if_top, bind, get_trace. rewrite Htr.
  destruct (TraceContext._active_stack tc) as [|top rest]; [reflexivity|].
  destruct (top =? span_id)%nat; reflexivity.
Qed.

(** [end_span] returns when the span and the trace context exist and
    no cost has to be estimated. *)
Lemma end_span_without_cost t a output status error input_tokens output_tokens
      model_id w s :
  heap w !! a = Some s ->
  Py.truthy (if Py.truthy model_id then model_id else Span.model_id s)
  && (Py.truthy input_tokens || Py.truthy output_tokens) = false ->
  is_Some (traces w !! t) ->
  exists w' : World,
    end_span t a output status error input_tokens output_tokens model_id w
    = (Ret tt, w') /\
    heap w' = alter (finish (wall w) output status error input_tokens
                       output_tokens model_id) a (heap w) /\
    same_outside_tracing w w'.
Proof.
  intros Ha Hcost Htr.
  set (f := finish (wall w) output status error input_tokens output_tokens model_id).
  set (w1 := with_heap (alter f a (heap w)) w).
  assert (Ha1 : heap w1 !! a = Some (f s))
    by (subst w1; simpl; rewrite list_lookup_alter_eq, Ha; reflexivity).
  assert (Hrun : end_span t a output status error input_tokens output_tokens
                   model_id w = pop_if_top t (Span.span_id (f s)) w1).
  { unfold end_span. rewrite (bind_known _ _ w (wall w) w) by reflexivity.
    rewrite (bind_known _ _ _ _ _ (update_span_some a _ w s Ha)).
    fold f. fold w1.
    rewrite (bind_known _ _ _ _ _ (get_span_some a w1 _ Ha1)).
    change (Span.model_id (f s))
      with (if Py.truthy model_id then model_id else Span.model_id s).
    rewrite Hcost. rewrite (bind_known _ _ w1 tt w1) by reflexivity. reflexivity. }
  destruct (pop_if_top_effect t (Span.span_id (f s)) w1) as (Hheap & Hsame & _).
  pose proof (pop_if_top_returns t (Span.span_id (f s)) w1 Htr) as Hret.
  destruct (pop_if_top t (Span.span_id (f s)) w1) as [r w'] eqn:Hpop.
  simpl in *. subst r. exists w'. rewrite Hrun. split; [reflexivity|].
  split; [exact Hheap|].
  eapply same_outside_tracing_trans; [|exact Hsame].
  unfold same_outside_tracing. repeat split.
Qed.


End ToolWrapper.



(* ================================================================= *)
(** * Further properties of the transport *)
(* ================================================================= *)

Section FlushOutcomes.

Import Transport.

Variable server : nat -> PostOutcome.
Variable batch : list string.

Local Ltac answer2 k :=
  let c := fresh "code" in
  let E := fresh "Hanswer" in
  destruct (server k) as [c ?|?] eqn:E;
  [ destruct (c <? 400)%Z eqn:?;
    [| destruct ((400 <=? c)%Z && (c <? 500)%Z) eqn:? ] |];
  cbn [List.filter is_post is_post_or_sleep length Nat.ltb Nat.leb MAX_RETRIES
       sleeps omap existsb is_drop_log orb andb retryable].

Local Ltac arith :=
  repeat match goal with
         | H : (_ && _)%bool = true |- _ => apply andb_true_iff in H; destruct H
         | H : (_ && _)%bool = false |- _ => apply andb_false_iff in H; destruct H
         | H : (_ <? _)%Z = true |- _ => apply Z.ltb_lt in H
         | H : (_ <? _)%Z = false |- _ => apply Z.ltb_ge in H
         | H : (_ <=? _)%Z = true |- _ => apply Z.leb_le in H
         | H : (_ <=? _)%Z = false |- _ => apply Z.leb_gt in H
         end.

(** X1.  The events of a batch are given up exactly when every one of the
    four attempts met a server error (500 or more) or an exception;
    the flush then made four POSTs, slept 1, 2 and 4 seconds, and
    logged the number of events dropped.  In every other case it
    stops at the first attempt that is answered below 500, and logs
    no drop. *)
Theorem flush_http_gives_up_iff :
  let tr := _flush_http server batch in
  let all_failed := retryable (server 0) && retryable (server 1)
                    && retryable (server 2) && retryable (server 3) in
  existsb is_drop_log tr = all_failed /\
  (all_failed = true ->
   post_attempts tr = 4%nat /\ sleeps tr = [1; 2; 4]%Q /\
   last tr = Some (LogDropped 4 (length batch))) /\
  (forall k : nat,
      (k < 4)%nat -> retryable (server k) = false ->
      (forall j : nat, (j < k)%nat -> retryable (server j) = true) ->
      post_attempts tr = (k + 1)%nat /\ length (sleeps tr) = k).
Proof.
  unfold _flush_http, post_attempts.
  cbn [seq MAX_RETRIES Nat.add flush_loop Nat.ltb Nat.leb].
  assert (Hcases : forall k : nat, (k < 4)%nat ->
            k = 0%nat \/ k = 1%nat \/ k = 2%nat \/ k = 3%nat) by lia.
  answer2 0%nat; [| | answer2 1%nat; [| | answer2 2%nat; [| | answer2 3%nat | answer2 3%nat]
                                     | answer2 2%nat; [| | answer2 3%nat | answer2 3%nat]]
                 | answer2 1%nat; [| | answer2 2%nat; [| | answer2 3%nat | answer2 3%nat]
                                     | answer2 2%nat; [| | answer2 3%nat | answer2 3%nat]]].
  all: arith.
  all: repeat match goal with
              | |- context [(500 <=? ?c)%Z] =>
                  let E := fresh in destruct (Z.leb_spec 500 c) as [E|E]; try lia
              end.
  all: cbn [andb].
  all: (split; [reflexivity|]).
  all: (split; [try discriminate; intros _; repeat split; reflexivity|]).
  all: intros k Hk Hr Hall.
  all: destruct (Hcases k Hk) as [-> | [-> | [-> | ->]]].
  all: try (pose proof (Hall 0%nat ltac:(lia)) as H0').
  all: try (pose proof (Hall 1%nat ltac:(lia)) as H1').
  all: try (pose proof (Hall 2%nat ltac:(lia)) as H2').
  all: repeat match goal with
              | E : server ?k = _, H : context [server ?k] |- _ => rewrite E in H
              end.
  all: cbn [retryable] in *.
  all: arith.
  all: try lia.
  all: try discriminate.
  all: split; reflexivity.
Qed.

End FlushOutcomes.

Lemma flush_http_gives_up_iff_witness :
  (Transport.post_attempts (Transport._flush_http dead_server ["e1"; "e2"]) = 4%nat /\
   sleeps (Transport._flush_http dead_server ["e1"; "e2"]) = [1; 2; 4]%Q /\
   last (Transport._flush_http dead_server ["e1"; "e2"])
   = Some (Transport.LogDropped 4 2)) /\
  (Transport.post_attempts (Transport._flush_http flaky_server ["e1"]) = 3%nat /\
   length (sleeps (Transport._flush_http flaky_server ["e1"])) = 2%nat).
Proof.
  split.
  - exact (proj1 (proj2 (flush_http_gives_up_iff dead_server ["e1"; "e2"])) eq_refl).
  - refine (proj2 (proj2 (flush_http_gives_up_iff flaky_server ["e1"])) 2%nat _ eq_refl _).
    + lia.
    + intros [|[|j]] Hj; [reflexivity | reflexivity | lia].
Defined.

(* ================================================================= *)
(** * The queue in front of the worker *)
(* ================================================================= *)

Section SendQueue.

Import EventTransport.

Variable model_dump_json : TelemetryEvent.t -> string.
Variable max_queue_size : Z.

Lemma with_queue_twice q q' w : with_queue q (with_queue q' w) = with_queue q w.
Proof. reflexivity. Qed.

Lemma with_queue_same w : with_queue (queue w) w = w.
Proof. destruct w; reflexivity. Qed.

(** X2.  [send] never raises and never blocks.  While no worker takes items
    off, the queue holds the events sent so far in the order they were
    sent, cut at [max_queue_size] items: the events that arrive when
    the queue is full are dropped, the ones already queued stay.  A
    queue built with [max_queue_size <= 0] has no bound and drops
    nothing.  Nothing but the queue changes. *)
Theorem send_keeps_oldest_events (events : list TelemetryEvent.t) (w : World) :
  ((0 < max_queue_size)%Z -> (Z.of_nat (length (queue w)) <= max_queue_size)%Z) ->
  let sent := queue w ++ map model_dump_json events in
  send_all model_dump_json max_queue_size events w
  = (Ret tt,
     with_queue (if (0 <? max_queue_size)%Z
                 then take (Z.to_nat max_queue_size) sent else sent) w).
Proof.
  unfold send_all.
  revert w. induction events as [|e events IH]; intros w Hlen; cbn zeta.
  - cbn [for_each map]. rewrite app_nil_r. unfold ret. f_equal.
    destruct (0 <? max_queue_size)%Z eqn:Hpos.
    + apply Z.ltb_lt in Hpos.
      rewrite take_ge by (specialize (Hlen Hpos); lia).
      symmetry; apply with_queue_same.
    + symmetry; apply with_queue_same.
  - cbn [for_each map]. unfold bind at 1. unfold send_event at 1.
    unfold full. destruct (0 <? max_queue_size)%Z eqn:Hpos; cbn [andb].
    + pose proof Hpos as Hlt. apply Z.ltb_lt in Hlt. specialize (Hlen Hlt).
      destruct (max_queue_size <=? Z.of_nat (length (queue w)))%Z eqn:Hfull.
      * apply Z.leb_le in Hfull.
        rewrite IH by (intros _; lia).
        f_equal. f_equal.
        rewrite !take_app_le by lia. reflexivity.
      * apply Z.leb_gt in Hfull.
        rewrite IH by (intros _; cbn [queue with_queue]; rewrite List.length_app; cbn; lia).
        rewrite with_queue_twice. cbn [queue with_queue].
        rewrite <- app_assoc. reflexivity.
    + rewrite IH by (intros Hpos'; apply Z.ltb_lt in Hpos'; congruence).
      rewrite with_queue_twice. cbn [queue with_queue].
      rewrite <- app_assoc. reflexivity.
Qed.

End SendQueue.

Lemma send_keeps_oldest_events_witness :
  send_all sample_json 2
    [sample_event "a"; sample_event "b"; sample_event "c"]
    (initial_world backend_down)
  = (Ret tt, with_queue ["a:SUCCESS"; "b:SUCCESS"] (initial_world backend_down)).
Proof.
  exact (send_keeps_oldest_events sample_json 2
           [sample_event "a"; sample_event "b"; sample_event "c"]
           (initial_world backend_down) ltac:(cbn; lia)).
Defined.

(* ================================================================= *)
(** * The worker loop *)
(* ================================================================= *)

Section WorkerLoop.

Import Worker.

Variable batch_size : Z.

Local Abbreviation bound := (Z.max 1 batch_size).

Lemma worker_loop_spec polls batch :
  (Z.of_nat (length batch) < bound)%Z ->
  let '(flushed, pending) := worker_loop batch_size polls batch in
  concat flushed ++ pending = batch ++ delivered polls /\
  Forall (fun b => b <> [] /\ (Z.of_nat (length b) <= bound)%Z) flushed /\
  (Z.of_nat (length pending) < bound)%Z.
Proof.
  revert batch. induction polls as [|p polls IH]; intros batch Hlen.
  - cbn. rewrite app_nil_r. auto.
  - destruct p as [item|]; cbn [worker_loop delivered omap].
    + destruct (batch_size <=? Z.of_nat (length (batch ++ [item])))%Z eqn:Hfull.
      * specialize (IH [] ltac:(cbn; lia)).
        destruct (worker_loop batch_size polls []) as [flushed pending].
        destruct IH as (Hcat & Hall & Hpend).
        cbn [concat]. split; [|split].
        -- rewrite <- !app_assoc. rewrite Hcat. reflexivity.
        -- constructor; [|exact Hall]. split.
           ++ destruct batch; discriminate.
           ++ rewrite List.length_app. cbn. lia.
        -- exact Hpend.
      * apply Z.leb_gt in Hfull.
        specialize (IH (batch ++ [item]) ltac:(lia)).
        destruct (worker_loop batch_size polls (batch ++ [item])) as [flushed pending].
        destruct IH as (Hcat & Hall & Hpend).
        split; [|split]; [|exact Hall|exact Hpend].
        rewrite Hcat. rewrite <- app_assoc. reflexivity.
    + destruct batch as [|x batch]; cbn [nonempty].
      * specialize (IH [] ltac:(cbn; lia)).
        destruct (worker_loop batch_size polls []) as [flushed pending].
        exact IH.
      * specialize (IH [] ltac:(cbn; lia)).
        destruct (worker_loop batch_size polls []) as [flushed pending].
        destruct IH as (Hcat & Hall & Hpend).
        cbn [concat]. split; [|split].
        -- rewrite <- !app_assoc. rewrite Hcat. reflexivity.
        -- constructor; [|exact Hall]. split; [discriminate | lia].
        -- exact Hpend.
Qed.

(** X3.  The worker loses nothing and repeats nothing: the batches it
    hands to the flush, one after the other, hold the items it took
    off the queue followed by the items it drained at shutdown, each
    once and in queue order.  It never flushes an empty batch.  A
    batch flushed before shutdown has at most [batch_size] items (one
    item when [batch_size] is below 1); the batch flushed at shutdown
    has no such bound, it takes everything left on the queue. *)
Theorem worker_delivers_each_item_once (polls : list Poll) (remaining : list string) :
  concat (_run batch_size polls remaining) = delivered polls ++ remaining /\
  Forall (fun batch => batch <> []) (_run batch_size polls remaining) /\
  Forall (fun batch => (Z.of_nat (length batch) <= Z.max 1 batch_size)%Z)
         (fst (worker_loop batch_size polls [])) /\
  (delivered polls = [] ->
   _run batch_size polls remaining
   = match remaining with [] => [] | _ => [remaining] end).
Proof.
  unfold _run.
  pose proof (worker_loop_spec polls [] ltac:(cbn; lia)) as H.
  destruct (worker_loop batch_size polls []) as [flushed pending].
  destruct H as (Hcat & Hall & Hpend). cbn [app] in Hcat. cbn [fst].
  split; [|split; [|split]].
  - rewrite concat_app.
    destruct (pending ++ remaining) eqn:E; cbn [nonempty concat].
    + apply app_eq_nil in E as [-> ->]. rewrite !app_nil_r in *. exact Hcat.
    + rewrite app_nil_r. rewrite <- E. rewrite app_assoc. rewrite Hcat. reflexivity.
  - apply Forall_app. split.
    + eapply Forall_impl; [exact Hall|]. intros b [Hb _]; exact Hb.
    + destruct (pending ++ remaining) eqn:E; cbn [nonempty]; constructor.
      * discriminate.
      * constructor.
  - eapply Forall_impl; [exact Hall|]. intros b [_ Hb]; exact Hb.
  - intros Hnone. rewrite Hnone in Hcat.
    assert (flushed = [] /\ pending = []) as [-> ->].
    { apply app_eq_nil in Hcat as [Hc ->]. split; [|reflexivity].
      destruct flushed as [|b flushed]; [reflexivity|].
      apply Forall_inv in Hall. destruct Hall as [Hb _].
      cbn in Hc. apply app_eq_nil in Hc as [Hc _]. contradiction. }
    cbn [app]. destruct remaining; reflexivity.
Qed.

End WorkerLoop.

Lemma worker_delivers_each_item_once_witness :
  Worker._run 3 sample_polls ["e8"; "e9"; "e10"; "e11"; "e12"]
  = [["e1"; "e2"; "e3"]; ["e4"; "e5"]; ["e6"; "e7"; "e8"; "e9"; "e10"; "e11"; "e12"]] /\
  Worker._run 3 [Worker.TimedOut; Worker.TimedOut] ["e1"] = [["e1"]].
Proof.
  split.
  - reflexivity.
  - exact (proj2 (proj2 (proj2 (worker_delivers_each_item_once 3
             [Worker.TimedOut; Worker.TimedOut] ["e1"]))) eq_refl).
Defined.

(* ================================================================= *)
(** * Further properties of the status cache *)
(* ================================================================= *)

Section StatusLookups.

Import Status.

Variable self : AgentStatusChecker.

Lemma fetch_and_cache_fails agent_id w latency o :
  backend w (length (requests w)) (status_url self agent_id) = (latency, o) ->
  fetch_fails o = true ->
  exists e, is_Exception e = true /\
            _fetch_and_cache self agent_id w
            = (Raise e, after_failed_get self agent_id latency w).
Proof.
  intros Hb Hf.
  unfold _fetch_and_cache, _fetch_status, httpx_get, bind, after_failed_get.
  rewrite Hb.
  destruct o as [code json|e]; cbn [fetch_fails] in Hf.
  - apply andb_true_iff in Hf as [Hcode Hjson]. rewrite Hcode. cbn [negb].
    destruct json as [v|].
    + exists AttributeError. split; [reflexivity|].
      destruct v; try discriminate; reflexivity.
    + exists ValueError. split; reflexivity.
  - exists e. split; [exact Hf | reflexivity].
Qed.

Lemma failed_lookups agent_id w latency o :
  miss_or_expired agent_id w ->
  backend w (length (requests w)) (status_url self agent_id) = (latency, o) ->
  fetch_fails o = true ->
  is_blocked self agent_id w
  = (Ret (false, PNone), after_failed_get self agent_id latency w) /\
  get_policies self agent_id w
  = (Ret (PList []), after_failed_get self agent_id latency w).
Proof.
  intros Hmiss Hb Hf.
  destruct (fetch_and_cache_fails agent_id w latency o Hb Hf) as (e & He & Hfetch).
  split.
  - unfold is_blocked.
    rewrite (bind_known _ _ _ _ _ (fresh_entry_miss agent_id w Hmiss)).
    unfold try_except.
    rewrite (bind_raised _ _ _ _ _ Hfetch). rewrite He. reflexivity.
  - unfold get_policies.
    rewrite (bind_known _ _ _ _ _ (fresh_entry_miss agent_id w Hmiss)).
    unfold try_except.
    rewrite (bind_raised _ _ _ _ _ Hfetch). rewrite He. reflexivity.
Qed.

(** X4.  Fail open.  When a lookup finds no fresh entry and the fetch
    fails (the request raises an [Exception], or the 200 response
    carries no JSON object), [is_blocked] answers [(False, None)] and
    [get_policies] answers [[]], after the one GET.  Nothing is
    written to the cache, and an expired entry is not consulted: an
    agent whose last known status was [BLOCKED] is reported as not
    blocked once the entry has expired and the backend is out of
    reach. *)
Theorem lookup_fails_open (agent_id : string) (w : World) (latency : Q)
        (o : GetOutcome) :
  miss_or_expired agent_id w ->
  backend w (length (requests w)) (status_url self agent_id) = (latency, o) ->
  fetch_fails o = true ->
  let w' := after_failed_get self agent_id latency w in
  is_blocked self agent_id w = (Ret (false, PNone), w') /\
  get_policies self agent_id w = (Ret (PList []), w') /\
  status_cache w' = status_cache w /\
  requests w' = status_url self agent_id :: requests w.
Proof.
  intros Hmiss Hb Hf w'.
  destruct (failed_lookups agent_id w latency o Hmiss Hb Hf) as [Hblocked Hpolicies].
  repeat split; assumption.
Qed.

Lemma is_blocked_fetches agent_id w latency code json body :
  miss_or_expired agent_id w ->
  backend w (length (requests w)) (status_url self agent_id)
    = (latency, GetResponse code json) ->
  (code = 200%Z -> json = Some (PDict body)) ->
  let entry := entry_of_response code body (mono w + latency) (_ttl self) in
  let w' := with_status_cache (<[agent_id := entry]> (status_cache w))
              (after_failed_get self agent_id latency w) in
  is_blocked self agent_id w = (Ret (blocked_of entry), w') /\
  get_policies self agent_id w = (Ret (CacheEntry.policies entry), w').
Proof.
  intros Hmiss Hb Hjson entry w'.
  pose proof (fetch_and_cache_response self agent_id w latency code json body Hb Hjson)
    as Hfetch.
  cbn zeta in Hfetch.
  split.
  - unfold is_blocked.
    rewrite (bind_known _ _ _ _ _ (fresh_entry_miss agent_id w Hmiss)).
    unfold try_except.
    rewrite (bind_known _ _ _ _ _ Hfetch).
    unfold bind, get_world. cbn [status_cache with_status_cache].
    rewrite lookup_insert_eq. reflexivity.
  - unfold get_policies.
    rewrite (bind_known _ _ _ _ _ (fresh_entry_miss agent_id w Hmiss)).
    unfold try_except.
    rewrite (bind_known _ _ _ _ _ Hfetch).
    unfold bind, get_world. cbn [status_cache with_status_cache].
    rewrite lookup_insert_eq. reflexivity.
Qed.

(** X5.  Once a lookup has fetched and cached an answer, every lookup for
    the same agent that starts less than one TTL later gives the
    answer of that fetch (whatever the backend would say by then),
    without a request and without any other effect. *)
Theorem lookups_within_ttl_repeat_the_answer (agent_id : string) (w : World)
        (latency : Q) (code : Z) (json : option pyval)
        (body : list (string * pyval)) (d : Q)
        (backend' : nat -> string -> Q * GetOutcome) :
  miss_or_expired agent_id w ->
  backend w (length (requests w)) (status_url self agent_id)
    = (latency, GetResponse code json) ->
  (code = 200%Z -> json = Some (PDict body)) ->
  (0 <= d)%Q -> (d < _ttl self)%Q ->
  let first := is_blocked self agent_id w in
  let later := with_backend backend' (elapse d (snd first)) in
  is_blocked self agent_id later = (fst first, later) /\
  get_policies self agent_id later
  = (fst (get_policies self agent_id w), later).
Proof.
  intros Hmiss Hb Hjson Hd0 Hd first later.
  destruct (is_blocked_fetches agent_id w latency code json body Hmiss Hb Hjson)
    as [Hfirst Hpol].
  cbn zeta in Hfirst, Hpol.
  subst later first. rewrite Hfirst, Hpol. cbn [fst snd].
  set (entry := entry_of_response code body (mono w + latency) (_ttl self)).
  assert (Hentry : status_cache
                     (with_backend backend'
                        (elapse d
                           (with_status_cache (<[agent_id := entry]> (status_cache w))
                              (after_failed_get self agent_id latency w))))
                   !! agent_id = Some entry).
  { cbn [status_cache with_backend elapse with_mono with_wall with_status_cache].
    apply lookup_insert_eq. }
  assert (Hfresh : (mono
                      (with_backend backend'
                         (elapse d
                            (with_status_cache (<[agent_id := entry]> (status_cache w))
                               (after_failed_get self agent_id latency w))))
                    < CacheEntry.expires_at entry)%Q).
  { subst entry. unfold entry_of_response.
    cbn [mono with_backend elapse with_mono with_wall with_status_cache
         after_failed_get with_requests].
    destruct (code =? 200)%Z; cbn [CacheEntry.expires_at]; lra. }
  split.
  - apply is_blocked_hit; assumption.
  - apply get_policies_hit; assumption.
Qed.

Lemma fresh_entry_cases agent_id w :
  (exists entry, status_cache w !! agent_id = Some entry /\
                 (mono w < CacheEntry.expires_at entry)%Q /\
                 fresh_entry agent_id w = (Ret (Some entry), w)) \/
  (miss_or_expired agent_id w /\ fresh_entry agent_id w = (Ret None, w)).
Proof.
  unfold miss_or_expired, fresh_entry, bind, get_world, monotonic, ret. cbn.
  destruct (status_cache w !! agent_id) as [entry|]; [|right; split; [exact I|reflexivity]].
  destruct (PyFloat.Qltb (mono w) (CacheEntry.expires_at entry)) eqn:E.
  - left. exists entry. apply Qltb_true in E. auto.
  - right. apply Qltb_false in E. auto.
Qed.

(** What a fetch leaves, whatever the backend does: one more request
    in the log, and a cache that is as before or has a new entry for
    the agent that was asked for. *)
Lemma fetch_and_cache_effect agent_id w :
  let w1 := snd (_fetch_and_cache self agent_id w) in
  requests w1 = status_url self agent_id :: requests w /\
  rate_counts w1 = rate_counts w /\
  (status_cache w1 = status_cache w \/
   exists entry, status_cache w1 = <[agent_id := entry]> (status_cache w)).
Proof.
  unfold _fetch_and_cache, _fetch_status, httpx_get, bind.
  destruct (backend w (length (requests w)) (status_url self agent_id))
    as [latency [code json|e]]; [|cbn; auto].
  destruct (code =? 200)%Z; cbn [negb].
  - destruct json as [data|]; [|cbn; auto].
    destruct data; cbn; eauto.
  - cbn; eauto.
Qed.

Lemma is_blocked_world agent_id w :
  miss_or_expired agent_id w ->
  snd (is_blocked self agent_id w) = snd (_fetch_and_cache self agent_id w).
Proof.
  intros Hmiss. unfold is_blocked.
  rewrite (bind_known _ _ _ _ _ (fresh_entry_miss agent_id w Hmiss)).
  unfold try_except, bind, get_world.
  destruct (_fetch_and_cache self agent_id w) as [[[]|e] w1]; cbn.
  - destruct (status_cache w1 !! agent_id); reflexivity.
  - destruct (is_Exception e); reflexivity.
Qed.

Lemma get_policies_world agent_id w :
  miss_or_expired agent_id w ->
  snd (get_policies self agent_id w) = snd (_fetch_and_cache self agent_id w).
Proof.
  intros Hmiss. unfold get_policies.
  rewrite (bind_known _ _ _ _ _ (fresh_entry_miss agent_id w Hmiss)).
  unfold try_except, bind, get_world.
  destruct (_fetch_and_cache self agent_id w) as [[[]|e] w1]; cbn.
  - destruct (status_cache w1 !! agent_id); reflexivity.
  - destruct (is_Exception e); reflexivity.
Qed.

(** X6.  [invalidate] and [clear_cache] never raise, with or without an
    entry to remove, and the next lookup for an agent whose entry they
    removed asks the backend, however fresh that entry was and whatever
    the backend then does.  [invalidate] leaves the entries of the
    other agents in place: their fresh entries keep being served
    without a request. *)
Theorem invalidate_forces_a_fetch (agent_id other : string) (w : World)
        (entry : CacheEntry.t) :
  let url := status_url self agent_id in
  let w1 := snd (invalidate agent_id w) in
  let w2 := snd (clear_cache w) in
  fst (invalidate agent_id w) = Ret tt /\
  fst (clear_cache w) = Ret tt /\
  requests (snd (is_blocked self agent_id w1)) = url :: requests w /\
  requests (snd (get_policies self agent_id w1)) = url :: requests w /\
  requests (snd (is_blocked self agent_id w2)) = url :: requests w /\
  requests (snd (get_policies self agent_id w2)) = url :: requests w /\
  (other <> agent_id ->
   status_cache w !! other = Some entry ->
   (mono w < CacheEntry.expires_at entry)%Q ->
   is_blocked self other w1 = (Ret (blocked_of entry), w1) /\
   get_policies self other w1 = (Ret (CacheEntry.policies entry), w1)).
Proof.
  intros url w1 w2.
  assert (Hmiss1 : miss_or_expired agent_id w1).
  { unfold miss_or_expired. subst w1. cbn. rewrite lookup_delete_eq. exact I. }
  assert (Hmiss2 : miss_or_expired agent_id w2).
  { unfold miss_or_expired. subst w2. cbn. rewrite lookup_empty. exact I. }
  split; [reflexivity|]. split; [reflexivity|].
  split; [|split; [|split; [|split]]].
  - rewrite (is_blocked_world _ _ Hmiss1).
    apply (proj1 (fetch_and_cache_effect agent_id w1)).
  - rewrite (get_policies_world _ _ Hmiss1).
    apply (proj1 (fetch_and_cache_effect agent_id w1)).
  - rewrite (is_blocked_world _ _ Hmiss2).
    apply (proj1 (fetch_and_cache_effect agent_id w2)).
  - rewrite (get_policies_world _ _ Hmiss2).
    apply (proj1 (fetch_and_cache_effect agent_id w2)).
  - intros Hne Hentry Hfresh.
    assert (Hentry1 : status_cache w1 !! other = Some entry).
    { subst w1. cbn. rewrite lookup_delete_ne by congruence. exact Hentry. }
    split; [apply is_blocked_hit | apply get_policies_hit]; assumption.
Qed.

(** X7.  A lookup for one agent, whether it is served from the cache,
    fetches or fails, leaves the cache entries of every other agent
    and the invocation counters as they are. *)
Theorem lookups_touch_one_agent (agent_id other : string) (w : World) :
  other <> agent_id ->
  status_cache (snd (is_blocked self agent_id w)) !! other = status_cache w !! other /\
  status_cache (snd (get_policies self agent_id w)) !! other = status_cache w !! other /\
  rate_counts (snd (is_blocked self agent_id w)) = rate_counts w /\
  rate_counts (snd (get_policies self agent_id w)) = rate_counts w.
Proof.
  intros Hne.
  destruct (fresh_entry_cases agent_id w) as [(entry & Hentry & Hfresh & _)|[Hmiss _]].
  - rewrite (is_blocked_hit self _ _ _ Hentry Hfresh).
    rewrite (get_policies_hit self _ _ _ Hentry Hfresh). auto.
  - rewrite (is_blocked_world _ _ Hmiss), (get_policies_world _ _ Hmiss).
    destruct (fetch_and_cache_effect agent_id w) as (_ & Hrc & [Hsame|(entry & Hnew)]).
    + rewrite Hsame. auto.
    + rewrite Hnew. rewrite lookup_insert_ne by congruence. auto.
Qed.

End StatusLookups.

Lemma lookup_fails_open_witness :
  status_cache stale_blocked_world !! "agent-1"
  = Some (CacheEntry.make (PStr "BLOCKED") (PStr "manual") (PList []) (0 + 0 + 10)%Q) /\
  Status.is_blocked sample_checker "agent-1" stale_blocked_world
  = (Ret (false, PNone),
     after_failed_get sample_checker "agent-1" 0 stale_blocked_world).
Proof.
  split; [reflexivity|].
  refine (proj1 (lookup_fails_open sample_checker "agent-1" stale_blocked_world 0
                   (GetRaises (Raised true "ConnectError" "connection refused"))
                   _ eq_refl eq_refl)).
  unfold miss_or_expired. vm_compute. discriminate.
Defined.

Lemma lookups_within_ttl_repeat_the_answer_witness :
  let later := with_backend backend_down (elapse 5 blocked_world) in
  Status.is_blocked sample_checker "agent-1" later
  = (Ret (true, PStr "manual"), later).
Proof.
  refine (proj1 (lookups_within_ttl_repeat_the_answer sample_checker "agent-1"
                   (initial_world (backend_blocked 200)) 0 200
                   (Some (PDict blocked_body)) blocked_body 5 backend_down
                   _ eq_refl (fun _ => eq_refl) _ _)).
  - exact I.
  - vm_compute; discriminate.
  - vm_compute; reflexivity.
Defined.

Lemma invalidate_forces_a_fetch_witness :
  let w1 := snd (Status.invalidate "agent-1" two_agents_world) in
  Status.is_blocked sample_checker "agent-2" w1 = (Ret (true, PStr "manual"), w1) /\
  length (requests (snd (Status.is_blocked sample_checker "agent-1" w1))) = 3%nat.
Proof.
  split.
  - refine (proj1 (proj2 (proj2 (proj2 (proj2 (proj2 (proj2
             (invalidate_forces_a_fetch sample_checker "agent-1" "agent-2"
                two_agents_world
                (CacheEntry.make (PStr "BLOCKED") (PStr "manual") (PList [])
                   (0 + 0 + 10)%Q))))))) _ eq_refl _)).
    + discriminate.
    + vm_compute; reflexivity.
  - reflexivity.
Defined.

Lemma lookups_touch_one_agent_witness :
  status_cache (snd (Status.is_blocked sample_checker "agent-1"
                       (elapse 11 two_agents_world))) !! "agent-2"
  = status_cache (elapse 11 two_agents_world) !! "agent-2".
Proof.
  refine (proj1 (lookups_touch_one_agent sample_checker "agent-1" "agent-2"
                   (elapse 11 two_agents_world) _)).
  discriminate.
Defined.

(* ================================================================= *)
(** * The rate tracker *)
(* ================================================================= *)

Section WindowArithmetic.

Lemma window_opens_before_now (now : Q) (s : Z) : (0 < s)%Z -> (now - inject_Z s < now)%Q.
Proof.
  intros H. assert (0 < inject_Z s)%Q by (rewrite (Zlt_Qlt 0 s) in H; exact H). lra.
Qed.

Lemma empty_window_opens_at_now (now : Q) (s : Z) : (s <= 0)%Z -> (now <= now - inject_Z s)%Q.
Proof.
  intros H. assert (inject_Z s <= 0)%Q by (rewrite (Zle_Qle s 0) in H; exact H). lra.
Qed.

Lemma Qlt_min_window (now t : Q) (s1 s2 : Z) :
  (now - inject_Z (Z.min s1 s2) < t)%Q ->
  (now - inject_Z s1 < t)%Q /\ (now - inject_Z s2 < t)%Q.
Proof.
  intros H.
  assert (H1 : (inject_Z (Z.min s1 s2) <= inject_Z s1)%Q)
    by (rewrite <- Zle_Qle; lia).
  assert (H2 : (inject_Z (Z.min s1 s2) <= inject_Z s2)%Q)
    by (rewrite <- Zle_Qle; lia).
  split; lra.
Qed.

End WindowArithmetic.

Section RateTracker.

Import Status.

Lemma filter_filter {A} (f g : A -> bool) (l : list A) :
  List.filter f (List.filter g l) = List.filter (fun x => g x && f x) l.
Proof.
  induction l as [|x l IH]; [reflexivity|].
  cbn [List.filter]. destruct (g x); cbn [List.filter andb].
  - destruct (f x); rewrite IH; reflexivity.
  - exact IH.
Qed.

Lemma count_in_window_within agent_id s w :
  count_in_window agent_id (PInt s) w
  = (Ret (Z.of_nat (length (within_window agent_id s w))),
     with_rate_counts (<[agent_id := within_window agent_id s w]> (rate_counts w)) w).
Proof. apply count_in_window_int. Qed.

Lemma record_invocation_effect agent_id w :
  record_invocation agent_id w
  = (Ret tt,
     with_rate_counts
       (<[agent_id := default [] (rate_counts w !! agent_id) ++ [mono w]]>
          (rate_counts w)) w).
Proof. reflexivity. Qed.

(** X8.  An invocation that was just recorded is counted by every window
    of positive length, and by no window of length zero or less: the
    count after [record_invocation] is the count before plus one for a
    positive window, and the count before otherwise.  Recording and
    counting for one agent leave the timestamps of every other agent
    as they are. *)
Theorem recorded_invocation_is_counted (agent_id other : string) (s : Z) (w : World) :
  let before := Z.of_nat (length (within_window agent_id s w)) in
  let w1 := snd (record_invocation agent_id w) in
  fst (count_in_window agent_id (PInt s) w) = Ret before /\
  fst (count_in_window agent_id (PInt s) w1)
  = Ret (if (0 <? s)%Z then before + 1 else before)%Z /\
  (other <> agent_id ->
   rate_counts w1 !! other = rate_counts w !! other /\
   rate_counts (snd (count_in_window agent_id (PInt s) w)) !! other
   = rate_counts w !! other).
Proof.
  intros before w1. split; [|split].
  - rewrite count_in_window_within. reflexivity.
  - rewrite count_in_window_within. cbn [fst]. subst w1 before.
    rewrite record_invocation_effect. cbn [snd].
    unfold within_window. cbn [mono rate_counts with_rate_counts].
    rewrite lookup_insert_eq. cbn [default]. unfold id.
    rewrite List.filter_app, List.length_app. cbn [List.filter].
    destruct (0 <? s)%Z eqn:Hs.
    + apply Z.ltb_lt in Hs.
      assert (Hnew : PyFloat.Qltb (mono w - inject_Z s) (mono w) = true).
      { apply Qltb_true. apply window_opens_before_now. exact Hs. }
      rewrite Hnew. cbn [length]. f_equal. lia.
    + apply Z.ltb_ge in Hs.
      assert (Hold : PyFloat.Qltb (mono w - inject_Z s) (mono w) = false).
      { apply Qltb_false. apply empty_window_opens_at_now. exact Hs. }
      rewrite Hold. cbn [length]. f_equal. lia.
  - intros Hne. subst w1. rewrite record_invocation_effect, count_in_window_within.
    cbn [snd rate_counts with_rate_counts].
    rewrite !lookup_insert_ne by congruence. auto.
Qed.

(** X9.  Counting prunes the history of the agent to the window asked
    for.  A second count at the same instant therefore sees the
    shorter of the two windows, whichever comes second: after a count
    over [s1] seconds, a count over [s2] seconds gives the number of
    invocations of the last [min s1 s2] seconds. *)
Theorem shorter_window_prunes_longer (agent_id : string) (s1 s2 : Z) (w : World) :
  fst (count_in_window agent_id (PInt s2)
         (snd (count_in_window agent_id (PInt s1) w)))
  = Ret (Z.of_nat (length (within_window agent_id (Z.min s1 s2) w))).
Proof.
  rewrite !count_in_window_within. cbn [fst snd].
  unfold within_window at 1. cbn [mono rate_counts with_rate_counts].
  rewrite lookup_insert_eq. cbn [default]. unfold id, within_window.
  rewrite filter_filter. do 3 f_equal.
  apply List.filter_ext. intros t.
  destruct (PyFloat.Qltb (mono w - inject_Z (Z.min s1 s2)) t) eqn:E.
  - apply Qltb_true in E. apply andb_true_iff.
    split; apply Qltb_true; apply Qlt_min_window with (s1 := s1) (s2 := s2) in E;
      tauto.
  - apply Qltb_false in E. apply andb_false_iff.
    destruct (Z.min_spec s1 s2) as [[_ Hm]|[_ Hm]]; rewrite Hm in E.
    + left. apply Qltb_false. exact E.
    + right. apply Qltb_false. exact E.
Qed.

End RateTracker.

Lemma recorded_invocation_is_counted_witness :
  fst (Status.count_in_window "agent-1" (PInt 60)
         (snd (Status.record_invocation "agent-1" rate_history_world)))
  = Ret 2%Z /\
  rate_counts (snd (Status.record_invocation "agent-1" rate_history_world)) !! "agent-2"
  = rate_counts rate_history_world !! "agent-2".
Proof.
  pose proof (recorded_invocation_is_counted "agent-1" "agent-2" 60 rate_history_world)
    as (_ & Hafter & Hother).
  split.
  - exact Hafter.
  - exact (proj1 (Hother ltac:(discriminate))).
Defined.

(* ================================================================= *)
(** * The endpoint of a checker *)
(* ================================================================= *)

Section Endpoint.

Import Status.

Lemma rstrip_slash_app_slash (s : string) :
  rstrip_slash (s +:+ "/") = rstrip_slash s.
Proof.
  induction s as [|c s IH]; [reflexivity|].
  change (String c s +:+ "/") with (String c (s +:+ "/")).
  cbn [rstrip_slash]. rewrite IH. reflexivity.
Qed.

Lemma rstrip_slash_app_slashes (s : string) (n : nat) :
  rstrip_slash (s +:+ PyStr.repeat_nat "/" n) = rstrip_slash s.
Proof.
  revert s. induction n as [|n IH]; intros s; cbn [PyStr.repeat_nat].
  - f_equal. induction s as [|c s IHs]; [reflexivity|].
    exact (f_equal (String c) IHs).
  - assert (Happ : s +:+ ("/" +:+ PyStr.repeat_nat "/" n)
                   = (s +:+ "/") +:+ PyStr.repeat_nat "/" n).
    { induction s as [|c s IHs]; [reflexivity|]. exact (f_equal (String c) IHs). }
    rewrite Happ, IH. apply rstrip_slash_app_slash.
Qed.

Lemma endswith_slash_cons (c : ascii) (s : string) :
  PyStr.endswith (String c s) "/"
  = match s with
    | EmptyString => Ascii.eqb c "/"
    | _ => PyStr.endswith s "/"
    end.
Proof.
  unfold PyStr.endswith. destruct s as [|d s].
  - cbn. destruct (Ascii.eqb c "/"); reflexivity.
  - cbn [String.length Nat.leb Nat.sub PyStr.drop].
    rewrite Nat.sub_0_r. reflexivity.
Qed.

Lemma rstrip_slash_no_trailing (s : string) :
  PyStr.endswith (rstrip_slash s) "/" = false.
Proof.
  induction s as [|c s IH]; [reflexivity|].
  cbn [rstrip_slash]. destruct (rstrip_slash s) as [|d r].
  - destruct (Ascii.eqb c "/") eqn:E; [reflexivity|].
    rewrite endswith_slash_cons. exact E.
  - rewrite endswith_slash_cons. exact IH.
Qed.

Lemma rstrip_slash_fixed (s : string) :
  PyStr.endswith s "/" = false -> rstrip_slash s = s.
Proof.
  induction s as [|c s IH]; [reflexivity|].
  rewrite endswith_slash_cons. cbn [rstrip_slash].
  destruct s as [|d r].
  - intros ->. reflexivity.
  - intros H. rewrite (IH H). reflexivity.
Qed.

(** X10.  The slashes at the end of the endpoint given to a checker do not
    count: with any number of them the checker is the same and asks
    for the same URLs, the stored endpoint never ends in a slash, and
    an endpoint that has none is stored as given.  So the URL of a
    status request has exactly one slash between the endpoint and
    [agents]. *)
Theorem endpoint_trailing_slashes_ignored (endpoint_url api_key : string)
        (ttl : Q) (n : nat) (agent_id : string) :
  let self := new_checker endpoint_url api_key ttl in
  new_checker (endpoint_url +:+ PyStr.repeat_nat "/" n) api_key ttl = self /\
  status_url (new_checker (endpoint_url +:+ PyStr.repeat_nat "/" n) api_key ttl) agent_id
  = status_url self agent_id /\
  PyStr.endswith (_endpoint_url self) "/" = false /\
  (PyStr.endswith endpoint_url "/" = false ->
   status_url self agent_id = endpoint_url +:+ "/agents/" +:+ agent_id +:+ "/status").
Proof.
  intros self. subst self. unfold new_checker, status_url. cbn [_endpoint_url].
  rewrite rstrip_slash_app_slashes.
  repeat split.
  - apply rstrip_slash_no_trailing.
  - intros H. rewrite (rstrip_slash_fixed _ H). reflexivity.
Qed.

End Endpoint.

Lemma endpoint_trailing_slashes_ignored_witness :
  Status.status_url (Status.new_checker "https://api.invokelens.com" "k" 10) "agent-1"
  = "https://api.invokelens.com/agents/agent-1/status".
Proof.
  exact (proj2 (proj2 (proj2 (endpoint_trailing_slashes_ignored
           "https://api.invokelens.com" "k" 10 0 "agent-1"))) eq_refl).
Defined.

(* ================================================================= *)
(** * Further properties of trace contexts *)
(* ================================================================= *)

Section SpanLimit.

Import Tracing.

Lemma length_omap_le {A B} (f : A -> option B) (l : list A) :
  (length (omap f l) <= length l)%nat.
Proof.
  induction l as [|x l IH]; cbn; [lia|]. destruct (f x); cbn; lia.
Qed.

(** What [start_span] does to the trace contexts, with any arguments
    and whether it returns or raises: nothing, or one more stored span
    on a trace context that was below the limit. *)
Lemma start_span_traces t name span_type input model_id w :
  let w' := snd (start_span t name span_type input model_id w) in
  traces w' = traces w \/
  exists tc a id,
    traces w !! t = Some tc /\
    (length (TraceContext._spans tc) < MAX_SPANS_PER_TRACE)%nat /\
    traces w'
    = <[t := TraceContext.make (TraceContext._spans tc ++ [a])
               (id :: TraceContext._active_stack tc)]> (traces w).
Proof.
  unfold start_span, bind, get_trace.
  destruct (traces w !! t) as [tc|] eqn:Htc; [|left; reflexivity].
  destruct (Nat.leb_spec MAX_SPANS_PER_TRACE (length (TraceContext._spans tc)))
    as [Hfull|Hroom].
  - left. unfold new_span.
    destruct name; try reflexivity.
    destruct (span_type_of_string span_type); try reflexivity.
    destruct model_id; reflexivity.
  - unfold new_span.
    destruct name; try (left; reflexivity).
    destruct (span_type_of_string span_type); try (left; reflexivity).
    destruct model_id; try (left; reflexivity).
    + right. exists tc. eexists. eexists. split; [reflexivity|]. split; [exact Hroom|].
      cbv [bind uuid4 utcnow get_span put_trace modify ret]. cbn.
      rewrite lookup_app_r by reflexivity. rewrite Nat.sub_diag. cbn.
      reflexivity.
    + right. exists tc. eexists. eexists. split; [reflexivity|]. split; [exact Hroom|].
      cbv [bind uuid4 utcnow get_span put_trace modify ret]. cbn.
      rewrite lookup_app_r by reflexivity. rewrite Nat.sub_diag. cbn.
      reflexivity.
Qed.

Lemma trace_op_stored t0 w op :
  (length (stored_spans t0 w) <= MAX_SPANS_PER_TRACE)%nat ->
  (length (stored_spans t0 (trace_op w op)) <= MAX_SPANS_PER_TRACE)%nat /\
  stored_spans t0 w `prefix_of` stored_spans t0 (trace_op w op).
Proof.
  intros Hlen. unfold stored_spans in *.
  destruct op as [t name span_type input model_id
                 |t span output status error input_tokens output_tokens model_id];
    cbn [trace_op].
  - destruct (start_span_traces t name span_type input model_id w)
      as [Hsame|(tc & a & id & Htc & Hroom & Hnew)].
    + rewrite Hsame. split; [exact Hlen | reflexivity].
    + rewrite Hnew. destruct (decide (t = t0)) as [->|Hne].
      * rewrite list_lookup_insert_eq by (eapply lookup_lt_Some; exact Htc).
        rewrite Htc. cbn. rewrite List.length_app. cbn.
        split; [lia | apply prefix_app_r; reflexivity].
      * rewrite list_lookup_insert_ne by exact Hne.
        split; [exact Hlen | reflexivity].
  - destruct (end_span_effect t span output status error input_tokens output_tokens
                model_id w) as (_ & _ & [Hsame|(tc & s & rest & Htc & _ & _ & Hnew)]).
    + rewrite Hsame. split; [exact Hlen | reflexivity].
    + rewrite Hnew. destruct (decide (t = t0)) as [->|Hne].
      * rewrite list_lookup_insert_eq by (eapply lookup_lt_Some; exact Htc).
        rewrite Htc in *. cbn. split; [exact Hlen | reflexivity].
      * rewrite list_lookup_insert_ne by exact Hne.
        split; [exact Hlen | reflexivity].
Qed.

(** X11.  A trace context never stores more than [MAX_SPANS_PER_TRACE]
    spans.  Whatever sequence of [start_span] and [end_span] calls is
    made, on this or on other trace contexts, with valid or invalid
    arguments and whether or not the calls raise, the stored spans of a
    trace context stay within the limit, none is ever removed or
    reordered, and [spans] returns at most that many. *)
Theorem stored_spans_bounded (t : nat) (ops : list TraceOp) (w : World) :
  (length (stored_spans t w) <= MAX_SPANS_PER_TRACE)%nat ->
  let w' := trace_ops ops w in
  (length (stored_spans t w') <= MAX_SPANS_PER_TRACE)%nat /\
  stored_spans t w `prefix_of` stored_spans t w' /\
  (forall l, fst (spans t w') = Ret l -> (length l <= MAX_SPANS_PER_TRACE)%nat).
Proof.
  intros Hlen w'.
  assert (H : (length (stored_spans t w') <= MAX_SPANS_PER_TRACE)%nat /\
              stored_spans t w `prefix_of` stored_spans t w').
  { subst w'. unfold trace_ops. revert w Hlen.
    induction ops as [|op ops IH]; intros w Hlen; cbn [fold_left].
    - split; [exact Hlen | reflexivity].
    - destruct (trace_op_stored t w op Hlen) as [Hlen1 Hpre1].
      destruct (IH _ Hlen1) as [Hlen2 Hpre2].
      split; [exact Hlen2 | etransitivity; eassumption]. }
  destruct H as [Hbound Hprefix]. split; [exact Hbound|]. split; [exact Hprefix|].
  intros l. unfold spans, bind, get_trace. unfold stored_spans in Hbound.
  destruct (traces w' !! t) as [tc|]; [|discriminate].
  cbn. intros [= <-].
  etransitivity; [apply length_omap_le | exact Hbound].
Qed.

End SpanLimit.

Lemma stored_spans_bounded_witness :
  length (stored_spans 0 (trace_ops many_starts world_with_trace)) = 100%nat /\
  (length (stored_spans 0 (trace_ops many_starts world_with_trace))
   <= MAX_SPANS_PER_TRACE)%nat.
Proof.
  split.
  - vm_compute. reflexivity.
  - exact (proj1 (stored_spans_bounded 0 many_starts world_with_trace
                    ltac:(vm_compute; lia))).
Defined.

Section NestedSpans.

Import Tracing.

Lemma start_span_pushes t tc w name ty input model_id :
  traces w !! t = Some tc ->
  (length (TraceContext._spans tc) < MAX_SPANS_PER_TRACE)%nat ->
  exists w1,
    start_span t (PStr name) (span_type_name ty) input (of_optional model_id) w
    = (Ret (length (heap w)), w1) /\
    heap w1 = heap w ++ [child_span w tc name ty input model_id] /\
    traces w1 !! t
    = Some (TraceContext.make (TraceContext._spans tc ++ [length (heap w)])
              (uuid_supply w :: TraceContext._active_stack tc)) /\
    uuid_supply w1 = S (uuid_supply w).
Proof.
  intros Htc Hroom. eexists. split; [apply (start_span_below_limit t tc); assumption|].
  cbn. split; [reflexivity|]. split; [|reflexivity].
  apply list_lookup_insert_eq. eapply lookup_lt_Some; exact Htc.
Qed.

Lemma end_span_pops t a output status error w s tc :
  heap w !! a = Some s ->
  traces w !! t = Some tc ->
  exists w1,
    end_span_plain t a output status error w = (Ret tt, w1) /\
    traces w1 !! t
    = Some (TraceContext.make (TraceContext._spans tc)
              (pop_top (Span.span_id s) (TraceContext._active_stack tc))) /\
    (forall b, Span.span_id <$> heap w1 !! b = Span.span_id <$> heap w !! b) /\
    length (heap w1) = length (heap w) /\
    uuid_supply w1 = uuid_supply w.
Proof.
  intros Ha Htc. unfold end_span_plain.
  set (f := finish (wall w) output status error (PInt 0) (PInt 0) PNone).
  set (w0 := with_heap (alter f a (heap w)) w).
  assert (Ha0 : heap w0 !! a = Some (f s))
    by (subst w0; simpl; rewrite list_lookup_alter_eq, Ha; reflexivity).
  assert (Hrun : end_span t a output status error (PInt 0) (PInt 0) PNone w
                 = pop_if_top t (Span.span_id (f s)) w0).
  { unfold end_span. rewrite (bind_known _ _ w (wall w) w) by reflexivity.
    rewrite (bind_known _ _ _ _ _ (update_span_some a _ w s Ha)).
    fold f. fold w0.
    rewrite (bind_known _ _ _ _ _ (get_span_some a w0 _ Ha0)).
    cbn [Py.truthy Z.eqb negb orb]. rewrite andb_false_r.
    rewrite (bind_known _ _ w0 tt w0) by reflexivity. reflexivity. }
  rewrite Hrun. change (Span.span_id (f s)) with (Span.span_id s).
  assert (Hids : forall b, Span.span_id <$> heap w0 !! b = Span.span_id <$> heap w !! b).
  { intros b. subst w0. cbn [heap with_heap].
    destruct (decide (b = a)) as [->|Hne].
    - rewrite list_lookup_alter_eq, Ha. reflexivity.
    - rewrite list_lookup_alter_ne by congruence. reflexivity. }
  assert (Hlen : length (heap w0) = length (heap w))
    by (subst w0; cbn [heap with_heap]; apply length_alter).
  unfold pop_if_top, bind, get_trace.
  change (traces w0) with (traces w). rewrite Htc.
  destruct tc as [stored stack]. cbn [TraceContext._active_stack TraceContext._spans].
  destruct stack as [|top rest]; cbn [pop_top].
  - eexists. split; [reflexivity|]. cbn. rewrite Htc. auto.
  - destruct (top =? Span.span_id s)%nat.
    + eexists. split; [reflexivity|]. cbn [traces with_traces put_trace modify snd].
      split; [|auto].
      apply list_lookup_insert_eq. eapply lookup_lt_Some; exact Htc.
    + eexists. split; [reflexivity|]. cbn. rewrite Htc. auto.
Qed.

Variable t : nat.
Variable tc : TraceContext.t.
Variable w : World.
Variables outer_name inner_name next_name : string.
Variables outer_type inner_type next_type : SpanType.

Hypothesis trace_exists : traces w !! t = Some tc.
Hypothesis room_for_three :
  (length (TraceContext._spans tc) + 3 <= MAX_SPANS_PER_TRACE)%nat.

(** X12.  Spans nest as a stack.  Of two spans started one after the other,
    the inner one has the outer one as its parent, and the outer one
    has the span that was on top of the stack, if any.  Ending them
    inner first leaves the stack as it was before the two started.
    Ending them outer first does not: [end_span] on the outer span
    pops nothing while the inner one is on top, so after both have
    ended the id of the outer span is still on the stack, and the
    next span started on the trace gets the ended outer span as its
    parent. *)
Theorem spans_nest_as_a_stack :
  let outer := length (heap w) in
  let inner := S (length (heap w)) in
  let outer_id := uuid_supply w in
  let inner_id := S (uuid_supply w) in
  let stack := TraceContext._active_stack tc in
  exists w2 : World,
    start_nested t outer_name inner_name outer_type inner_type w
    = (Ret (outer, inner), w2) /\
    parent_of outer w2 = Some (head stack) /\
    parent_of inner w2 = Some (Some outer_id) /\
    active_stack t w2 = inner_id :: outer_id :: stack /\
    forall (o1 o2 : option string) (st1 st2 : SpanStatus) (e1 e2 : option string),
      let in_order :=
        snd (end_span_plain t outer o2 st2 e2
               (snd (end_span_plain t inner o1 st1 e1 w2))) in
      let outer_first :=
        snd (end_span_plain t inner o2 st2 e2
               (snd (end_span_plain t outer o1 st1 e1 w2))) in
      let next :=
        start_span t (PStr next_name) (span_type_name next_type) None PNone
          outer_first in
      active_stack t in_order = stack /\
      active_stack t (snd (end_span_plain t outer o1 st1 e1 w2))
      = inner_id :: outer_id :: stack /\
      active_stack t outer_first = outer_id :: stack /\
      fst next = Ret (S (S (length (heap w)))) /\
      parent_of (S (S (length (heap w)))) (snd next) = Some (Some outer_id).
Proof.
  intros outer inner outer_id inner_id stack.
  destruct (start_span_pushes t tc w outer_name outer_type None None trace_exists
              ltac:(lia)) as (w1 & Hs1 & Hheap1 & Htc1 & Hid1).
  destruct (start_span_pushes t _ w1 inner_name inner_type None None Htc1
              ltac:(cbn; rewrite List.length_app; cbn; lia))
    as (w2 & Hs2 & Hheap2 & Htc2 & Hid2).
  assert (Hlen1 : length (heap w1) = S (length (heap w)))
    by (rewrite Hheap1, List.length_app; cbn; lia).
  assert (Hlen2 : length (heap w2) = S (S (length (heap w))))
    by (rewrite Hheap2, List.length_app; cbn; lia).
  rewrite Hlen1, Hid1 in Htc2. cbn [TraceContext._spans TraceContext._active_stack] in Htc2.
  set (s_outer := child_span w tc outer_name outer_type None None) in *.
  set (s_inner := child_span w1 _ inner_name inner_type None None) in *.
  assert (Houter : heap w2 !! outer = Some s_outer).
  { rewrite Hheap2, Hheap1. subst outer.
    rewrite lookup_app_l by (rewrite List.length_app; cbn; lia).
    rewrite lookup_app_r by lia. rewrite Nat.sub_diag. reflexivity. }
  assert (Hinner : heap w2 !! inner = Some s_inner).
  { rewrite Hheap2. subst inner. rewrite <- Hlen1.
    rewrite lookup_app_r by lia. rewrite Nat.sub_diag. reflexivity. }
  exists w2. split.
  { unfold start_nested. cbn [of_optional] in Hs1, Hs2.
    rewrite (bind_known _ _ _ _ _ Hs1). rewrite (bind_known _ _ _ _ _ Hs2).
    unfold ret. rewrite Hlen1. reflexivity. }
  split; [unfold parent_of; rewrite Houter; reflexivity|].
  split; [unfold parent_of; rewrite Hinner; reflexivity|].
  split; [unfold active_stack; rewrite Htc2; reflexivity|].
  intros o1 o2 st1 st2 e1 e2 in_order outer_first next.
  assert (Hne : (inner_id =? outer_id)%nat = false)
    by (apply Nat.eqb_neq; subst inner_id outer_id; lia).
  (* inner first *)
  destruct (end_span_pops t inner o1 st1 e1 w2 s_inner _ Hinner Htc2)
    as (wa & Hea & Htca & Hida & _ & _).
  cbn [TraceContext._spans TraceContext._active_stack pop_top Span.span_id s_inner
       child_span] in Htca.
  rewrite Hid1 in Htca. rewrite Nat.eqb_refl in Htca.
  assert (Houter_a : exists s, heap wa !! outer = Some s /\ Span.span_id s = outer_id).
  { specialize (Hida outer). rewrite Houter in Hida.
    destruct (heap wa !! outer) as [s|]; [|discriminate].
    exists s. split; [reflexivity|]. cbn in Hida. unfold outer_id. congruence. }
  destruct Houter_a as (sa & Hsa & Hsa_id).
  destruct (end_span_pops t outer o2 st2 e2 wa sa _ Hsa Htca)
    as (wb & Heb & Htcb & _).
  cbn [TraceContext._spans TraceContext._active_stack pop_top] in Htcb.
  rewrite Hsa_id, Nat.eqb_refl in Htcb.
  (* outer first *)
  destruct (end_span_pops t outer o1 st1 e1 w2 s_outer _ Houter Htc2)
    as (wc & Hec & Htcc & Hidc & Hlenc & Huc).
  cbn [TraceContext._spans TraceContext._active_stack pop_top Span.span_id s_outer
       child_span] in Htcc.
  fold inner_id outer_id in Htcc. rewrite Hne in Htcc.
  assert (Hinner_c : exists s, heap wc !! inner = Some s /\ Span.span_id s = inner_id).
  { specialize (Hidc inner). rewrite Hinner in Hidc.
    destruct (heap wc !! inner) as [s|]; [|discriminate].
    exists s. split; [reflexivity|]. cbn in Hidc. rewrite Hid1 in Hidc.
    unfold inner_id. congruence. }
  destruct Hinner_c as (sc & Hsc & Hsc_id).
  destruct (end_span_pops t inner o2 st2 e2 wc sc _ Hsc Htcc)
    as (wd & Hed & Htcd & _ & Hlend & Hud).
  cbn [TraceContext._spans TraceContext._active_stack pop_top] in Htcd.
  rewrite Hsc_id, Nat.eqb_refl in Htcd.
  (* the next span *)
  destruct (start_span_pushes t _ wd next_name next_type None None Htcd
              ltac:(cbn; rewrite !List.length_app; cbn; lia))
    as (we & Hse & Hheape & _ & _).
  cbn [of_optional] in Hse.
  subst in_order outer_first next.
  rewrite Hea, Hec. cbn [snd]. rewrite Heb, Hed. cbn [snd]. rewrite Hse. cbn [fst snd].
  unfold active_stack. rewrite Htcb, Htcc, Htcd.
  cbn [TraceContext._active_stack].
  rewrite Hlend, Hlenc, Hlen2.
  repeat split.
  unfold parent_of. rewrite Hheape.
  rewrite lookup_app_r by lia.
  replace (S (S (length (heap w))) - length (heap wd))%nat with 0%nat by lia.
  reflexivity.
Qed.

End NestedSpans.

Lemma spans_nest_as_a_stack_witness :
  exists w2 : World,
    start_nested 0 "agent" "search" chain tool world_with_trace = (Ret (0%nat, 1%nat), w2) /\
    parent_of 0 w2 = Some None /\
    parent_of 1 w2 = Some (Some 0%nat) /\
    active_stack 0 w2 = [1%nat; 0%nat] /\
    active_stack 0
      (snd (end_span_plain 0 1 None OK None (snd (end_span_plain 0 0 None OK None w2))))
    = [0%nat].
Proof.
  destruct (spans_nest_as_a_stack 0 (TraceContext.make [] []) world_with_trace
              "agent" "search" "answer" chain tool llm eq_refl ltac:(unfold MAX_SPANS_PER_TRACE; cbn; lia))
    as (w2 & Hstart & Houter & Hinner & Hstack & Hends).
  exists w2.
  destruct (Hends None None OK OK None None) as (_ & _ & Hstale & _).
  exact (conj Hstart (conj Houter (conj Hinner (conj Hstack Hstale)))).
Defined.

(* ================================================================= *)
(** * A traced tool that raises *)
(* ================================================================= *)

Section ToolErrors.

Import Tracing.

Variable py_str : pyval -> string.
Variable exn_str : exn -> string.

Local Abbreviation trace_tool := (Client.trace_tool py_str exn_str).

(** X13.  When the function wrapped by [trace_tool] raises an [Exception],
    the wrapper raises the same exception, after the span was ended
    with status [ERROR], the [str] of the exception as error and no
    output.  An exception that is not an [Exception] (a
    [KeyboardInterrupt], a [SystemExit]) passes through at once: the
    span is not ended, the state is the one the function left. *)
Theorem trace_tool_records_the_error (name : option string) (ty : SpanType)
        (func : PyFunction) (args : list pyval) (kwargs : list (string * pyval))
        (w : World) (t : nat) (exc : exn) (w2 : World) (s : Span.t) :
  Py.assoc kwargs "trace" = Some (PTrace t) ->
  is_Some (traces w !! t) ->
  let a := length (heap w) in
  let w1 := in_tool_span t name ty func w in
  heap w1 !! a = Some s ->
  py_call func args kwargs w1 = (Raise exc, w2) ->
  heap w2 !! a = Some s ->
  is_Some (traces w2 !! t) ->
  Span.ended_at s = None /\
  (is_Exception exc = false ->
   trace_tool name (span_type_name ty) func args kwargs w = (Raise exc, w2)) /\
  (is_Exception exc = true ->
   exists (w3 : World) (s3 : Span.t),
     trace_tool name (span_type_name ty) func args kwargs w = (Raise exc, w3) /\
     heap w3 !! a = Some s3 /\
     Span.name s3 = tool_name_of name func /\
     Span.status s3 = ERROR /\
     Span.error s3 = Some (exn_str exc) /\
     Span.output s3 = None /\
     Span.ended_at s3 = Some (wall w2) /\
     calls w3 = calls w2).
Proof.
  intros Htrace [tc Htr] a w1 Hs Hcall Hs2 Htr2.
  destruct (start_span_new_object t tc w (tool_name_of name func) ty None None Htr)
    as (s0 & w1' & Hstart & Hheap & Hname & Hty & Hmid & Hit & Hot & Hst & Herr & _).
  assert (Hw1 : w1 = w1') by (subst w1; unfold in_tool_span; simpl in Hstart;
                              rewrite Hstart; reflexivity).
  rewrite <- Hw1 in Hstart, Hheap. clear Hw1 w1'.
  assert (s = s0).
  { rewrite Hheap in Hs. subst a. rewrite lookup_app_r in Hs by lia.
    rewrite Nat.sub_diag in Hs. simpl in Hs. congruence. }
  subst s0.
  assert (Hopen : Span.ended_at s = None).
  { destruct (Nat.le_gt_cases MAX_SPANS_PER_TRACE (length (TraceContext._spans tc)))
      as [Hge|Hlt].
    - pose proof (start_span_at_limit t tc w (tool_name_of name func) ty None None
                    Htr Hge) as Hat.
      cbn [of_optional] in Hat, Hstart. rewrite Hat in Hstart.
      injection Hstart as <-. cbn [heap with_heap with_uuid_supply] in Hs.
      subst a. rewrite lookup_app_r in Hs by lia. rewrite Nat.sub_diag in Hs.
      injection Hs as <-. reflexivity.
    - pose proof (start_span_below_limit t tc w (tool_name_of name func) ty None None
                    Htr Hlt) as Hbelow.
      cbn [of_optional] in Hbelow, Hstart. rewrite Hbelow in Hstart.
      injection Hstart as <-. cbn in Hs.
      subst a. rewrite lookup_app_r in Hs by lia. rewrite Nat.sub_diag in Hs.
      injection Hs as <-. reflexivity. }
  assert (Hrun : trace_tool name (span_type_name ty) func args kwargs w
                 = if is_Exception exc
                   then (let* sp := get_span a in
                         run end_span t a None ERROR (Some (exn_str exc))
                               (Span.input_tokens sp) (Span.output_tokens sp)
                               (Span.model_id sp) then
                         raise exc) w2
                   else (Raise exc, w2)).
  { unfold Client.trace_tool. rewrite Htrace. unfold SpanScope.span.
    fold (tool_name_of name func).
    cbn [of_optional] in Hstart.
    rewrite (bind_known _ _ _ _ _ Hstart). fold a.
    rewrite (bind_raised _ _ _ _ _ Hcall). reflexivity. }
  split; [exact Hopen|]. split.
  - intros Hbase. rewrite Hrun, Hbase. reflexivity.
  - intros Hexc. rewrite Hrun, Hexc.
    destruct (end_span_without_cost t a None ERROR (Some (exn_str exc)) (PInt 0) (PInt 0)
                PNone w2 s Hs2) as (w3 & Hend & Hheap3 & Hsame).
    { simpl. rewrite Hmid. reflexivity. }
    { exact Htr2. }
    exists w3, (finish (wall w2) None ERROR (Some (exn_str exc)) (PInt 0) (PInt 0)
                  PNone s).
    split.
    { rewrite (bind_known _ _ _ _ _ (get_span_some a w2 _ Hs2)).
      rewrite Hit, Hot, Hmid.
      rewrite (bind_known _ _ _ _ _ Hend). reflexivity. }
    split; [rewrite Hheap3, list_lookup_alter_eq, Hs2; reflexivity|].
    split; [exact Hname|].
    repeat split. apply Hsame.
Qed.

End ToolErrors.

Lemma trace_tool_records_the_error_witness :
  (exists (w3 : World) (s3 : Span.t),
     Client.trace_tool sample_str sample_exn_str None "tool" failing_tool
       [PStr "k"] [("trace", PTrace 0)] world_with_trace
     = (Raise (Raised true "KeyError" "no such key"), w3) /\
     heap w3 !! 0%nat = Some s3 /\
     Span.status s3 = ERROR /\
     Span.error s3 = Some "no such key") /\
  fst (Client.trace_tool sample_str sample_exn_str None "tool" interrupted_tool
         [PStr "k"] [("trace", PTrace 0)] world_with_trace)
  = Raise (Raised false "KeyboardInterrupt" "").
Proof.
  split.
  - destruct (trace_tool_records_the_error sample_str sample_exn_str None tool
                failing_tool [PStr "k"] [("trace", PTrace 0)] world_with_trace 0%nat
                (Raised true "KeyError" "no such key")
                (with_calls [mkCall "lookup" [PStr "k"] [("trace", PTrace 0)]]
                   (in_tool_span 0 None tool failing_tool world_with_trace))
                (child_span world_with_trace (TraceContext.make [] []) "lookup"
                   tool None None)
                eq_refl (ex_intro _ _ eq_refl) eq_refl eq_refl eq_refl
                (ex_intro _ _ eq_refl))
      as (_ & _ & H).
    destruct (H eq_refl) as (w3 & s3 & H1 & H2 & _ & H4 & H5 & _).
    exists w3, s3. exact (conj H1 (conj H2 (conj H4 H5))).
  - reflexivity.
Defined.

(* ================================================================= *)
(** * Cost estimates *)
(* ================================================================= *)

Section CostEstimates.

Import Cost.

Lemma estimate_cost_int (model_id : string) (a b : Z) (w : World) :
  estimate_cost (PStr model_id) (PInt a) (PInt b) w
  = (Ret (cost_at
            (match custom_pricing w !! model_id with
             | Some p => p
             | None =>
                 match table_get MODEL_PRICING model_id with
                 | Some p => p
                 | None => default_pricing
                 end
             end) a b), w).
Proof. reflexivity. Qed.








End CostEstimates.




(* ================================================================= *)
(** * The outcome of a wrapped call *)
(* ================================================================= *)

Section TelemetrySafety.

Import Decorators Tracing.

Variable py_str : pyval -> string.
Variable exn_str : exn -> string.
Variable sha256_hexdigest : string -> string.
Variable pydantic_int : pyval -> option Z.

Local Abbreviation wrapper := (Decorators.wrapper py_str exn_str sha256_hexdigest pydantic_int).
Local Abbreviation traced_call :=
  (Decorators.traced_call py_str exn_str sha256_hexdigest pydantic_int).
Local Abbreviation finalize :=
  (Decorators.finalize py_str exn_str sha256_hexdigest pydantic_int).

Lemma extract_tokens_non_dict v :
  Py.is_dict v = false -> _extract_tokens v = (PInt 0, PInt 0).
Proof. destruct v; try reflexivity. discriminate. Qed.

Lemma extract_model_id_non_dict v :
  Py.is_dict v = false -> _extract_model_id v = PNone.
Proof. destruct v; try reflexivity. discriminate. Qed.

Lemma extract_bedrock_trace_non_dict v t w :
  Py.is_dict v = false ->
  _extract_bedrock_trace py_str exn_str v t w = (Ret tt, w).
Proof. intros H. unfold _extract_bedrock_trace. rewrite H. reflexivity. Qed.

(** The [finally] clause returns, for an outcome without a response
    to read (the user function raised, or returned a value that is not
    a [dict]): it records the invocation and hands one event to the
    transport, and what [send] raises is swallowed. *)
Lemma finalize_returns self func args kwargs t root started_at start_time
      (outcome : CallOutcome) (w : World) (s : Span.t) :
  pydantic_int (PInt 0) = Some 0%Z ->
  (forall ev w', swallowed (fst (send (transport self) ev w')) = true) ->
  Py.is_dict (result outcome) = false ->
  heap w !! root = Some s ->
  is_Some (traces w !! t) ->
  exists (ev : TelemetryEvent.t) (w5 : World),
    finalize self func args kwargs t root started_at start_time outcome w
    = (Ret tt, snd (send (transport self) ev w5)) /\
    TelemetryEvent.status ev = status outcome /\
    TelemetryEvent.error_message ev = error_message outcome /\
    TelemetryEvent.error_type ev = error_type outcome /\
    TelemetryEvent.event_type ev
    = (if String.eqb (status outcome) "SUCCESS"
       then "invocation.completed" else "invocation.failed") /\
    TelemetryEvent.agent_id ev = agent_id self /\
    TelemetryEvent.model_id ev = model_id self /\
    rate_counts w5 !! agent_id self
    = Some (default [] (rate_counts w !! agent_id self) ++ [mono w]) /\
    calls w5 = calls w.
Proof.
  intros Hint Hsend Hres Hroot Htr.
  unfold Decorators.finalize.
  rewrite (bind_known _ _ w (wall w) w) by reflexivity.
  rewrite (bind_known _ _ w (mono w) w) by reflexivity.
  rewrite (extract_tokens_non_dict _ Hres), (extract_model_id_non_dict _ Hres).
  cbn [Py.or_else Py.truthy].
  set (status' := if String.eqb (status outcome) "SUCCESS" then OK else ERROR).
  destruct (end_span_without_cost t root None status' (error_message outcome)
              (PInt 0) (PInt 0) (PStr (model_id self)) w s Hroot)
    as (w1 & Hend & Hheap1 & Hsame1).
  { cbn [Py.truthy Z.eqb negb orb]. apply andb_false_r. }
  { exact Htr. }
  rewrite (bind_known _ _ _ _ _ Hend).
  rewrite (bind_known _ _ _ _ _ (extract_bedrock_trace_non_dict _ t w1 Hres)).
  assert (Htr1 : is_Some (traces w1 !! t)).
  { destruct (end_span_effect t root None status' (error_message outcome)
                (PInt 0) (PInt 0) (PStr (model_id self)) w)
      as (_ & _ & [Hsame|(tc & s' & rest & Htc & _ & _ & Hnew)]);
      rewrite Hend in *; cbn [snd] in *.
    - rewrite Hsame. exact Htr.
    - rewrite Hnew. apply list_lookup_insert_is_Some. exact Htr. }
  destruct Htr1 as [tc1 Htc1].
  unfold spans at 1. unfold get_trace.
  unfold bind at 1. unfold bind at 1. rewrite Htc1.
  cbv beta iota.
  unfold _detect_region. unfold bind at 1.
  rewrite (bind_known _ _ _ _ _ (estimate_cost_int (model_id self) 0 0 w1)).
  erewrite (bind_known (to_dicts t)).
  2:{ unfold to_dicts, spans, get_trace, bind. rewrite Htc1. reflexivity. }
  unfold new_event. rewrite Hint.
  erewrite (bind_known (bind uuid4 _)) by reflexivity.
  erewrite (bind_known (try_except _ _)) by reflexivity.
  destruct Hsame1 as (Hmono & _ & _ & Hrates & _ & _ & _ & _ & _ & _ & Hcalls).
  match goal with
  | |- exists ev w5, try_except (send (transport self) ?ev0) _ ?w0 = _ /\ _ =>
      exists ev0, w0; pose proof (Hsend ev0 w0) as Hs;
      unfold try_except; destruct (send (transport self) ev0 w0) as [[[]|e] w']
  end.
  - cbn [snd TelemetryEvent.status TelemetryEvent.error_message
         TelemetryEvent.error_type TelemetryEvent.event_type TelemetryEvent.agent_id
         TelemetryEvent.model_id rate_counts with_rate_counts with_uuid_supply
         calls mono].
    rewrite lookup_insert_eq, Hrates, Hmono, Hcalls. repeat split; reflexivity.
  - cbn in Hs. rewrite Hs. unfold ret.
    cbn [snd TelemetryEvent.status TelemetryEvent.error_message
         TelemetryEvent.error_type TelemetryEvent.event_type TelemetryEvent.agent_id
         TelemetryEvent.model_id rate_counts with_rate_counts with_uuid_supply
         calls mono].
    rewrite lookup_insert_eq, Hrates, Hmono, Hcalls. repeat split; reflexivity.
Qed.

Lemma wrapper_without_checker self func args kwargs w :
  status_checker self = None ->
  wrapper self func args kwargs w = traced_call self func args kwargs w.
Proof.
  intros Hnone. unfold Decorators.wrapper, kill_switch_check, policy_check.
  rewrite Hnone. reflexivity.
Qed.

(** X17.  Telemetry does not change the outcome of a call.  When the user
    function raises, or returns a value that is not a [dict], the
    wrapped call raises the same exception or returns the same value,
    whatever the transport does short of raising a [BaseException]
    that is not an [Exception].  Before that, the [finally] clause
    recorded the invocation for rate limiting and handed exactly one
    event to [transport.send]: an [invocation.failed] event with
    status [FAILURE], the class name of the exception and the first
    500 characters of its [str] when the function raised an
    [Exception], an [invocation.completed] event with status [SUCCESS]
    otherwise. *)
Theorem telemetry_keeps_the_outcome (self : ObserveDecorator) (func : PyFunction)
        (args : list pyval) (kwargs : list (string * pyval)) (w : World)
        (r : Result pyval) (w2 : World) :
  status_checker self = None ->
  pydantic_int (PInt 0) = Some 0%Z ->
  (forall ev w', swallowed (fst (send (transport self) ev w')) = true) ->
  let t := length (traces w) in
  let root := length (heap w) in
  let w1 := in_root_span func w in
  py_call func args (passed_kwargs func kwargs t) w1 = (r, w2) ->
  heap w2 !! root = heap w1 !! root ->
  is_Some (traces w2 !! t) ->
  (forall v, r = Ret v -> Py.is_dict v = false) ->
  exists (ev : TelemetryEvent.t) (w5 : World),
    wrapper self func args kwargs w = (r, snd (send (transport self) ev w5)) /\
    TelemetryEvent.status ev = status (outcome_of exn_str r) /\
    TelemetryEvent.error_message ev = error_message (outcome_of exn_str r) /\
    TelemetryEvent.error_type ev = error_type (outcome_of exn_str r) /\
    TelemetryEvent.event_type ev
    = (if String.eqb (status (outcome_of exn_str r)) "SUCCESS"
       then "invocation.completed" else "invocation.failed") /\
    TelemetryEvent.agent_id ev = agent_id self /\
    TelemetryEvent.model_id ev = model_id self /\
    rate_counts w5 !! agent_id self
    = Some (default [] (rate_counts w2 !! agent_id self) ++ [mono w2]) /\
    calls w5 = calls w2.
Proof.
  intros Hnone Hint Hsend t root w1 Hcall Hheap Htr Hres.
  rewrite (wrapper_without_checker _ _ _ _ _ Hnone).
  set (w0 := with_traces (traces w ++ [TraceContext.make [] []]) w).
  assert (Htc0 : traces w0 !! t = Some (TraceContext.make [] [])).
  { subst w0 t. cbn [traces with_traces].
    rewrite lookup_app_r by lia. rewrite Nat.sub_diag. reflexivity. }
  pose proof (start_span_below_limit t _ w0 (__name__ func) chain None None Htc0
                ltac:(cbn; unfold MAX_SPANS_PER_TRACE; lia)) as Hstart.
  cbn [of_optional span_type_name] in Hstart.
  assert (Hw1 : w1 = with_child_span t w0 (TraceContext.make [] [])
                       (child_span w0 (TraceContext.make [] []) (__name__ func) chain
                          None None)).
  { subst w1. unfold in_root_span.
    rewrite (bind_known _ _ w t w0) by reflexivity.
    rewrite Hstart. reflexivity. }
  assert (Hroot : exists s, heap w2 !! root = Some s).
  { rewrite Hheap, Hw1. subst root. cbn [heap with_child_span with_heap with_traces
      with_uuid_supply w0].
    rewrite lookup_app_r by lia. rewrite Nat.sub_diag. eauto. }
  destruct Hroot as [s Hs].
  assert (Hnodict : Py.is_dict (result (outcome_of exn_str r)) = false).
  { destruct r as [v|e]; cbn [outcome_of].
    - cbn. apply Hres. reflexivity.
    - destruct (is_Exception e); reflexivity. }
  destruct (finalize_returns self func args (passed_kwargs func kwargs t) t root
              (wall w1) (mono w1) (outcome_of exn_str r) w2 s Hint Hsend Hnodict Hs Htr)
    as (ev & w5 & Hfin & Hev).
  exists ev, w5. split; [|exact Hev].
  unfold Decorators.traced_call.
  rewrite (bind_known _ _ w t w0) by reflexivity.
  rewrite (bind_known _ _ _ _ _ Hstart). rewrite <- Hw1.
  fold (passed_kwargs func kwargs t).
  rewrite (bind_known _ _ w1 (wall w1) w1) by reflexivity.
  rewrite (bind_known _ _ w1 (mono w1) w1) by reflexivity.
  unfold try_finally. rewrite Hcall.
  change (length (heap w0)) with root.
  rewrite Hfin. reflexivity.
Qed.





End TelemetrySafety.

Lemma telemetry_keeps_the_outcome_witness :
  fst (sample_wrapper decorator_with_failing_transport (raising "ask_agent" "boom")
         [] [] (initial_world backend_down))
  = Raise (Raised true "ValueError" "boom") /\
  fst (sample_wrapper decorator_with_failing_transport
         (returning "ask_agent" (PStr "ok")) [] [] (initial_world backend_down))
  = Ret (PStr "ok").
Proof.
  split.
  - destruct (telemetry_keeps_the_outcome sample_str sample_exn_str transparent_hash
                strict_int decorator_with_failing_transport (raising "ask_agent" "boom")
                [] [] (initial_world backend_down)
                (Raise (Raised true "ValueError" "boom"))
                (with_calls [mkCall "ask_agent" [] []]
                   (in_root_span (raising "ask_agent" "boom")
                      (initial_world backend_down)))
                eq_refl eq_refl (fun _ _ => eq_refl) eq_refl eq_refl
                (ex_intro _ _ eq_refl) ltac:(intros v; discriminate))
      as (ev & w5 & Hrun & _).
    unfold sample_wrapper. rewrite Hrun. reflexivity.
  - destruct (telemetry_keeps_the_outcome sample_str sample_exn_str transparent_hash
                strict_int decorator_with_failing_transport
                (returning "ask_agent" (PStr "ok"))
                [] [] (initial_world backend_down)
                (Ret (PStr "ok"))
                (with_calls [mkCall "ask_agent" [] []]
                   (in_root_span (returning "ask_agent" (PStr "ok"))
                      (initial_world backend_down)))
                eq_refl eq_refl (fun _ _ => eq_refl) eq_refl eq_refl
                (ex_intro _ _ eq_refl) ltac:(intros v [= <-]; reflexivity))
      as (ev & w5 & Hrun & _).
    unfold sample_wrapper. rewrite Hrun. reflexivity.
Defined.

(* ================================================================= *)
(** * Pre-invocation checks that cannot reach the backend *)
(* ================================================================= *)

Section UnreachableBackend.

Import Decorators.

Variable py_str : pyval -> string.
Variable exn_str : exn -> string.
Variable sha256_hexdigest : string -> string.
Variable pydantic_int : pyval -> option Z.

Local Abbreviation wrapper := (Decorators.wrapper py_str exn_str sha256_hexdigest pydantic_int).
Local Abbreviation traced_call :=
  (Decorators.traced_call py_str exn_str sha256_hexdigest pydantic_int).

(** X19.  A backend that is out of reach blocks nothing.  When the cache
    has no fresh entry for the agent and both fetches fail (the kill
    switch check and the policy check each try one), the two checks
    swallow the failure and the wrapped call goes on to the user
    function as it would without a checker, two requests and their
    waiting time later.  The cache is left as it was, so the next call
    tries the backend again. *)
Theorem unreachable_backend_blocks_nothing (chk : Status.AgentStatusChecker)
        (self : ObserveDecorator) (func : PyFunction) (args : list pyval)
        (kwargs : list (string * pyval)) (w : World)
        (latency1 latency2 : Q) (o1 o2 : GetOutcome) :
  status_checker self = Some (checker_of chk) ->
  miss_or_expired (agent_id self) w ->
  let url := Status.status_url chk (agent_id self) in
  backend w (length (requests w)) url = (latency1, o1) ->
  backend w (S (length (requests w))) url = (latency2, o2) ->
  fetch_fails o1 = true -> fetch_fails o2 = true ->
  (0 <= latency1)%Q ->
  let w1 := after_failed_get chk (agent_id self) latency1 w in
  let w2 := after_failed_get chk (agent_id self) latency2 w1 in
  kill_switch_check self w = (Ret tt, w1) /\
  policy_check self w1 = (Ret tt, w2) /\
  wrapper self func args kwargs w = traced_call self func args kwargs w2 /\
  status_cache w2 = status_cache w /\
  requests w2 = url :: url :: requests w /\
  calls w2 = calls w.
Proof.
  intros Hchk Hmiss url Hb1 Hb2 Hf1 Hf2 Hlat w1 w2.
  destruct (failed_lookups chk (agent_id self) w latency1 o1 Hmiss Hb1 Hf1)
    as [Hblocked _].
  assert (Hmiss1 : miss_or_expired (agent_id self) w1).
  { unfold miss_or_expired in *. subst w1. unfold after_failed_get.
    cbn [status_cache mono elapse with_mono with_wall with_requests].
    destruct (status_cache w !! agent_id self) as [entry|]; [|exact I]. lra. }
  destruct (failed_lookups chk (agent_id self) w1 latency2 o2 Hmiss1) as [_ Hpolicies].
  { subst w1. unfold after_failed_get.
    cbn [backend requests elapse with_mono with_wall with_requests length].
    exact Hb2. }
  { exact Hf2. }
  assert (Hkill : kill_switch_check self w = (Ret tt, w1)).
  { unfold kill_switch_check. rewrite Hchk. unfold fail_open. cbn [is_blocked checker_of].
    rewrite (bind_known _ _ _ _ _ Hblocked). reflexivity. }
  assert (Hpol : policy_check self w1 = (Ret tt, w2)).
  { unfold policy_check. rewrite Hchk. unfold fail_open. cbn [get_policies checker_of].
    rewrite (bind_known _ _ _ _ _ Hpolicies). reflexivity. }
  split; [exact Hkill|]. split; [exact Hpol|]. split.
  - unfold Decorators.wrapper.
    rewrite (bind_known _ _ _ _ _ Hkill). rewrite (bind_known _ _ _ _ _ Hpol).
    reflexivity.
  - repeat split.
Qed.

End UnreachableBackend.

Lemma unreachable_backend_blocks_nothing_witness :
  fst (sample_wrapper (checked_decorator failing_transport)
         (returning "ask_agent" (PStr "ok")) [] [] stale_blocked_world)
  = fst (Decorators.traced_call sample_str sample_exn_str transparent_hash strict_int
           (checked_decorator failing_transport) (returning "ask_agent" (PStr "ok")) [] []
           (after_failed_get sample_checker "agent-1" 0
              (after_failed_get sample_checker "agent-1" 0 stale_blocked_world))).
Proof.
  refine (f_equal fst (proj1 (proj2 (proj2
    (unreachable_backend_blocks_nothing sample_str sample_exn_str transparent_hash
       strict_int sample_checker (checked_decorator failing_transport)
       (returning "ask_agent" (PStr "ok")) [] [] stale_blocked_world 0 0
       (GetRaises (Raised true "ConnectError" "connection refused"))
       (GetRaises (Raised true "ConnectError" "connection refused"))
       eq_refl _ eq_refl eq_refl eq_refl eq_refl _))))).
  - unfold miss_or_expired. vm_compute. discriminate.
  - vm_compute. discriminate.
Defined.

(* ================================================================= *)
(** * Policy evaluation *)
(* ================================================================= *)

Section Policies.

Import Decorators.

Variable self : ObserveDecorator.

Lemma evaluate_policies_skips policy rest w :
  log_only_or_unknown policy = true ->
  evaluate_policies self (policy :: rest) w = evaluate_policies self rest w.
Proof.
  destruct policy as [| | | | | |d|]; try discriminate.
  cbn [log_only_or_unknown]. intros H.
  cbn [evaluate_policies]. unfold bind at 1, lift at 1. cbn [Py.get].
  unfold bind at 1, lift at 1. cbn [Py.get].
  unfold bind at 1, lift at 1. cbn [Py.get].
  destruct (negb (Py.eq_str match Py.assoc d "enforcement" with
                            | Some e => e
                            | None => PStr "BLOCK"
                            end "BLOCK")); [reflexivity|].
  cbn [orb] in H. apply negb_true_iff in H. unfold known_policy_type in H.
  apply orb_false_iff in H as [H Htime].
  apply orb_false_iff in H as [H Hrate].
  apply orb_false_iff in H as [Hcost Htoken].
  unfold check_policy. rewrite Hcost, Htoken, Hrate, Htime. reflexivity.
Qed.

(** X20.  Only BLOCK-enforced policies of a known type can block.  A list
    of policies of which each is enforced otherwise (any enforcement
    value that is not exactly ["BLOCK"]) or has a type without a
    branch in the evaluation yields no violation, and evaluating it
    reads and changes nothing: no invocation counter is pruned, no
    cost is estimated. *)
Theorem log_only_policies_never_block (policies : list pyval) (w : World) :
  forallb log_only_or_unknown policies = true ->
  _evaluate_pre_invocation_policies self (PList policies) w = (Ret None, w).
Proof.
  intros Hall. unfold _evaluate_pre_invocation_policies.
  cbn [Py.iter]. rewrite bind_lift_ret.
  induction policies as [|policy rest IH]; [reflexivity|].
  cbn [forallb] in Hall. apply andb_true_iff in Hall as [Hp Hrest].
  rewrite (evaluate_policies_skips _ _ _ Hp). exact (IH Hrest).
Qed.

Lemma utc_hour_range w : (0 <= hour_of w < 24)%Z.
Proof. unfold hour_of. apply Z.mod_pos_bound. lia. Qed.

Lemma hour_bound_list (l : list pyval) (i : nat) (fallback : Z) :
  hour_bound (PList l) i fallback
  = Ret (match l !! i with Some v => v | None => PInt fallback end).
Proof.
  unfold hour_bound, result_bind, Py.len, Py.index.
  destruct (Z.ltb_spec (Z.of_nat i) (Z.of_nat (length l))) as [Hlt|Hge].
  - destruct (l !! i) eqn:E; [reflexivity|].
    apply lookup_ge_None in E. lia.
  - rewrite (proj2 (lookup_ge_None l i)) by lia. reflexivity.
Qed.

Lemma check_policy_time_restriction (conditions : list (string * pyval))
      (hours : list Z) (w : World) :
  Py.get (PDict conditions) "allowed_hours_utc" (PList [PInt 0; PInt 24])
  = Ret (PList (map PInt hours)) ->
  check_policy self (PStr "TIME_RESTRICTION") (PDict conditions) w
  = (Ret (if (nth 0 hours 0 <=? hour_of w)%Z && (hour_of w <? nth 1 hours 24)%Z
          then None
          else Some (TimeRestrictionMessage (hour_of w) (PInt (nth 0 hours 0%Z))
                       (PInt (nth 1 hours 24%Z)))), w).
Proof.
  intros Hget. unfold check_policy.
  change (Py.eq_str (PStr "TIME_RESTRICTION") "COST_CAP") with false.
  change (Py.eq_str (PStr "TIME_RESTRICTION") "TOKEN_LIMIT") with false.
  change (Py.eq_str (PStr "TIME_RESTRICTION") "RATE_LIMIT") with false.
  change (Py.eq_str (PStr "TIME_RESTRICTION") "TIME_RESTRICTION") with true.
  cbv iota. rewrite Hget, bind_lift_ret.
  rewrite !hour_bound_list.
  assert (H0 : match map PInt hours !! 0%nat with Some v => v | None => PInt 0 end
               = PInt (nth 0 hours 0%Z)) by (destruct hours; reflexivity).
  assert (H1 : match map PInt hours !! 1%nat with Some v => v | None => PInt 24 end
               = PInt (nth 1 hours 24%Z)) by (destruct hours as [|x [|y l]]; reflexivity).
  rewrite H0, H1, !bind_lift_ret.
  rewrite (bind_known utc_hour _ w (hour_of w) w) by reflexivity.
  cbn [Py.le Py.order Py.as_num Py.compare Py.num_leb]. rewrite bind_lift_ret.
  destruct (nth 0 hours 0 <=? hour_of w)%Z; cbn [andb].
  - cbn [Py.lt Py.order Py.as_num Py.compare Py.num_ltb]. rewrite bind_lift_ret.
    destruct (hour_of w <? nth 1 hours 24)%Z; reflexivity.
  - rewrite bind_ret. reflexivity.
Qed.

(** X21.  A TIME_RESTRICTION policy allows the hours from
    [allowed_hours_utc[0]] (0 when missing) up to, not including,
    [allowed_hours_utc[1]] (24 when missing) of the current UTC day,
    and blocks at every other hour.  There is no wrap around midnight:
    a window whose end is not after its start, like 22 to 6, blocks at
    every hour.  A policy without [allowed_hours_utc] blocks at no
    hour. *)
Theorem time_restriction_has_no_wrap_around (policy_id : string)
        (allowed_hours_utc : option (list Z)) (w : World) :
  let hour := hour_of w in
  let hours := default [0; 24]%Z allowed_hours_utc in
  let allowed_start := nth 0 hours 0%Z in
  let allowed_end := nth 1 hours 24%Z in
  let violation :=
    mkViolation (PStr policy_id) (PStr "TIME_RESTRICTION")
      (TimeRestrictionMessage hour (PInt allowed_start) (PInt allowed_end)) in
  let verdict :=
    _evaluate_pre_invocation_policies self
      (PList [time_restriction_policy policy_id allowed_hours_utc]) w in
  verdict = (Ret (if (allowed_start <=? hour)%Z && (hour <? allowed_end)%Z
                  then None else Some violation), w) /\
  ((allowed_end <= allowed_start)%Z -> fst verdict = Ret (Some violation)) /\
  (allowed_hours_utc = None -> fst verdict = Ret None).
Proof.
  intros hour hours allowed_start allowed_end violation verdict.
  assert (Hverdict :
    verdict = (Ret (if (allowed_start <=? hour)%Z && (hour <? allowed_end)%Z
                    then None else Some violation), w)).
  { subst verdict. unfold _evaluate_pre_invocation_policies, time_restriction_policy.
    erewrite bind_known by reflexivity. simpl evaluate_policies.
    do 3 (erewrite bind_known by reflexivity).
    change (negb (Py.eq_str (PStr "BLOCK") "BLOCK")) with false. cbv iota.
    pose proof (check_policy_time_restriction
                  (match allowed_hours_utc with
                   | Some hs => [("allowed_hours_utc", PList (map PInt hs))]
                   | None => []
                   end) hours w
                  ltac:(subst hours; destruct allowed_hours_utc; reflexivity)) as Hcp.
    erewrite (bind_known (check_policy _ _ _)); [|exact Hcp].
    fold hour allowed_start allowed_end.
    destruct ((allowed_start <=? hour)%Z && (hour <? allowed_end)%Z); reflexivity. }
  split; [exact Hverdict|]. split.
  - intros Hwrap. rewrite Hverdict. cbn [fst].
    destruct (Z.leb_spec allowed_start hour); [|reflexivity].
    destruct (Z.ltb_spec hour allowed_end); [lia|reflexivity].
  - intros Hnone. rewrite Hverdict. cbn [fst].
    subst allowed_start allowed_end hours. rewrite Hnone. cbn [default nth].
    pose proof (utc_hour_range w) as Hh. fold hour in Hh.
    destruct (Z.leb_spec 0 hour); [|lia].
    destruct (Z.ltb_spec hour 24); [reflexivity|lia].
Qed.

(** X22.  A TOKEN_LIMIT policy compares two numbers of the policy document
    and nothing of the call: it blocks when [estimated_input_tokens]
    is given, is not zero and exceeds [max_tokens], and a policy
    without [estimated_input_tokens], or without [max_tokens], never
    blocks. *)
Theorem token_limit_reads_the_policy_only (policy_id : string)
        (max_tokens estimated_input_tokens : option Z) (w : World) :
  let blocks :=
    match estimated_input_tokens, max_tokens with
    | Some n, Some m => negb (n =? 0)%Z && (m <? n)%Z
    | _, _ => false
    end in
  let verdict :=
    _evaluate_pre_invocation_policies self
      (PList [token_limit_policy policy_id max_tokens estimated_input_tokens]) w in
  verdict
  = (Ret (if blocks
          then Some (mkViolation (PStr policy_id) (PStr "TOKEN_LIMIT")
                       (TokenLimitMessage
                          (PInt (default 0%Z estimated_input_tokens))
                          (match max_tokens with
                           | Some m => PInt m
                           | None => PFloat FInf
                           end)))
          else None), w).
Proof.
  intros blocks verdict. subst verdict blocks.
  unfold _evaluate_pre_invocation_policies, token_limit_policy.
  erewrite bind_known by reflexivity. simpl evaluate_policies.
  do 3 (erewrite bind_known by reflexivity).
  change (negb (Py.eq_str (PStr "BLOCK") "BLOCK")) with false. cbv iota.
  unfold check_policy.
  change (Py.eq_str (PStr "TOKEN_LIMIT") "COST_CAP") with false.
  change (Py.eq_str (PStr "TOKEN_LIMIT") "TOKEN_LIMIT") with true.
  cbv iota.
  destruct max_tokens as [m|], estimated_input_tokens as [n|]; cbn [app default];
    unfold bind, lift, ret; cbn [Py.get Py.assoc String.eqb Ascii.eqb Bool.eqb
                                 Py.truthy Py.gt Py.order Py.as_num Py.compare
                                 Py.num_ltb Py.to_float PyFloat.ltb PyFloat.of_Z];
    try reflexivity.
  - destruct (negb (n =? 0)%Z); cbn [andb]; [|reflexivity].
    destruct (m <? n)%Z; reflexivity.
  - destruct (negb (n =? 0)%Z); reflexivity.
Qed.


End Policies.

Lemma log_only_policies_never_block_witness :
  Decorators._evaluate_pre_invocation_policies guarded_decorator
    (PList [log_rate_limit; unknown_policy]) rate_history_world
  = (Ret None, rate_history_world).
Proof.
  exact (log_only_policies_never_block guarded_decorator
           [log_rate_limit; unknown_policy] rate_history_world eq_refl).
Defined.

(* ================================================================= *)
(** * Further properties of fingerprints *)
(* ================================================================= *)

Section Similarity.

Import Fingerprint.

Lemma ratio_sym (va vb : Z) : ratio va vb = ratio vb va.
Proof.
  unfold ratio. rewrite (Z.max_comm vb va).
  replace (Z.abs (vb - va)) with (Z.abs (va - vb)) by lia. reflexivity.
Qed.

Lemma clamp_range (x : Q) : (0 <= Qmax 0 (Qmin 1 x) <= 1)%Q.
Proof.
  unfold Qmax, Qmin.
  destruct (Qle_bool 1 x) eqn:E1.
  - change (Qle_bool 0 1) with true. cbv iota. lra.
  - destruct (Qle_bool 0 x) eqn:E0.
    + apply Qle_bool_iff in E0.
      assert (~ (1 <= x)%Q) by (intros H; apply Qle_bool_iff in H; congruence). lra.
    + lra.
Qed.

(** X24.  [compute_similarity] is symmetric and gives a score between 0 and
    1: 0 when a fingerprint is missing, 1 for a fingerprint compared
    with itself. *)
Theorem similarity_is_symmetric_and_bounded (a b : option t) :
  compute_similarity a b = compute_similarity b a /\
  (0 <= compute_similarity a b <= 1)%Q /\
  compute_similarity a a = match a with Some _ => 1%Q | None => 0%Q end /\
  compute_similarity None b = 0%Q.
Proof.
  split; [|split; [|split]].
  - destruct a as [a|], b as [b|]; try reflexivity. cbn [compute_similarity].
    rewrite (String.eqb_sym (prompt_hash b)), (String.eqb_sym (structure_hash b)).
    rewrite (ratio_sym (char_count b)), (ratio_sym (word_count b)),
      (ratio_sym (line_count b)). reflexivity.
  - destruct a as [a|], b as [b|]; cbn [compute_similarity]; try lra.
    destruct (String.eqb _ _); [lra|]. destruct (String.eqb _ _); [lra|].
    apply clamp_range.
  - destruct a as [a|]; [|reflexivity]. cbn [compute_similarity].
    rewrite String.eqb_refl. reflexivity.
  - reflexivity.
Qed.

End Similarity.

Section TemplateVariables.

Import Fingerprint.

Variable sha256_hexdigest : string -> string.

Local Abbreviation fingerprint := (compute_fingerprint sha256_hexdigest).

Lemma scan_without_braces (s : string) :
  PyStr.count_char "{" s = 0%nat -> scan None s = lits s.
Proof.
  induction s as [|c s IH]; [reflexivity|].
  cbn [PyStr.count_char scan]. rewrite (Ascii.eqb_sym c).
  destruct (Ascii.eqb "{" c); [discriminate|].
  intros H. rewrite (IH H). reflexivity.
Qed.

Lemma findall_lits (s : string) :
  omap (fun p => match p with Var name => Some name | Lit _ => None end) (lits s) = [].
Proof.
  unfold lits. induction (list_ascii_of_string s) as [|c l IH]; [reflexivity|].
  exact IH.
Qed.

Lemma render_lits (s : string) :
  fold_right (fun p acc => render p +:+ acc) EmptyString (lits s) = s.
Proof.
  unfold lits. induction s as [|c s IH]; [reflexivity|].
  cbn [list_ascii_of_string map fold_right render]. rewrite IH. reflexivity.
Qed.

Lemma lower_char_brace (c : ascii) :
  Ascii.eqb "{" (PyStr.lower_char c) = Ascii.eqb "{" c.
Proof.
  destruct c as [[] [] [] [] [] [] [] []]; reflexivity.
Qed.

Lemma count_braces_lower (s : string) :
  PyStr.count_char "{" (PyStr.lower s) = PyStr.count_char "{" s.
Proof.
  induction s as [|c s IH]; [reflexivity|].
  cbn [PyStr.lower PyStr.count_char]. rewrite lower_char_brace, IH. reflexivity.
Qed.

Lemma count_braces_lstrip (s : string) :
  (PyStr.count_char "{" (PyStr.lstrip s) <= PyStr.count_char "{" s)%nat.
Proof.
  induction s as [|c s IH]; [cbn; lia|].
  cbn [PyStr.lstrip]. destruct (PyStr.is_space c); [|lia].
  cbn [PyStr.count_char]. destruct (Ascii.eqb "{" c); lia.
Qed.

Lemma count_braces_rstrip (s : string) :
  (PyStr.count_char "{" (PyStr.rstrip s) <= PyStr.count_char "{" s)%nat.
Proof.
  induction s as [|c s IH]; [cbn; lia|].
  cbn [PyStr.rstrip]. destruct (PyStr.rstrip s) as [|d r] eqn:E.
  - destruct (PyStr.is_space c);
      cbn [PyStr.count_char]; destruct (Ascii.eqb "{" c); lia.
  - cbn [PyStr.count_char] in *. destruct (Ascii.eqb "{" c); lia.
Qed.

(** X25.  A prompt without an opening brace has no template variables, and
    its structure hash is its prompt hash: where nothing can be a
    placeholder, the skeleton is the normalized prompt itself. *)
Theorem prompt_without_braces (prompt : string) :
  PyStr.count_char "{" prompt = 0%nat ->
  template_vars (fingerprint prompt) = [] /\
  structure_hash (fingerprint prompt) = prompt_hash (fingerprint prompt) /\
  skeleton prompt = normalize prompt.
Proof.
  intros Hnone.
  assert (Hnorm : PyStr.count_char "{" (PyStr.lower (PyStr.strip prompt)) = 0%nat).
  { rewrite count_braces_lower. unfold PyStr.strip.
    pose proof (count_braces_rstrip (PyStr.lstrip prompt)).
    pose proof (count_braces_lstrip prompt). lia. }
  assert (Hskel : sub_VAR (PyStr.lower (PyStr.strip prompt))
                  = PyStr.lower (PyStr.strip prompt)).
  { unfold sub_VAR. rewrite (scan_without_braces _ Hnorm). apply render_lits. }
  unfold compute_fingerprint, skeleton, normalize.
  destruct (String.eqb prompt ""); cbn [template_vars structure_hash prompt_hash].
  - auto.
  - unfold findall. rewrite (scan_without_braces _ Hnone), findall_lits, Hskel. auto.
Qed.

(** ** The order of strings *)

Lemma ascii_compare_refl (c : ascii) : Ascii.compare c c = Eq.
Proof. unfold Ascii.compare. apply N.compare_refl. Qed.

Lemma ascii_compare_trans (a b c : ascii) :
  Ascii.compare a b = Lt -> Ascii.compare b c = Lt -> Ascii.compare a c = Lt.
Proof.
  unfold Ascii.compare. rewrite !N.compare_lt_iff. apply N.lt_trans.
Qed.

Lemma string_compare_refl (s : string) : String.compare s s = Eq.
Proof.
  induction s as [|c s IH]; [reflexivity|].
  cbn [String.compare]. rewrite ascii_compare_refl. exact IH.
Qed.

Lemma string_ltb_trans (a b c : string) :
  String.ltb a b = true -> String.ltb b c = true -> String.ltb a c = true.
Proof.
  unfold String.ltb.
  assert (H : String.compare a b = Lt -> String.compare b c = Lt ->
              String.compare a c = Lt).
  { revert b c. induction a as [|x a IH]; intros [|y b] [|z c]; cbn [String.compare];
      try discriminate; try reflexivity.
    destruct (Ascii.compare x y) eqn:Exy; try discriminate;
      destruct (Ascii.compare y z) eqn:Eyz; try discriminate.
    - apply Ascii.compare_eq_iff in Exy, Eyz. subst.
      rewrite ascii_compare_refl. apply IH.
    - apply Ascii.compare_eq_iff in Exy. subst. rewrite Eyz. reflexivity.
    - apply Ascii.compare_eq_iff in Eyz. subst. rewrite Exy. reflexivity.
    - rewrite (ascii_compare_trans _ _ _ Exy Eyz). reflexivity. }
  destruct (String.compare a b); try discriminate.
  destruct (String.compare b c); try discriminate.
  intros _ _. rewrite H; reflexivity.
Qed.

Lemma string_ltb_irrefl (a : string) : String.ltb a a = false.
Proof. unfold String.ltb. rewrite string_compare_refl. reflexivity. Qed.

Lemma string_trichotomy (a b : string) :
  String.eqb a b = false -> String.ltb a b = false -> String.ltb b a = true.
Proof.
  unfold String.ltb. rewrite (String.compare_antisym b a).
  destruct (String.compare a b) eqn:E; cbn; try discriminate; try reflexivity.
  apply String.compare_eq_iff in E. subst. rewrite String.eqb_refl. discriminate.
Qed.

Local Abbreviation ascending :=
  (Sorted (fun x y : string => String.ltb x y = true)).

Lemma insert_sorted_elements (x y : string) (l : list string) :
  In y (insert_sorted x l) <-> y = x \/ In y l.
Proof.
  induction l as [|z l IH]; cbn [insert_sorted In].
  - intuition congruence.
  - destruct (String.eqb_spec x z) as [->|Hne].
    + cbn [In]. intuition congruence.
    + destruct (String.ltb x z); cbn [In]; [intuition congruence|].
      rewrite IH. intuition congruence.
Qed.

Lemma insert_sorted_ascending (x : string) (l : list string) :
  ascending l -> ascending (insert_sorted x l).
Proof.
  induction l as [|z l IH]; intros Hs; cbn [insert_sorted].
  - repeat constructor.
  - destruct (String.eqb x z) eqn:Eeq; [exact Hs|].
    destruct (String.ltb x z) eqn:Elt.
    + constructor; [exact Hs|]. constructor. exact Elt.
    + inversion Hs as [|? ? Hl Hhd]; subst.
      constructor; [apply IH; exact Hl|].
      pose proof (string_trichotomy x z Eeq Elt) as Hzx.
      destruct l as [|u l]; cbn [insert_sorted].
      * constructor. exact Hzx.
      * inversion Hhd; subst.
        destruct (String.eqb x u); [constructor; assumption|].
        destruct (String.ltb x u); constructor; assumption.
Qed.

Lemma ascending_above_head (x : string) (l : list string) :
  ascending (x :: l) -> Forall (fun y => String.ltb x y = true) l.
Proof.
  revert x. induction l as [|z l IH]; intros x Hs; [constructor|].
  inversion Hs as [|? ? Hl Hhd]; subst. inversion Hhd; subst.
  constructor; [assumption|].
  eapply Forall_impl; [apply IH; exact Hl|].
  intros y Hy. cbn in Hy. eapply string_ltb_trans; eassumption.
Qed.

Lemma ascending_NoDup (l : list string) : ascending l -> List.NoDup l.
Proof.
  induction l as [|x l IH]; intros Hs; [constructor|].
  pose proof (ascending_above_head x l Hs) as Habove.
  inversion Hs; subst. constructor; [|apply IH; assumption].
  intros Hin. rewrite List.Forall_forall in Habove.
  specialize (Habove x Hin). rewrite string_ltb_irrefl in Habove. discriminate.
Qed.


(** X26.  The template variables of a fingerprint are the names that the
    pattern finds in the prompt, each listed once, in ascending
    order. *)
Theorem template_vars_sorted_without_repeats (prompt : string) :
  let vars := template_vars (fingerprint prompt) in
  Sorted (fun x y : string => String.ltb x y = true) vars /\
  List.NoDup vars /\
  (forall name, In name vars <-> In name (findall prompt)).
Proof.
  intros vars.
  assert (Hvars : vars = sorted_set (findall prompt)).
  { subst vars. unfold compute_fingerprint.
    destruct (String.eqb_spec prompt "") as [->|_]; reflexivity. }
  rewrite Hvars. clear Hvars vars.
  assert (Hs : ascending (sorted_set (findall prompt))).
  { unfold sorted_set. induction (findall prompt) as [|x l IH]; cbn [fold_right].
    - constructor.
    - apply insert_sorted_ascending. exact IH. }
  split; [exact Hs|]. split; [apply ascending_NoDup; exact Hs|].
  intros name. unfold sorted_set.
  induction (findall prompt) as [|x l IH]; cbn [fold_right In]; [reflexivity|].
  rewrite insert_sorted_elements.
  assert (Hl : ascending (fold_right insert_sorted [] l)).
  { clear. induction l as [|y l IH]; cbn [fold_right];
      [constructor | apply insert_sorted_ascending; exact IH]. }
  rewrite (IH Hl). intuition congruence.
Qed.

(** ** The names the pattern captures *)






End TemplateVariables.

Lemma prompt_without_braces_witness :
  Fingerprint.template_vars
    (Fingerprint.compute_fingerprint transparent_hash "  What is the weather?  ") = [] /\
  Fingerprint.structure_hash
    (Fingerprint.compute_fingerprint transparent_hash "  What is the weather?  ")
  = "what is the weather?".
Proof.
  destruct (prompt_without_braces transparent_hash "  What is the weather?  " eq_refl)
    as (Hvars & Hhash & _).
  split; [exact Hvars|]. rewrite Hhash. reflexivity.
Defined.


Lemma time_restriction_has_no_wrap_around_witness :
  hour_of late_evening_world = 23%Z /\
  fst (Decorators._evaluate_pre_invocation_policies guarded_decorator
         (PList [time_restriction_policy "p-night" (Some [22; 6]%Z)])
         late_evening_world)
  = Ret (Some (Decorators.mkViolation (PStr "p-night") (PStr "TIME_RESTRICTION")
                 (TimeRestrictionMessage 23 (PInt 22) (PInt 6)))).
Proof.
  split; [reflexivity|].
  exact (proj1 (proj2 (time_restriction_has_no_wrap_around guarded_decorator "p-night"
                         (Some [22; 6]%Z) late_evening_world))
           ltac:(cbn; lia)).
Defined.

(* ================================================================= *)
(** * Reading the response *)
(* ================================================================= *)

Section Containment.

Import Tracing Decorators.

Lemma contained_ret {A} (a : A) : contained (ret a).
Proof. intros w. reflexivity. Qed.

Lemma contained_lift {A} (r : Result A) : swallowed r = true -> contained (lift r).
Proof. intros H w. exact H. Qed.

Lemma contained_bind {A B} (m : M A) (k : A -> M B) :
  contained m -> (forall a, contained (k a)) -> contained (bind m k).
Proof.
  intros Hm Hk w. unfold bind. specialize (Hm w).
  destruct (m w) as [[a|e] w']; [apply Hk | exact Hm].
Qed.

Lemma contained_modify (f : World -> World) : contained (modify f).
Proof. intros w. reflexivity. Qed.

Lemma contained_for_each {A} (xs : list A) (body : A -> M unit) :
  (forall x, contained (body x)) -> contained (for_each xs body).
Proof.
  intros Hbody. induction xs as [|x xs IH]; cbn [for_each].
  - apply contained_ret.
  - apply contained_bind; [apply Hbody | intros _; exact IH].
Qed.

Lemma swallowed_get v key default : swallowed (Py.get v key default) = true.
Proof. destruct v; reflexivity. Qed.

Lemma swallowed_iter v : swallowed (Py.iter v) = true.
Proof. destruct v; reflexivity. Qed.

Lemma swallowed_result_bind {A B} (r : Result A) (k : A -> Result B) :
  swallowed r = true -> (forall a, swallowed (k a) = true) ->
  swallowed (result_bind r k) = true.
Proof. destruct r; cbn; auto. Qed.

Lemma contained_get_span a : contained (get_span a).
Proof. intros w. unfold get_span. destruct (heap w !! a); reflexivity. Qed.

Lemma contained_update_span a f : contained (update_span a f).
Proof.
  apply contained_bind; [apply contained_get_span | intros _; apply contained_modify].
Qed.

Lemma contained_get_trace t : contained (get_trace t).
Proof. intros w. unfold get_trace. destruct (traces w !! t); reflexivity. Qed.

Lemma contained_new_span name span_type parent input model_id :
  contained (new_span name span_type parent input model_id).
Proof.
  intros w. unfold new_span.
  destruct name; try reflexivity.
  destruct (span_type_of_string span_type); try reflexivity.
  destruct model_id; reflexivity.
Qed.

Lemma contained_start_span t name span_type input model_id :
  contained (start_span t name span_type input model_id).
Proof.
  unfold start_span. apply contained_bind; [apply contained_get_trace|].
  intros tc. destruct (_ <=? _)%nat; [apply contained_new_span|].
  apply contained_bind; [apply contained_new_span|]. intros a.
  apply contained_bind; [apply contained_get_span|]. intros s.
  apply contained_bind; [apply contained_modify | intros _; apply contained_ret].
Qed.

Lemma contained_estimate_cost m i o : contained (Cost.estimate_cost m i o).
Proof.
  intros w. unfold Cost.estimate_cost, bind, lift, get_world, ret, Py.div_1000.
  destruct m; cbn [Cost.lookup_key]; try reflexivity;
    destruct (Py.as_num i); try reflexivity;
    destruct (Py.as_num o); reflexivity.
Qed.

Lemma contained_pop_if_top t span_id : contained (pop_if_top t span_id).
Proof.
  unfold pop_if_top. apply contained_bind; [apply contained_get_trace|].
  intros tc. destruct (TraceContext._active_stack tc) as [|top rest];
    [apply contained_ret|].
  destruct (top =? span_id)%nat; [apply contained_modify | apply contained_ret].
Qed.

Lemma contained_end_span t a output status error i o m :
  contained (end_span t a output status error i o m).
Proof.
  unfold end_span.
  apply contained_bind; [intros w; reflexivity|]. intros now.
  apply contained_bind; [apply contained_update_span|]. intros _.
  apply contained_bind; [apply contained_get_span|]. intros s.
  apply contained_bind; [|intros _; apply contained_pop_if_top].
  destruct (_ && _); [|apply contained_ret].
  apply contained_bind; [apply contained_estimate_cost|].
  intros c. apply contained_update_span.
Qed.

Variable py_str : pyval -> string.
Variable exn_str : exn -> string.

Lemma contained_span {A} t name span_type input model_id (block : nat -> M A) :
  (forall s, contained (block s)) ->
  contained (SpanScope.span exn_str t name span_type input model_id block).
Proof.
  intros Hblock. unfold SpanScope.span.
  apply contained_bind; [apply contained_start_span|]. intros s w.
  specialize (Hblock s w). destruct (block s w) as [[a|exc] w'].
  - apply contained_bind; [apply contained_get_span|]. intros sp.
    apply contained_bind; [apply contained_end_span | intros _; apply contained_ret].
  - cbn in Hblock. rewrite Hblock.
    apply contained_bind; [apply contained_get_span|]. intros sp.
    apply contained_bind; [apply contained_end_span|]. intros _ w''. exact Hblock.
Qed.

Lemma swallowed_str_of_field d key :
  swallowed (str_of_field py_str d key) = true.
Proof.
  unfold str_of_field. apply swallowed_result_bind; [apply swallowed_get | reflexivity].
Qed.

Lemma contained_assign_output output s :
  swallowed output = true -> contained (assign_output output s).
Proof.
  intros H. unfold assign_output.
  apply contained_bind; [apply contained_lift; exact H|].
  intros text. apply contained_update_span.
Qed.

Lemma contained_llm_step t step : contained (llm_step py_str exn_str t step).
Proof.
  unfold llm_step. destruct (Py.is_dict step); [|apply contained_ret].
  apply contained_bind; [apply contained_lift, swallowed_get|]. intros name.
  apply contained_bind; [apply contained_lift, swallowed_str_of_field|]. intros text.
  apply contained_bind; [apply contained_lift, swallowed_get|]. intros model.
  apply contained_span. intros s. apply contained_assign_output.
  apply swallowed_result_bind; [apply swallowed_get|]. intros raw.
  apply swallowed_result_bind; [apply swallowed_str_of_field | reflexivity].
Qed.

Lemma contained_tool_step t inv : contained (tool_step py_str exn_str t inv).
Proof.
  unfold tool_step. destruct (Py.is_dict inv); [|apply contained_ret].
  apply contained_bind; [apply contained_lift, swallowed_get|]. intros action_input.
  destruct (Py.truthy action_input); [|apply contained_ret].
  apply contained_bind; [apply contained_lift, swallowed_get|]. intros name.
  apply contained_bind; [apply contained_lift, swallowed_str_of_field|]. intros path.
  apply contained_span. intros s. apply contained_assign_output.
  apply swallowed_str_of_field.
Qed.

(** X28.  The extraction of Bedrock trace data is best effort: whatever the
    response is, and whatever its trace data contains (steps that are
    not objects, names that are not strings, fields of any type),
    [_extract_bedrock_trace] returns and raises nothing. *)
Theorem extract_bedrock_trace_never_raises (response : pyval) (t : nat) (w : World) :
  fst (_extract_bedrock_trace py_str exn_str response t w) = Ret tt.
Proof.
  unfold _extract_bedrock_trace. destruct (Py.is_dict response); [|reflexivity].
  unfold try_except.
  match goal with
  | |- fst (match ?m w with _ => _ end) = _ =>
      assert (Hm : contained m); [|specialize (Hm w); destruct (m w) as [[[]|e] w']]
  end.
  - apply contained_bind; [apply contained_lift, swallowed_get|]. intros trace.
    apply contained_bind; [apply contained_lift, swallowed_get|]. intros orch_trace.
    destruct (negb (Py.truthy orch_trace)); [apply contained_ret|].
    apply contained_bind; [apply contained_lift, swallowed_get|]. intros steps.
    apply contained_bind; [apply contained_lift, swallowed_iter|]. intros steps'.
    apply contained_bind;
      [apply contained_for_each; intros x; apply contained_llm_step|]. intros _.
    apply contained_bind; [apply contained_lift, swallowed_get|]. intros invs.
    apply contained_bind; [apply contained_lift, swallowed_iter|]. intros invs'.
    apply contained_for_each. intros x. apply contained_tool_step.
  - reflexivity.
  - cbn in Hm. rewrite Hm. reflexivity.
Qed.

End Containment.

Lemma extract_bedrock_trace_never_raises_witness :
  let out := Decorators._extract_bedrock_trace sample_str sample_exn_str
               orchestration_response 0 world_with_trace in
  fst out = Ret tt /\
  map Span.name (heap (snd out)) = ["ORCHESTRATION"; "search"].
Proof.
  split.
  - exact (extract_bedrock_trace_never_raises sample_str sample_exn_str
             orchestration_response 0 world_with_trace).
  - reflexivity.
Defined.

Section TokenCounts.

Import Decorators.

(** X29.  Where the token counts of an event come from.  A response that
    is not a [dict] gives zero counts.  In a non-empty top-level
    [usage] object the camel-case keys win over the snake-case ones,
    which are read when the camel-case key is missing.  The [usage]
    object under [ResponseMetadata] is read only when the top-level
    one is missing or empty, and only its camel-case keys count.  A
    [usage] that is not an object gives zero counts.  The values are
    taken as they are, of whatever type. *)
Theorem token_counts_come_from_usage (d : list (string * pyval)) :
  (forall v, Py.is_dict v = false -> _extract_tokens v = (PInt 0, PInt 0)) /\
  (forall u, Py.assoc d "usage" = Some (PDict u) -> u <> [] ->
     _extract_tokens (PDict d)
     = (first_of u "inputTokens" "input_tokens",
        first_of u "outputTokens" "output_tokens")) /\
  (forall md u,
     Py.assoc d "usage" = None \/ Py.assoc d "usage" = Some (PDict []) ->
     Py.assoc d "ResponseMetadata" = Some (PDict md) ->
     Py.assoc md "usage" = Some (PDict u) -> u <> [] ->
     _extract_tokens (PDict d)
     = (count_at u "inputTokens", count_at u "outputTokens")) /\
  (forall x, Py.assoc d "usage" = Some x -> Py.truthy x = true ->
     Py.is_dict x = false ->
     _extract_tokens (PDict d) = (PInt 0, PInt 0)).
Proof.
  split; [|split; [|split]].
  - intros v Hv. destruct v; try reflexivity. discriminate.
  - intros u Hu Hne. unfold _extract_tokens, get_either, first_of, count_at.
    cbn [Py.get result_bind or_default]. rewrite Hu.
    destruct u as [|kv u]; [contradiction|]. cbn [Py.truthy Py.get result_bind or_default].
    reflexivity.
  - intros md u Husage Hmd Hu Hne. unfold _extract_tokens, count_at.
    cbn [Py.get result_bind or_default].
    assert (Hempty : Py.truthy (match Py.assoc d "usage" with
                                | Some x => x
                                | None => PDict []
                                end) = false)
      by (destruct Husage as [->| ->]; reflexivity).
    rewrite Hempty, Hmd. cbn [Py.get result_bind or_default]. rewrite Hu.
    destruct u as [|kv u]; [contradiction|]. cbn [Py.truthy Py.get result_bind or_default].
    reflexivity.
  - intros x Hx Htruthy Hnot. unfold _extract_tokens, get_either.
    cbn [Py.get result_bind or_default]. rewrite Hx, Htruthy.
    destruct x; try discriminate; reflexivity.
Qed.

End TokenCounts.

Lemma token_counts_come_from_usage_witness :
  Decorators._extract_tokens (PDict [("usage", PDict mixed_usage)]) = (PInt 9, PInt 3) /\
  Decorators._extract_tokens (PDict metadata_response) = (PInt 9, PInt 0).
Proof.
  split.
  - exact (proj1 (proj2 (token_counts_come_from_usage [("usage", PDict mixed_usage)]))
             mixed_usage eq_refl ltac:(discriminate)).
  - exact (proj1 (proj2 (proj2 (token_counts_come_from_usage metadata_response)))
             [("usage", PDict mixed_usage)] mixed_usage (or_introl eq_refl) eq_refl
             eq_refl ltac:(discriminate)).
Defined.

Section PromptText.

Import Decorators.

Lemma first_str_found candidates s :
  first_str candidates = Some s -> In (Some (PStr s)) candidates.
Proof.
  induction candidates as [|c l IH]; [discriminate|].
  cbn [first_str In]. destruct c as [[]|]; auto.
  intros [= ->]. left. reflexivity.
Qed.

Lemma first_str_none candidates :
  first_str candidates = None <-> forall s, ~ In (Some (PStr s)) candidates.
Proof.
  induction candidates as [|c l IH]; cbn [first_str In]; [tauto|].
  destruct c as [v|].
  - destruct v; try (rewrite IH; split;
                     [intros H s [Hs|Hs]; [discriminate | exact (H s Hs)]
                     |intros H s Hs; exact (H s (or_intror Hs))]).
    split; [discriminate|]. intros H. exfalso. apply (H s). left. reflexivity.
  - rewrite IH. split.
    + intros H s [Hs|Hs]; [discriminate | exact (H s Hs)].
    + intros H s Hs. exact (H s (or_intror Hs)).
Qed.

Lemma in_map_inv {A B} (f : A -> B) (l : list A) (y : B) :
  In y (map f l) -> exists x, In x l /\ f x = y.
Proof.
  induction l as [|x l IH]; cbn [map In]; [tauto|].
  intros [H|H]; [exists x; auto|]. destruct (IH H) as (x' & Hin & Heq). eauto.
Qed.

Lemma lookup_In {A} (l : list A) (i : nat) (x : A) : l !! i = Some x -> In x l.
Proof.
  revert i. induction l as [|y l IH]; intros [|i]; cbn; try discriminate.
  - intros [= ->]. auto.
  - intros H. right. exact (IH i H).
Qed.

(** X30.  The prompt text that is fingerprinted is one of the [str]
    arguments of the call, never anything else: a [str] passed under
    the keyword [prompt] always wins; any text found is a positional
    argument or the value of one of the keywords [prompt],
    [input_text], [query], [message]; and none is found exactly when
    no positional argument and none of these keywords holds a
    [str]. *)
Theorem prompt_text_is_an_argument (args : list pyval)
        (kwargs : list (string * pyval)) (params : list string) :
  (forall s, Py.assoc kwargs "prompt" = Some (PStr s) ->
             _extract_prompt_text args kwargs params = Some s) /\
  (forall s, _extract_prompt_text args kwargs params = Some s ->
             In (PStr s) args \/
             exists key, In key prompt_keys /\ Py.assoc kwargs key = Some (PStr s)) /\
  (_extract_prompt_text args kwargs params = None <->
   (forall s, ~ In (PStr s) args) /\
   (forall key s, In key prompt_keys -> Py.assoc kwargs key <> Some (PStr s))).
Proof.
  unfold _extract_prompt_text.
  set (by_keyword := first_str (map (Py.assoc kwargs) prompt_keys)).
  set (by_position :=
         first_str (map (fun key => match index_of key params with
                                    | Some idx => args !! idx
                                    | None => None
                                    end) prompt_keys)).
  assert (Hposition : forall s, by_position = Some s -> In (PStr s) args).
  { intros s H. apply first_str_found in H. apply in_map_inv in H as (key & _ & H).
    destruct (index_of key params) as [idx|]; [|discriminate].
    exact (lookup_In _ _ _ H). }
  assert (Hargs : forall s, first_str (map Some args) = Some s -> In (PStr s) args).
  { intros s H. apply first_str_found in H. apply in_map_inv in H as (x & Hin & [= ->]).
    exact Hin. }
  split; [|split].
  - intros s Hs. subst by_keyword. cbn [prompt_keys map first_str]. rewrite Hs.
    reflexivity.
  - intros s. destruct by_keyword as [s1|] eqn:E1.
    + intros [= ->]. right. apply first_str_found in E1.
      apply in_map_inv in E1 as (key & Hin & H). eauto.
    + destruct by_position as [s2|] eqn:E2.
      * intros [= ->]. left. exact (Hposition _ eq_refl).
      * intros H. left. exact (Hargs _ H).
  - destruct by_keyword as [s1|] eqn:E1.
    + split; [discriminate|]. intros [_ Hkw]. exfalso.
      apply first_str_found in E1. apply in_map_inv in E1 as (key & Hin & H).
      exact (Hkw key s1 Hin H).
    + destruct by_position as [s2|] eqn:E2.
      * split; [discriminate|]. intros [Hno _]. exfalso.
        exact (Hno s2 (Hposition _ eq_refl)).
      * split.
        -- intros H. split.
           ++ intros s Hs. apply (proj1 (first_str_none _) H s).
              apply in_map. exact Hs.
           ++ intros key s Hin Hs. apply (proj1 (first_str_none _) E1 s).
              rewrite <- Hs. apply in_map. exact Hin.
        -- intros [Hno _]. apply first_str_none. intros s Hs.
           apply in_map_inv in Hs as (x & Hin & [= ->]). exact (Hno s Hin).
Qed.

End PromptText.

Lemma prompt_text_is_an_argument_witness :
  Decorators._extract_prompt_text [PStr "system"; PStr "hello"]
    [("trace", PTrace 0); ("prompt", PStr "What is 2 + 2?")] ["role"; "prompt"]
  = Some "What is 2 + 2?".
Proof.
  exact (proj1 (prompt_text_is_an_argument [PStr "system"; PStr "hello"]
                  [("trace", PTrace 0); ("prompt", PStr "What is 2 + 2?")]
                  ["role"; "prompt"]) "What is 2 + 2?" eq_refl).
Defined.
